(** * Deep Research MCP server: the report assembler, the polling loop and
      the research handler of [deep_research_mcp.py], embedded and verified.

    Python [str] values are modelled as [string]; one [ascii] stands for one
    code point below 256.  The Azure agents service is an oracle that scripts
    the reply of every SDK call; every observable effect of the handler
    (logger lines, progress notifications, sleeps, SDK calls) is recorded in
    a trace of events. *)

From Stdlib Require Import Strings.String Strings.Ascii NArith Lia.
From stdpp Require Import gmap strings list.

Open Scope string_scope.
Open Scope list_scope.

#[local] Arguments String.append !s1 s2 : simpl nomatch.

(** ** Python string primitives *)

Module PyStr.

(** The line feed, written [\n] in the source. *)
Definition NL : string := String (ascii_of_nat 10) "".

(** [str.isspace] on one code point below 256: tab, line feed, vertical
    tab, form feed, carriage return, the separators 0x1c..0x1f, space,
    next line (0x85) and no-break space (0xa0). *)
Definition isspace (c : ascii) : bool :=
  existsb (N.eqb (N_of_ascii c))
          [9; 10; 11; 12; 13; 28; 29; 30; 31; 32; 133; 160]%N.

(** [s.lstrip()] *)
Fixpoint lstrip (s : string) : string :=
  match s with
  | EmptyString => EmptyString
  | String c r => if isspace c then lstrip r else s
  end.

(** [s.rstrip()] *)
Fixpoint rstrip (s : string) : string :=
  match s with
  | EmptyString => EmptyString
  | String c r =>
      match rstrip r with
      | EmptyString => if isspace c then EmptyString else String c EmptyString
      | r' => String c r'
      end
  end.

(** [s.strip()]: whitespace removed at both ends. *)
Definition strip (s : string) : string := rstrip (lstrip s).

(** [sep.join(parts)] *)
Fixpoint join (sep : string) (parts : list string) : string :=
  match parts with
  | [] => ""
  | [x] => x
  | x :: rest => x +:+ sep +:+ join sep rest
  end.

(** Truthiness of a [str]: the empty string is falsy. *)
Definition truthy (s : string) : bool :=
  match s with EmptyString => false | _ => true end.

(** Truthiness of an [Optional[str]]: [None] and [""] are falsy. *)
Definition opt_truthy (o : option string) : bool :=
  match o with Some s => truthy s | None => false end.

(** [a or b] for an [Optional[str]] on the left and a [str] on the right. *)
Definition or_else (a : option string) (b : string) : string :=
  match a with
  | Some s => if truthy s then s else b
  | None => b
  end.

(** [str(x)] of an [Optional[str]], as an f-string renders it. *)
Definition str_of_opt (o : option string) : string :=
  match o with Some s => s | None => "None" end.

(** Every code point of [s] is whitespace. *)
Fixpoint all_space (s : string) : bool :=
  match s with
  | EmptyString => true
  | String c r => isspace c && all_space r
  end.

(** First and last code point of a string. *)
Definition head (s : string) : option ascii :=
  match s with EmptyString => None | String c _ => Some c end.

Fixpoint last (s : string) : option ascii :=
  match s with
  | EmptyString => None
  | String c EmptyString => Some c
  | String _ r => last r
  end.

(** [s.startswith(p)] *)
Fixpoint startswith (p s : string) : bool :=
  match p, s with
  | EmptyString, _ => true
  | String a p', String b s' => if Ascii.eqb a b then startswith p' s' else false
  | String _ _, EmptyString => false
  end.

End PyStr.

(** ** Data model *)

(** A URL citation of an annotation: [ann.url_citation.title] is optional,
    [ann.url_citation.url] is not. *)
Record UrlCitation := mkUrlCitation {
  title : option string;
  url : string
}.

(** A [ThreadMessage], restricted to what the file reads: its [id], the
    values of its [text_messages] and the citations of its
    [url_citation_annotations]. *)
Record ThreadMessage := mkThreadMessage {
  msg_id : string;
  text_messages : list string;
  url_citation_annotations : list UrlCitation
}.

(** A [ThreadRun]: [last_error] holds [str(run.last_error)]. *)
Record ThreadRun := mkThreadRun {
  run_id : string;
  status : string;
  last_error : string
}.

(** The [report_type] literal of the tool signature. *)
Inductive ReportType := brief | medium | comprehensive.

Definition report_type_str (r : ReportType) : string :=
  match r with
  | brief => "brief"
  | medium => "medium"
  | comprehensive => "comprehensive"
  end.

(** ** Effects *)

(** Exceptions the handler can end with. *)
Inductive Exn :=
| UnboundLocalError (name : string)
| KeyError (key : string)
| ValueError (what : string)
| ServiceError (what : string).

(** Calls to the SDK clients. *)
Inductive SdkCall :=
| ConnectionsGet (name : string)
| CreateAgent (model : string) (tool_connection : string) (tool_model : string)
| ThreadsCreate
| MessagesCreate (thread_id : string) (content : string)
| RunsCreate (thread_id : string) (agent_id : string)
| RunsGet (thread_id : string) (run : string)
| GetLastMessageByRole (thread_id : string)
| DeleteAgent (agent_id : string).

(** What an invocation does to the outside, in order.  [FileWrite] stands
    for writing [content] to the file at [path]: the assembler is handed a
    [filepath], and a trace can say whether anything was written there. *)
Inductive Event :=
| LogInfo (line : string)
| CtxInfo (line : string)
| CtxError (line : string)
| Sleep (seconds : nat)
| Sdk (call : SdkCall)
| FileWrite (path content : string).

(** How a computation ends: with a value, with an exception, or still
    polling when the iteration budget is used up. *)
Inductive Res (A : Type) :=
| Ok (a : A)
| Raise (e : Exn)
| Pending.
Arguments Ok {A} a.
Arguments Raise {A} e.
Arguments Pending {A}.

(** A computation: its end and the events it emitted. *)
Definition M (A : Type) : Type := Res A * list Event.

Definition ret {A} (a : A) : M A := (Ok a, []).

Definition bind {A B} (m : M A) (k : A -> M B) : M B :=
  match m with
  | (Ok a, t) => let '(r, t') := k a in (r, t ++ t')
  | (Raise e, t) => (Raise e, t)
  | (Pending, t) => (Pending, t)
  end.

Definition emit (e : Event) : M unit := (Ok tt, [e]).
Definition raise {A} (e : Exn) : M A := (Raise e, []).

Notation "'do' x <- m ; k" := (bind m (fun x => k))
  (at level 10, x name, m at level 100, k at level 200).

(** [logger.info], [ctx.info], [ctx.error] and [asyncio.sleep]. *)
Definition logger_info (s : string) : M unit := emit (LogInfo s).
Definition ctx_info (s : string) : M unit := emit (CtxInfo s).
Definition ctx_error (s : string) : M unit := emit (CtxError s).
Definition asyncio_sleep (n : nat) : M unit := emit (Sleep n).

(** ** Report assembler *)

(** One turn of the loop over the annotations: [st] is
    [(report_content, seen_urls)]. *)
Definition references_step (st : string * gset string) (ann : UrlCitation)
  : string * gset string :=
  let '(report_content, seen_urls) := st in
  let u := url ann in
  let t := PyStr.or_else (title ann) u in
  if bool_decide (u ∈ seen_urls) then st
  else (report_content +:+ "- [" +:+ t +:+ "](" +:+ u +:+ ")" +:+ PyStr.NL,
        seen_urls ∪ {[u]}).

(** The pure part of [create_research_summary] on a message that is there. *)
Definition report_of (message : ThreadMessage) : string :=
  let report_content :=
    PyStr.join (PyStr.NL +:+ PyStr.NL) (map PyStr.strip (text_messages message)) in
  match url_citation_annotations message with
  | [] => report_content
  | anns =>
      fst (fold_left references_step anns
             (report_content +:+ PyStr.NL +:+ PyStr.NL +:+ "## References" +:+ PyStr.NL,
              ∅))
  end.

(** [create_research_summary(message, filepath)]: [None] for an absent
    message, the report otherwise. *)
Definition create_research_summary
    (message : option ThreadMessage) (filepath : string) : M (option string) :=
  match message with
  | None =>
      do _ <- logger_info "No message content provided, cannot create research summary.";
      ret None
  | Some m =>
      let report_content := report_of m in
      do _ <- logger_info ("Research report content:" +:+ PyStr.NL +:+ report_content);
      ret (Some report_content)
  end.

(** ** The agents service *)

(** The replies of the service and the process environment, as one
    invocation meets them.  [runs_get k] and [get_last_message_by_role k]
    are the replies to the [k]-th such call (from 0): run and thread
    identifiers are fixed within an invocation, the replies change with
    time. *)
Record AgentsService := mkAgentsService {
  environ : string -> option string;
  connections_get : string -> Exn + string;
  create_agent : Exn + string;
  threads_create : Exn + string;
  messages_create : string -> Exn + string;
  runs_create : Exn + ThreadRun;
  runs_get : nat -> Exn + ThreadRun;
  get_last_message_by_role : nat -> Exn + option ThreadMessage;
  delete_agent : Exn + unit
}.

(** An SDK call: the call is recorded, then it returns or raises. *)
Definition call {A} (c : SdkCall) (reply : Exn + A) : M A :=
  match reply with
  | inr a => (Ok a, [Sdk c])
  | inl e => (Raise e, [Sdk c])
  end.

(** A fallible pure step. *)
Definition lift {A} (r : Exn + A) : M A :=
  match r with
  | inr a => ret a
  | inl e => raise e
  end.

(** [os.environ[key]] *)
Definition os_environ (svc : AgentsService) (key : string) : M string :=
  match environ svc key with
  | Some v => ret v
  | None => raise (KeyError key)
  end.

(** [for x in xs: body(x)] *)
Fixpoint for_each {A} (body : A -> M unit) (xs : list A) : M unit :=
  match xs with
  | [] => ret tt
  | x :: rest => do _ <- body x; for_each body rest
  end.

(** [if ctx: await ctx.info(line)] *)
Definition ctx_info_if (ctx : bool) (line : string) : M unit :=
  if ctx then ctx_info line else ret tt.

(** ** Progress forwarding *)

Definition citation_line (ann : UrlCitation) : string :=
  "URL Citation: [" +:+ PyStr.str_of_opt (title ann) +:+ "](" +:+ url ann +:+ ")".

(** [fetch_and_print_new_agent_response]; [k] counts the earlier calls of
    [get_last_message_by_role], [ctx] tells whether a context was passed. *)
Definition fetch_and_print_new_agent_response
    (svc : AgentsService) (k : nat) (thread_id : string)
    (last_message_id : option string) (ctx : bool) : M (option string) :=
  do response <- call (GetLastMessageByRole thread_id)
                      (get_last_message_by_role svc k);
  match response with
  | None => ret last_message_id
  | Some r =>
      if bool_decide (Some (msg_id r) = last_message_id) then ret last_message_id
      else
        do _ <- logger_info (PyStr.NL +:+ "Agent response:");
        do _ <- logger_info (PyStr.join PyStr.NL (text_messages r));
        do _ <- ctx_info_if ctx (PyStr.NL +:+ "Agent response:"
                                 +:+ PyStr.join PyStr.NL (text_messages r));
        do _ <- for_each (fun ann =>
                  do _ <- logger_info (citation_line ann);
                  ctx_info_if ctx (citation_line ann))
                (url_citation_annotations r);
        ret (Some (msg_id r))
  end.

(** ** The instruction message *)

(** [template.format] with keyword arguments, for templates whose replacement fields are
    plain keyword names: [{{] and [}}] are the escaped braces, a field that
    is not closed or a lone [}] is a [ValueError], an unknown name a
    [KeyError]. *)
Definition kwarg (kwargs : list (string * string)) (name : string) : option string :=
  snd <$> find (fun kv => String.eqb (fst kv) name) kwargs.

Definition prepend (front : string) (r : Exn + string) : Exn + string :=
  match r with
  | inr s => inr (front +:+ s)
  | inl e => inl e
  end.

Fixpoint format_from (field : option string) (kwargs : list (string * string))
    (template : string) : Exn + string :=
  match template with
  | EmptyString =>
      match field with
      | None => inr ""
      | Some _ => inl (ValueError "expected '}' before end of string")
      end
  | String c rest =>
      match field with
      | Some name =>
          if Ascii.eqb c "}" then
            match kwarg kwargs name with
            | Some v => prepend v (format_from None kwargs rest)
            | None => inl (KeyError name)
            end
          else format_from (Some (name +:+ String c "")) kwargs rest
      | None =>
          if Ascii.eqb c "{" then
            match rest with
            | String "{" rest' => prepend "{" (format_from None kwargs rest')
            | _ => format_from (Some "") kwargs rest
            end
          else if Ascii.eqb c "}" then
            match rest with
            | String "}" rest' => prepend "}" (format_from None kwargs rest')
            | _ => inl (ValueError "Single '}' encountered in format string")
            end
          else prepend (String c "") (format_from None kwargs rest)
      end
  end.

Definition format (template : string) (kwargs : list (string * string))
  : Exn + string :=
  format_from None kwargs template.

Definition indent : string := "        ".

(** The triple-quoted literal of the handler, with the indentation it has
    in the source. *)
Definition report_instructions_template : string :=
  PyStr.NL
  +:+ indent +:+ "Provide a {report_type} report on the topic: '{research_topic}'." +:+ PyStr.NL
  +:+ indent +:+ "Use the language {language} for the report." +:+ PyStr.NL
  +:+ indent +:+ "Do not ask the user for any additional information, just provide the report." +:+ PyStr.NL
  +:+ indent.

(** The [report_instructions] expression of the handler. *)
Definition report_instructions
    (report_type : ReportType) (research_topic language : string)
    (other_instructions : option string) : Exn + string :=
  let kwargs := [("report_type", report_type_str report_type);
                 ("research_topic", research_topic);
                 ("language", language)] in
  if negb (PyStr.opt_truthy other_instructions) then
    format report_instructions_template kwargs
  else
    match format report_instructions_template kwargs with
    | inr s => inr (s +:+ "# Other Instructions" +:+ PyStr.NL +:+ PyStr.NL
                      +:+ PyStr.str_of_opt other_instructions
                      +:+ PyStr.NL +:+ PyStr.NL)
    | inl e => inl e
    end.

(** ** Polling loop and handler *)

(** [status in ("queued", "in_progress")] *)
Definition in_polling (s : string) : bool :=
  existsb (String.eqb s) ["queued"; "in_progress"].

(** The [while] loop of the handler.  [fuel] bounds the number of turns,
    [k] counts the turns already made; the loop hands back the local
    variables [run] and [last_message_id] and the number of turns made. *)
Fixpoint poll_loop (svc : AgentsService) (fuel k : nat) (thread_id : string)
    (run : ThreadRun) (last_message_id : option string)
  : M (ThreadRun * option string * nat) :=
  if in_polling (status run) then
    match fuel with
    | 0 => (Pending, [])
    | S fuel' =>
        do _ <- asyncio_sleep 10;
        do run' <- call (RunsGet thread_id (run_id run)) (runs_get svc k);
        do last' <- fetch_and_print_new_agent_response
                      svc k thread_id last_message_id true;
        do _ <- logger_info ("Run status: " +:+ status run');
        do _ <- ctx_info ("Run status: " +:+ status run');
        poll_loop svc fuel' (S k) thread_id run' last'
    end
  else ret (run, last_message_id, k).

(** The handler after the loop, left with [run] after [k] turns: the
    terminal notification, the report and the clean-up.  The local variable
    [report_content] is bound only in the branch that assigns it. *)
Definition report_and_cleanup (svc : AgentsService) (agent_id thread_id : string)
    (run : ThreadRun) (k : nat) : M string :=
  do _ <- logger_info ("Run finished with status: " +:+ status run
                       +:+ ", ID: " +:+ run_id run);
  do _ <- ctx_info ("Run finished with status: " +:+ status run);
  do _ <- (if String.eqb (status run) "failed" then
             do _ <- logger_info ("Run failed: " +:+ last_error run);
             ctx_error ("Run failed: " +:+ last_error run)
           else ret tt);
  do final_message <- call (GetLastMessageByRole thread_id)
                           (get_last_message_by_role svc k);
  do report_content <-
     match final_message with
     | Some m =>
         do r <- create_research_summary (Some m) "research_summary.md";
         ret (Some r)
     | None => ret None
     end;
  do _ <- call (DeleteAgent agent_id) (delete_agent svc);
  do _ <- logger_info "Deleted agent";
  match report_content with
  | Some v => ret (PyStr.or_else v "No report content generated.")
  | None => raise (UnboundLocalError "report_content")
  end.

(** The handler from the creation of the run on: the polling loop, then
    the rest. *)
Definition run_and_report (svc : AgentsService) (fuel : nat)
    (agent_id thread_id : string) : M string :=
  do run0 <- call (RunsCreate thread_id agent_id) (runs_create svc);
  do polled <- poll_loop svc fuel 0 thread_id run0 None;
  let '(run, _, k) := polled in
  report_and_cleanup svc agent_id thread_id run k.

(** [retrieve_deep_research_report] *)
Definition retrieve_deep_research_report (svc : AgentsService) (fuel : nat)
    (research_topic : string) (report_type : ReportType) (language : string)
    (other_instructions : option string) : M string :=
  do _ <- os_environ svc "PROJECT_ENDPOINT";
  do bing_name <- os_environ svc "BING_RESOURCE_NAME";
  do bing_connection <- call (ConnectionsGet bing_name) (connections_get svc bing_name);
  do deep_research_model <- os_environ svc "DEEP_RESEARCH_MODEL_DEPLOYMENT_NAME";
  do model <- os_environ svc "MODEL_DEPLOYMENT_NAME";
  do agent_id <- call (CreateAgent model bing_connection deep_research_model)
                      (create_agent svc);
  do _ <- ctx_info "Agent created.";
  do _ <- logger_info ("Created agent, ID: " +:+ agent_id);
  do thread_id <- call ThreadsCreate (threads_create svc);
  do _ <- ctx_info "Thread created.";
  do _ <- logger_info ("Created thread, ID: " +:+ thread_id);
  do instructions <- lift (report_instructions report_type research_topic
                             language other_instructions);
  do message_id <- call (MessagesCreate thread_id instructions)
                        (messages_create svc instructions);
  do _ <- logger_info ("Created message, ID: " +:+ message_id);
  do _ <- ctx_info "Starting the research process... this may take a few minutes. Be patient!";
  do _ <- logger_info "Start processing the message... this may take a few minutes to finish. Be patient!";
  run_and_report svc fuel agent_id thread_id.

(** ** Reading traces *)

(** The lines sent to the caller with [ctx.info]. *)
Definition ctx_infos (t : list Event) : list string :=
  omap (fun e => match e with CtxInfo s => Some s | _ => None end) t.

(** Logger lines and notifications: the progress output of a trace. *)
Definition is_output (e : Event) : bool :=
  match e with
  | LogInfo _ | CtxInfo _ | CtxError _ => true
  | _ => false
  end.

Definition progress_output (t : list Event) : list Event :=
  List.filter is_output t.

(** The terminal notifications of a trace. *)
Definition run_finished_notifications (t : list Event) : list string :=
  List.filter (PyStr.startswith "Run finished") (ctx_infos t).

(** The sleeps of a trace. *)
Definition sleeps (t : list Event) : list nat :=
  omap (fun e => match e with Sleep n => Some n | _ => None end) t.

(** The status the loop tests before turn [n]: the status of the run it
    starts from, then the status of each fetched run. *)
Definition status_at (svc : AgentsService) (run0 : ThreadRun) (n : nat)
  : option string :=
  match n with
  | 0 => Some (status run0)
  | S i => match runs_get svc i with inr r => Some (status r) | inl _ => None end
  end.

(** The status tested [i] turns after the loop stands at turn [k] with
    [run]. *)
Definition status_after (svc : AgentsService) (k : nat) (run : ThreadRun)
    (i : nat) : option string :=
  match i with
  | 0 => Some (status run)
  | S j => match runs_get svc (k + j) with
           | inr r => Some (status r)
           | inl _ => None
           end
  end.

(** Every call of the loop is answered: no SDK call of a turn raises. *)
Definition polls_served (svc : AgentsService) : Prop :=
  forall i, (exists r, runs_get svc i = inr r)
            /\ (exists m, get_last_message_by_role svc i = inr m).

(** The set-up of an invocation is answered: the four environment
    variables are set, and the connection, the agent, the thread and the
    message are created. *)
Definition setup_served (svc : AgentsService) (agent_id thread_id : string)
  : Prop :=
  is_Some (environ svc "PROJECT_ENDPOINT")
  /\ (exists bing, environ svc "BING_RESOURCE_NAME" = Some bing
                   /\ exists c, connections_get svc bing = inr c)
  /\ is_Some (environ svc "DEEP_RESEARCH_MODEL_DEPLOYMENT_NAME")
  /\ is_Some (environ svc "MODEL_DEPLOYMENT_NAME")
  /\ create_agent svc = inr agent_id
  /\ threads_create svc = inr thread_id
  /\ forall content, exists i, messages_create svc content = inr i.

(** The invocation gets through its set-up and its loop exits within the
    budget, after [k] turns, with [run]. *)
Definition run_ends (svc : AgentsService) (fuel : nat)
    (agent_id thread_id : string) (run : ThreadRun) (k : nat) : Prop :=
  setup_served svc agent_id thread_id
  /\ exists run0 last t,
       runs_create svc = inr run0
       /\ poll_loop svc fuel 0 thread_id run0 None = (Ok (run, last, k), t).

(** What the handler emits for a failed run. *)
Definition failure_events (run : ThreadRun) : list Event :=
  if String.eqb (status run) "failed" then
    [LogInfo ("Run failed: " +:+ last_error run);
     CtxError ("Run failed: " +:+ last_error run)]
  else [].

(** The events of the set-up, in order. *)
Definition setup_events (svc : AgentsService) (agent_id thread_id : string)
    (instructions : string) : list Event :=
  let env key := default "" (environ svc key) in
  [Sdk (ConnectionsGet (env "BING_RESOURCE_NAME"));
   Sdk (CreateAgent (env "MODEL_DEPLOYMENT_NAME")
          (match connections_get svc (env "BING_RESOURCE_NAME") with
           | inr c => c
           | inl _ => ""
           end)
          (env "DEEP_RESEARCH_MODEL_DEPLOYMENT_NAME"));
   CtxInfo "Agent created.";
   LogInfo ("Created agent, ID: " +:+ agent_id);
   Sdk ThreadsCreate;
   CtxInfo "Thread created.";
   LogInfo ("Created thread, ID: " +:+ thread_id);
   Sdk (MessagesCreate thread_id instructions);
   LogInfo ("Created message, ID: "
            +:+ match messages_create svc instructions with
                | inr i => i
                | inl _ => ""
                end);
   CtxInfo "Starting the research process... this may take a few minutes. Be patient!";
   LogInfo "Start processing the message... this may take a few minutes to finish. Be patient!"].

(** The contents of the messages posted to the thread. *)
Definition posted (t : list Event) : list string :=
  omap (fun e => match e with
                 | Sdk (MessagesCreate _ content) => Some content
                 | _ => None
                 end) t.

(** The events a poll can emit. *)
Definition fetch_event (e : Event) : bool :=
  match e with
  | Sdk (GetLastMessageByRole _) => true
  | LogInfo _ => true
  | CtxInfo s => negb (PyStr.startswith "Run finished" s)
  | _ => false
  end.

(** The events a turn of the polling loop can emit. *)
Definition loop_event (e : Event) : bool :=
  match e with
  | Sleep n => Nat.eqb n 10
  | Sdk (RunsGet _ _) | Sdk (GetLastMessageByRole _) => true
  | LogInfo _ => true
  | CtxInfo s => negb (PyStr.startswith "Run finished" s)
  | _ => false
  end.

(** What a poll emits for a new agent message [r]. *)
Definition announcement (r : ThreadMessage) (ctx : bool) : list Event :=
  snd (do _ <- logger_info (PyStr.NL +:+ "Agent response:");
       do _ <- logger_info (PyStr.join PyStr.NL (text_messages r));
       do _ <- ctx_info_if ctx (PyStr.NL +:+ "Agent response:"
                                +:+ PyStr.join PyStr.NL (text_messages r));
       for_each (fun ann =>
                   do _ <- logger_info (citation_line ann);
                   ctx_info_if ctx (citation_line ann))
                (url_citation_annotations r)).

(** The identifier of the latest agent message the first [n] polls have
    found, if any. *)
Fixpoint latest_id (svc : AgentsService) (n : nat) : option string :=
  match n with
  | 0 => None
  | S i =>
      match get_last_message_by_role svc i with
      | inr (Some r) => Some (msg_id r)
      | _ => latest_id svc i
      end
  end.

(** The message poll [i] has to announce: the one it finds, when its
    identifier is not that of the latest message found before. *)
Definition news_at (svc : AgentsService) (i : nat) : option ThreadMessage :=
  match get_last_message_by_role svc i with
  | inr (Some r) =>
      if bool_decide (Some (msg_id r) = latest_id svc i) then None else Some r
  | _ => None
  end.

(** The messages the polls [k], ..., [k + n - 1] have to announce, in
    order. *)
Definition announced (svc : AgentsService) (k n : nat) : list ThreadMessage :=
  omap (news_at svc) (seq k n).

(** The notification that announces an agent message to the caller. *)
Definition response_line (r : ThreadMessage) : string :=
  PyStr.NL +:+ "Agent response:" +:+ PyStr.join PyStr.NL (text_messages r).

(** The notifications of a trace that announce an agent message. *)
Definition response_lines (t : list Event) : list string :=
  List.filter (PyStr.startswith (PyStr.NL +:+ "Agent response:")) (ctx_infos t).

(** Among the first [n] polls an identifier, once replaced by another,
    does not come back: messages are only added to the thread. *)
Definition stable_ids (svc : AgentsService) (n : nat) : Prop :=
  forall i j l ri rj rl,
    i < j -> j < l -> l < n ->
    get_last_message_by_role svc i = inr (Some ri) ->
    get_last_message_by_role svc j = inr (Some rj) ->
    get_last_message_by_role svc l = inr (Some rl) ->
    msg_id ri = msg_id rl ->
    msg_id rj = msg_id ri.

(** The instruction message as the specification describes it: the
    template with the three values in place, then the block of the other
    instructions when there are some. *)
Definition formatted_template (report_type : ReportType)
    (research_topic language : string) : string :=
  PyStr.NL
  +:+ indent +:+ "Provide a " +:+ report_type_str report_type
  +:+ " report on the topic: '" +:+ research_topic +:+ "'." +:+ PyStr.NL
  +:+ indent +:+ "Use the language " +:+ language +:+ " for the report." +:+ PyStr.NL
  +:+ indent +:+ "Do not ask the user for any additional information, just provide the report." +:+ PyStr.NL
  +:+ indent.

Definition other_instructions_block (other_instructions : option string) : string :=
  match other_instructions with
  | Some (String c s) =>
      "# Other Instructions" +:+ PyStr.NL +:+ PyStr.NL +:+ String c s
      +:+ PyStr.NL +:+ PyStr.NL
  | Some EmptyString | None => ""
  end.

(** ** The report as the specification words it *)

(** [t] is [s] trimmed of surrounding whitespace: [s] is [t] between two
    runs of whitespace, and [t] neither starts nor ends with whitespace. *)
Definition edge_ok (o : option ascii) : Prop :=
  match o with
  | Some c => PyStr.isspace c = false
  | None => True
  end.

Definition is_trim (s t : string) : Prop :=
  exists l r, s = l +:+ t +:+ r
              /\ PyStr.all_space l = true /\ PyStr.all_space r = true
              /\ edge_ok (PyStr.head t) /\ edge_ok (PyStr.last t).

(** A blank line between two segments. *)
Definition blank_line : string := PyStr.NL +:+ PyStr.NL.

(** The body of a report: the trimmed text segments, a blank line between
    each two. *)
Definition report_body (message : ThreadMessage) : string :=
  PyStr.join blank_line (map PyStr.strip (text_messages message)).

(** The annotations that are the first of their URL, in the order of the
    message. *)
Fixpoint first_seen (anns : list UrlCitation) : list UrlCitation :=
  match anns with
  | [] => []
  | a :: rest => a :: filter (fun b => url b <> url a) (first_seen rest)
  end.

(** The title an entry shows: the annotation's own, or its URL when it has
    none. *)
Definition shown_title (ann : UrlCitation) : string :=
  match title ann with
  | Some (String c t) => String c t
  | Some EmptyString | None => url ann
  end.

(** One Markdown entry of the reference list. *)
Definition reference_line (ann : UrlCitation) : string :=
  "- [" +:+ shown_title ann +:+ "](" +:+ url ann +:+ ")" +:+ PyStr.NL.

Definition reference_lines (entries : list UrlCitation) : string :=
  foldr (fun e acc => reference_line e +:+ acc) "" entries.

Definition references_header : string :=
  PyStr.NL +:+ PyStr.NL +:+ "## References" +:+ PyStr.NL.

(** The references section: nothing for a message without annotations. *)
Definition references_section (anns : list UrlCitation) : string :=
  match anns with
  | [] => ""
  | _ => references_header +:+ reference_lines (first_seen anns)
  end.

(** The segments with a blank line between each two, built from the left
    as the specification reads: the first segment, then a blank line and
    the next one for every further segment. *)
Definition joined_by_blank_line (segments : list string) : string :=
  match segments with
  | [] => ""
  | s :: rest => foldl (fun acc x => acc +:+ blank_line +:+ x) s rest
  end.

(** ** Sample inputs *)

Definition sample_segments : list string :=
  ["  Remote work reshapes cities. " +:+ PyStr.NL; PyStr.NL +:+ "Density falls."].

Definition sample_citations : list UrlCitation :=
  [mkUrlCitation (Some "Urban study") "https://a.example/1";
   mkUrlCitation None "https://b.example/2";
   mkUrlCitation (Some "Other title") "https://a.example/1";
   mkUrlCitation (Some "") "https://c.example/3";
   mkUrlCitation (Some "Late") "https://b.example/2"].

Definition sample_message : ThreadMessage :=
  mkThreadMessage "msg_1" sample_segments sample_citations.

Definition plain_message : ThreadMessage :=
  mkThreadMessage "msg_2" sample_segments [].


(** The process environment of the samples: the four variables the handler
    reads are set, nothing else is. *)
Definition sample_environ (key : string) : option string :=
  if existsb (String.eqb key)
       ["PROJECT_ENDPOINT"; "BING_RESOURCE_NAME";
        "DEEP_RESEARCH_MODEL_DEPLOYMENT_NAME"; "MODEL_DEPLOYMENT_NAME"]
  then Some ("value of " +:+ key)
  else None.

Definition sample_run (st : string) : ThreadRun :=
  mkThreadRun "run_1" st "rate limit exceeded".

(** A service that answers every call: the run is created with status
    [first], the [k]-th fetch of the run shows the [k]-th status of [later]
    and [settled] once these are used up; the [k]-th fetch of the last agent
    message gives [messages k]; the deletion of the agent ends as
    [deletion] says. *)
Definition scripted_service (first : string) (later : list string)
    (settled : string) (messages : nat -> option ThreadMessage)
    (deletion : Exn + unit) : AgentsService :=
  mkAgentsService
    sample_environ
    (fun name => inr ("connection of " +:+ name))
    (inr "agent_1")
    (inr "thread_1")
    (fun _ => inr "msg_0")
    (inr (sample_run first))
    (fun k => inr (sample_run (nth k later settled)))
    (fun k => inr (messages k))
    deletion.

(** queued, then in_progress, then completed; the agent message appears
    with the second fetch. *)
Definition queued_to_completed : AgentsService :=
  scripted_service "queued" ["in_progress"] "completed"
    (fun k => match k with 0 => None | _ => Some sample_message end)
    (inr tt).

(** A run that fails after one turn and leaves an agent message. *)
Definition failed_with_message : AgentsService :=
  scripted_service "in_progress" [] "failed"
    (fun _ => Some sample_message) (inr tt).

(** A run that completes and leaves no agent message. *)
Definition completed_without_message : AgentsService :=
  scripted_service "queued" [] "completed" (fun _ => None) (inr tt).

(** A completed run with a message, whose agent cannot be deleted. *)
Definition deletion_refused : AgentsService :=
  scripted_service "queued" [] "completed"
    (fun _ => Some sample_message)
    (inl (ServiceError "agent deletion refused")).

(** A run that never leaves the queue. *)
Definition always_queued : AgentsService :=
  scripted_service "queued" [] "queued" (fun _ => None) (inr tt).

(** ** More readers of traces and services *)

(** The lines sent to the logger. *)
Definition log_infos (t : list Event) : list string :=
  omap (fun e => match e with LogInfo s => Some s | _ => None end) t.

(** The SDK calls of a trace, in order. *)
Definition sdk_calls (t : list Event) : list SdkCall :=
  omap (fun e => match e with Sdk c => Some c | _ => None end) t.

Definition is_create_agent (c : SdkCall) : bool :=
  match c with CreateAgent _ _ _ => true | _ => false end.

Definition is_delete_agent (c : SdkCall) : bool :=
  match c with DeleteAgent _ => true | _ => false end.

Definition is_connections_get (c : SdkCall) : bool :=
  match c with ConnectionsGet _ => true | _ => false end.

(** The calls of a turn of the loop. *)
Definition is_poll_call (c : SdkCall) : bool :=
  match c with RunsGet _ _ | GetLastMessageByRole _ => true | _ => false end.

(** The environment variables the handler reads, in the order it reads
    them. *)
Definition required_variables : list string :=
  ["PROJECT_ENDPOINT"; "BING_RESOURCE_NAME";
   "DEEP_RESEARCH_MODEL_DEPLOYMENT_NAME"; "MODEL_DEPLOYMENT_NAME"].

Definition unset (svc : AgentsService) (key : string) : bool :=
  match environ svc key with Some _ => false | None => true end.

(** The first variable, in reading order, that is not set. *)
Definition first_missing (svc : AgentsService) : option string :=
  List.find (unset svc) required_variables.

(** The "Run status" notifications of a trace. *)
Definition status_lines (t : list Event) : list string :=
  List.filter (PyStr.startswith "Run status: ") (ctx_infos t).

(** The statuses of the runs the first [n] turns fetch. *)
Definition fetched_statuses (svc : AgentsService) (n : nat) : list string :=
  omap (fun i => match runs_get svc i with
                 | inr r => Some (status r)
                 | inl _ => None
                 end) (seq 0 n).

(** A message with other annotations, or other text segments. *)
Definition with_annotations (m : ThreadMessage) (anns : list UrlCitation)
  : ThreadMessage :=
  mkThreadMessage (msg_id m) (text_messages m) anns.

Definition with_segments (m : ThreadMessage) (segments : list string)
  : ThreadMessage :=
  mkThreadMessage (msg_id m) segments (url_citation_annotations m).

(** [padded] is [s] with whitespace added around it. *)
Definition is_padding (s padded : string) : Prop :=
  exists l r, padded = l +:+ s +:+ r
              /\ PyStr.all_space l = true /\ PyStr.all_space r = true.

(** ** More sample inputs *)

(** Citations with pairwise distinct URLs. *)
Definition distinct_citations : list UrlCitation :=
  [mkUrlCitation (Some "Urban study") "https://a.example/1";
   mkUrlCitation None "https://b.example/2";
   mkUrlCitation (Some "") "https://c.example/3"].

(** The scripted service of a completed run in a process where
    [MODEL_DEPLOYMENT_NAME] is not set. *)
Definition model_variable_unset : AgentsService :=
  mkAgentsService
    (fun key => if String.eqb key "MODEL_DEPLOYMENT_NAME" then None
                else sample_environ key)
    (fun name => inr ("connection of " +:+ name))
    (inr "agent_1")
    (inr "thread_1")
    (fun _ => inr "msg_0")
    (inr (sample_run "queued"))
    (fun _ => inr (sample_run "completed"))
    (fun _ => inr (Some sample_message))
    (inr tt).

(** A service whose second fetch of the run is refused. *)
Definition run_fetch_refused : AgentsService :=
  mkAgentsService
    sample_environ
    (fun name => inr ("connection of " +:+ name))
    (inr "agent_1")
    (inr "thread_1")
    (fun _ => inr "msg_0")
    (inr (sample_run "queued"))
    (fun k => match k with
              | 0 => inr (sample_run "in_progress")
              | _ => inl (ServiceError "run fetch refused")
              end)
    (fun _ => inr None)
    (inr tt).

(** A run that fails after one turn and leaves an agent message, whose
    agent the service then refuses to delete. *)
Definition failed_deletion_refused : AgentsService :=
  scripted_service "in_progress" [] "failed"
    (fun _ => Some sample_message)
    (inl (ServiceError "agent deletion refused")).

(** Three turns that all find the same agent message. *)
Definition same_message_three_turns : AgentsService :=
  scripted_service "queued" ["in_progress"; "in_progress"] "completed"
    (fun _ => Some sample_message) (inr tt).

(** ** The assembler over any implementation of Python's [set] *)

Definition is_file_write (e : Event) : bool :=
  match e with FileWrite _ _ => true | _ => false end.

(** What the assembler uses of a [set] of strings: the empty set, [add]
    and the membership test.  Python's set is a hash table, and the hashes
    of strings are salted anew in every process: two runs on the same
    message do not build the same table. *)
Record PySet := mkPySet {
  carrier : Type;
  set_empty : carrier;
  set_add : string -> carrier -> carrier;
  set_contains : string -> carrier -> bool
}.

(** An implementation is a set when nothing is in the empty one and [add]
    adds its element and nothing else. *)
Definition lawful (impl : PySet) : Prop :=
  (forall x, set_contains impl x (set_empty impl) = false)
  /\ (forall x y s,
        set_contains impl x (set_add impl y s)
        = String.eqb x y || set_contains impl x s).

(** The finite sets of the model above. *)
Definition gset_impl : PySet :=
  mkPySet (gset string) ∅ (fun y s => s ∪ {[y]})
          (fun x s => bool_decide (x ∈ s)).

(** Another layout: a list, the element added last in front. *)
Definition list_impl : PySet :=
  mkPySet (list string) [] (fun y s => y :: s)
          (fun x s => existsb (String.eqb x) s).

(** The loop over the annotations, [seen_urls] being a set of [impl]. *)
Definition references_step_in (impl : PySet) (st : string * carrier impl)
    (ann : UrlCitation) : string * carrier impl :=
  let '(report_content, seen_urls) := st in
  let u := url ann in
  let t := PyStr.or_else (title ann) u in
  if set_contains impl u seen_urls then st
  else (report_content +:+ "- [" +:+ t +:+ "](" +:+ u +:+ ")" +:+ PyStr.NL,
        set_add impl u seen_urls).

Definition report_in (impl : PySet) (message : ThreadMessage) : string :=
  let report_content :=
    PyStr.join (PyStr.NL +:+ PyStr.NL) (map PyStr.strip (text_messages message)) in
  match url_citation_annotations message with
  | [] => report_content
  | anns =>
      fst (fold_left (references_step_in impl) anns
             (report_content +:+ PyStr.NL +:+ PyStr.NL +:+ "## References" +:+ PyStr.NL,
              set_empty impl))
  end.

(** [create_research_summary(message, filepath)] in a run whose sets are
    those of [impl]. *)
Definition create_research_summary_in (impl : PySet)
    (message : option ThreadMessage) (filepath : string) : M (option string) :=
  match message with
  | None =>
      do _ <- logger_info "No message content provided, cannot create research summary.";
      ret None
  | Some m =>
      let report_content := report_in impl m in
      do _ <- logger_info ("Research report content:" +:+ PyStr.NL +:+ report_content);
      ret (Some report_content)
  end.
(** ** Facts on strings *)

Lemma append_nil_r (s : string) : s +:+ "" = s.
Proof. induction s as [|c s IH]; simpl; [reflexivity | now rewrite IH]. Qed.

Lemma append_assoc (a b c : string) : (a +:+ b) +:+ c = a +:+ (b +:+ c).
Proof. induction a as [|x a IH]; simpl; [reflexivity | now rewrite IH]. Qed.

Lemma all_space_app (a b : string) :
  PyStr.all_space (a +:+ b) = PyStr.all_space a && PyStr.all_space b.
Proof.
  induction a as [|x a IH]; simpl; [reflexivity |].
  rewrite IH. now rewrite andb_assoc.
Qed.

Lemma lstrip_split (s : string) :
  exists l, s = l +:+ PyStr.lstrip s
            /\ PyStr.all_space l = true /\ edge_ok (PyStr.head (PyStr.lstrip s)).
Proof.
  induction s as [|c s (l & Hs & Hl & Hh)]; simpl.
  - exists "". repeat split.
  - destruct (PyStr.isspace c) eqn:Hc.
    + exists (String c l). simpl. rewrite Hc, Hl. split; [now f_equal | now split].
    + exists "". simpl. repeat split. exact Hc.
Qed.

Lemma rstrip_split (s : string) :
  exists r, s = PyStr.rstrip s +:+ r
            /\ PyStr.all_space r = true /\ edge_ok (PyStr.last (PyStr.rstrip s)).
Proof.
  induction s as [|c s (r & Hs & Hr & Hl)]; simpl.
  - exists "". repeat split.
  - destruct (PyStr.rstrip s) as [|a t] eqn:Hrs.
    + simpl in Hs. subst r.
      destruct (PyStr.isspace c) eqn:Hc.
      * exists (String c s). simpl. rewrite Hc, Hr. repeat split.
      * exists s. simpl. repeat split; [exact Hr | exact Hc].
    + exists r. split; [| split; [exact Hr | exact Hl]].
      simpl. f_equal. exact Hs.
Qed.

Lemma rstrip_head (s : string) :
  edge_ok (PyStr.head s) -> edge_ok (PyStr.head (PyStr.rstrip s)).
Proof.
  destruct s as [|c s]; simpl; [trivial |].
  intros Hc. destruct (PyStr.rstrip s); [rewrite Hc |]; simpl; exact Hc.
Qed.

(** [strip] trims. *)
Lemma strip_is_trim (s : string) : is_trim s (PyStr.strip s).
Proof.
  unfold is_trim, PyStr.strip.
  destruct (lstrip_split s) as (l & Hs & Hl & Hh).
  destruct (rstrip_split (PyStr.lstrip s)) as (r & Ht & Hr & Hlast).
  exists l, r. split; [| split; [exact Hl | split; [exact Hr | split]]].
  - rewrite <- Ht. exact Hs.
  - now apply rstrip_head.
  - exact Hlast.
Qed.

Lemma lstrip_all_space (s : string) :
  PyStr.all_space s = true -> PyStr.lstrip s = "".
Proof.
  induction s as [|c s IH]; simpl; [reflexivity |].
  intros [Hc Hs]%andb_prop. rewrite Hc. now apply IH.
Qed.

Lemma lstrip_app_space (l s : string) :
  PyStr.all_space l = true -> PyStr.lstrip (l +:+ s) = PyStr.lstrip s.
Proof.
  induction l as [|c l IH]; simpl; [reflexivity |].
  intros [Hc Hl]%andb_prop. rewrite Hc. now apply IH.
Qed.

Lemma rstrip_all_space (s : string) :
  PyStr.all_space s = true -> PyStr.rstrip s = "".
Proof.
  induction s as [|c s IH]; simpl; [reflexivity |].
  intros [Hc Hs]%andb_prop. rewrite (IH Hs). now rewrite Hc.
Qed.

Lemma rstrip_app_space (t r : string) :
  PyStr.all_space r = true -> PyStr.rstrip (t +:+ r) = PyStr.rstrip t.
Proof.
  intros Hr. induction t as [|c t IH]; simpl.
  - now apply rstrip_all_space.
  - now rewrite IH.
Qed.

Lemma rstrip_fixed (t : string) : edge_ok (PyStr.last t) -> PyStr.rstrip t = t.
Proof.
  induction t as [|c t IH]; simpl; [reflexivity |].
  destruct t as [|a t].
  - simpl. intros Hc. now rewrite Hc.
  - intros H. rewrite (IH H). reflexivity.
Qed.

Lemma lstrip_fixed (t : string) : edge_ok (PyStr.head t) -> PyStr.lstrip t = t.
Proof.
  destruct t as [|c t]; simpl; [reflexivity |].
  intros Hc. now rewrite Hc.
Qed.

(** Trimming has one result, the one [strip] computes. *)
Lemma is_trim_unique (s t : string) : is_trim s t -> t = PyStr.strip s.
Proof.
  intros (l & r & -> & Hl & Hr & Hh & Hlast). unfold PyStr.strip.
  rewrite (lstrip_app_space l _ Hl).
  destruct t as [|c t].
  - simpl. rewrite (lstrip_all_space r Hr). reflexivity.
  - assert (Hfix : PyStr.lstrip (String c t +:+ r) = String c t +:+ r).
    { apply lstrip_fixed. exact Hh. }
    rewrite Hfix, (rstrip_app_space _ r Hr). symmetry. now apply rstrip_fixed.
Qed.

(** ** Facts on the reference list *)

Lemma or_else_shown_title (ann : UrlCitation) :
  PyStr.or_else (title ann) (url ann) = shown_title ann.
Proof. unfold shown_title. destruct (title ann) as [[|c t]|]; reflexivity. Qed.

Lemma reference_lines_cons (e : UrlCitation) (entries : list UrlCitation) :
  reference_lines (e :: entries) = reference_line e +:+ reference_lines entries.
Proof. reflexivity. Qed.

Lemma references_step_eq (acc : string) (seen : gset string) (a : UrlCitation) :
  references_step (acc, seen) a
  = if bool_decide (url a ∈ seen) then (acc, seen)
    else (acc +:+ reference_line a, seen ∪ {[url a]}).
Proof.
  unfold references_step, reference_line.
  now rewrite or_else_shown_title.
Qed.

(** The loop over the annotations appends, to what it starts from, the
    lines of the first occurrences whose URL was not seen before. *)
Lemma fold_references_step (anns : list UrlCitation) :
  forall (acc : string) (seen : gset string),
    fst (fold_left references_step anns (acc, seen))
    = acc +:+ reference_lines (filter (fun b => url b ∉ seen) (first_seen anns)).
Proof.
  induction anns as [|a rest IH]; intros acc seen.
  - simpl. now rewrite append_nil_r.
  - cbn [fold_left first_seen]. rewrite references_step_eq.
    case_bool_decide as Hin.
    + rewrite IH. f_equal. f_equal.
      rewrite filter_cons_False by (intros Hn; now apply Hn).
      rewrite list_filter_filter. apply list_filter_iff.
      intros b. split; [| now intros [Hb _]]. intros Hb.
      split; [exact Hb |]. intros Heq. apply Hb. now rewrite Heq.
    + assert (Hf : filter (fun b => url b ∉ seen ∪ {[url a]}) (first_seen rest)
                   = filter (fun b => url b ∉ seen)
                       (filter (fun b => url b <> url a) (first_seen rest))).
      { rewrite list_filter_filter. apply list_filter_iff. intros b.
        rewrite not_elem_of_union, not_elem_of_singleton. reflexivity. }
      rewrite IH, Hf. rewrite filter_cons_True by exact Hin.
      rewrite reference_lines_cons, append_assoc. reflexivity.
Qed.

Lemma first_seen_elem (anns : list UrlCitation) (e : UrlCitation) :
  e ∈ first_seen anns -> e ∈ anns.
Proof.
  induction anns as [|a rest IH]; simpl; [trivial |].
  rewrite !elem_of_cons, list_elem_of_filter. intros [-> | [_ He]]; auto.
Qed.

Lemma first_seen_urls (anns : list UrlCitation) (u : string) :
  u ∈ map url (first_seen anns) <-> u ∈ map url anns.
Proof.
  induction anns as [|a rest IH]; simpl; [reflexivity |].
  rewrite !elem_of_cons, <- IH.
  change (map url) with (fmap (M:=list) url). rewrite !list_elem_of_fmap.
  split.
  - intros [-> | (b & -> & [_ Hb]%list_elem_of_filter)]; [now left |].
    right. now exists b.
  - intros [-> | (b & -> & Hb)]; [now left |].
    destruct (decide (url b = url a)) as [Heq | Hne]; [now left |].
    right. exists b. split; [reflexivity |]. now apply list_elem_of_filter.
Qed.

Lemma first_seen_NoDup (anns : list UrlCitation) :
  NoDup (map url (first_seen anns)).
Proof.
  induction anns as [|a rest IH]; simpl; [constructor |].
  change (map url) with (fmap (M:=list) url) in *.
  apply NoDup_cons. split.
  - rewrite list_elem_of_fmap. intros (b & Hb & [Hne _]%list_elem_of_filter).
    now apply Hne.
  - clear -IH. induction (first_seen rest) as [|b l IHl]; [constructor |].
    rewrite fmap_cons in IH. apply NoDup_cons in IH as [Hb Hl].
    destruct (decide (url b <> url a)) as [Hne | Heq].
    + rewrite filter_cons_True by exact Hne. rewrite fmap_cons.
      apply NoDup_cons. split; [| now apply IHl].
      rewrite list_elem_of_fmap. intros (c & Hc & [_ Hin]%list_elem_of_filter).
      apply Hb. rewrite list_elem_of_fmap. now exists c.
    + rewrite filter_cons_False by exact Heq. now apply IHl.
Qed.

Lemma first_seen_sublist (anns : list UrlCitation) :
  sublist (first_seen anns) anns.
Proof.
  induction anns as [|a rest IH]; simpl; [constructor |].
  apply sublist_skip. etransitivity; [apply sublist_filter | exact IH].
Qed.

(** Every entry stands where its URL occurs first. *)
Lemma first_seen_first (anns : list UrlCitation) (e : UrlCitation) :
  e ∈ first_seen anns ->
  exists before after,
    anns = before ++ e :: after /\ url e ∉ map url before.
Proof.
  induction anns as [|a rest IH]; simpl; [now intros ?%elem_of_nil |].
  rewrite elem_of_cons, list_elem_of_filter. intros [-> | [Hne He]].
  - exists [], rest. split; [reflexivity | apply not_elem_of_nil].
  - destruct (IH He) as (before & after & -> & Hfresh).
    exists (a :: before), after. split; [reflexivity |].
    simpl. rewrite not_elem_of_cons. now split.
Qed.

Lemma filter_all {A} (P : A -> Prop) `{!forall x, Decision (P x)} (l : list A) :
  (forall x, P x) -> filter P l = l.
Proof.
  intros HP. induction l as [|b l IH]; [reflexivity |].
  rewrite filter_cons_True by apply HP. now rewrite IH.
Qed.

(** The report is its body followed by its references section. *)
Lemma report_of_split (m : ThreadMessage) :
  report_of m = report_body m +:+ references_section (url_citation_annotations m).
Proof.
  unfold report_of, references_section.
  destruct (url_citation_annotations m) as [|a rest] eqn:Hanns.
  - now rewrite append_nil_r.
  - rewrite fold_references_step.
    fold blank_line. fold (report_body m).
    rewrite filter_all by (intros b; apply not_elem_of_empty).
    unfold references_header. rewrite !append_assoc. reflexivity.
Qed.

Lemma foldl_blank_line (rest : list string) :
  forall s,
    foldl (fun acc x => acc +:+ blank_line +:+ x) s rest
    = PyStr.join blank_line (s :: rest).
Proof.
  induction rest as [|x rest IH]; intros s; [reflexivity |].
  cbn [foldl]. rewrite IH.
  destruct rest as [|y rest]; cbn [PyStr.join]; now rewrite ?append_assoc.
Qed.

Lemma join_blank_line (segments : list string) :
  PyStr.join blank_line segments = joined_by_blank_line segments.
Proof.
  destruct segments as [|s rest]; [reflexivity |].
  symmetry. apply foldl_blank_line.
Qed.

Lemma strip_all_trim (segments : list string) :
  Forall2 is_trim segments (map PyStr.strip segments).
Proof.
  induction segments as [|s rest IH]; simpl; constructor;
    [apply strip_is_trim | exact IH].
Qed.

Lemma trim_all_strip (segments trimmed : list string) :
  Forall2 is_trim segments trimmed -> trimmed = map PyStr.strip segments.
Proof.
  induction 1 as [|s t segments trimmed Hst _ IH]; simpl; [reflexivity |].
  now rewrite (is_trim_unique s t Hst), IH.
Qed.

Lemma create_research_summary_some (m : ThreadMessage) (filepath : string) :
  create_research_summary (Some m) filepath
  = (Ok (Some (report_of m)),
     [LogInfo ("Research report content:" +:+ PyStr.NL +:+ report_of m)]).
Proof. reflexivity. Qed.

(** ** The report assembler: properties *)

(** C3: for a message that carries citation annotations, duplicates
    included, the report ends with the references header followed by one
    Markdown entry per distinct URL: the entries have pairwise distinct
    URLs, cover exactly the URLs of the annotations, keep the order of the
    message, each is the first annotation of its URL, and an entry shows
    that annotation's title, or its URL when the title is missing. *)
Theorem references_unique_first_seen (m : ThreadMessage) (filepath : string) :
  url_citation_annotations m <> [] ->
  let anns := url_citation_annotations m in
  let entries := first_seen anns in
  fst (create_research_summary (Some m) filepath)
    = Ok (Some (report_body m +:+ references_header +:+ reference_lines entries))
  /\ NoDup (map url entries)
  /\ (forall u, u ∈ map url anns <-> u ∈ map url entries)
  /\ sublist entries anns
  /\ (forall e, e ∈ entries ->
        exists before after,
          anns = before ++ e :: after /\ url e ∉ map url before)
  /\ (forall e t, title e = Some t -> t <> "" ->
        reference_line e
        = "- [" +:+ t +:+ "](" +:+ url e +:+ ")" +:+ PyStr.NL)
  /\ (forall e, title e = None \/ title e = Some "" ->
        reference_line e
        = "- [" +:+ url e +:+ "](" +:+ url e +:+ ")" +:+ PyStr.NL).
Proof.
  intros Hanns anns entries. subst anns entries. repeat split.
  - rewrite create_research_summary_some, report_of_split. simpl.
    unfold references_section.
    destruct (url_citation_annotations m); [congruence | reflexivity].
  - apply first_seen_NoDup.
  - apply first_seen_urls.
  - apply first_seen_urls.
  - apply first_seen_sublist.
  - apply first_seen_first.
  - intros e t Ht Hne. unfold reference_line, shown_title. rewrite Ht.
    destruct t; [contradiction | reflexivity].
  - intros e [Ht | Ht]; unfold reference_line, shown_title; now rewrite Ht.
Qed.

Lemma references_unique_first_seen_witness :
  url_citation_annotations sample_message <> []
  /\ fst (create_research_summary (Some sample_message) "research_summary.md")
     = Ok (Some ("Remote work reshapes cities." +:+ PyStr.NL +:+ PyStr.NL
                 +:+ "Density falls." +:+ PyStr.NL +:+ PyStr.NL
                 +:+ "## References" +:+ PyStr.NL
                 +:+ "- [Urban study](https://a.example/1)" +:+ PyStr.NL
                 +:+ "- [https://b.example/2](https://b.example/2)" +:+ PyStr.NL
                 +:+ "- [https://c.example/3](https://c.example/3)" +:+ PyStr.NL)).
Proof.
  assert (H : url_citation_annotations sample_message <> []) by discriminate.
  split; [exact H |].
  exact (proj1 (references_unique_first_seen sample_message "research_summary.md" H)).
Defined.

(** C4: the report is a body followed by the references section (empty
    when there is no annotation); the body is the text segments, each
    trimmed of surrounding whitespace, in their order, with a blank line
    between each two. *)
Theorem report_body_trimmed_joined (m : ThreadMessage) (filepath : string) :
  exists trimmed,
    Forall2 is_trim (text_messages m) trimmed
    /\ fst (create_research_summary (Some m) filepath)
       = Ok (Some (joined_by_blank_line trimmed
                   +:+ references_section (url_citation_annotations m)))
    /\ (forall others, Forall2 is_trim (text_messages m) others -> others = trimmed).
Proof.
  exists (map PyStr.strip (text_messages m)). split; [apply strip_all_trim |].
  split.
  - rewrite create_research_summary_some, report_of_split. simpl.
    unfold report_body. now rewrite join_blank_line.
  - apply trim_all_strip.
Qed.

(** C8: for a message without citation annotations the report is the body
    alone, the trimmed segments joined by blank lines: no references
    section follows it. *)
Theorem no_annotations_no_references (m : ThreadMessage) (filepath : string) :
  url_citation_annotations m = [] ->
  fst (create_research_summary (Some m) filepath)
  = Ok (Some (joined_by_blank_line (map PyStr.strip (text_messages m)))).
Proof.
  intros Hanns. rewrite create_research_summary_some. simpl.
  unfold report_of. rewrite Hanns. now rewrite join_blank_line.
Qed.

Lemma no_annotations_no_references_witness :
  url_citation_annotations plain_message = []
  /\ fst (create_research_summary (Some plain_message) "research_summary.md")
     = Ok (Some ("Remote work reshapes cities." +:+ PyStr.NL +:+ PyStr.NL
                 +:+ "Density falls.")).
Proof.
  split; [reflexivity |].
  exact (no_annotations_no_references plain_message "research_summary.md" eq_refl).
Defined.

(** ** Facts on computations *)

Lemma bind_eq {A B} (m : M A) (k : A -> M B) :
  bind m k
  = (match fst m with
     | Ok a => fst (k a)
     | Raise e => Raise e
     | Pending => Pending
     end,
     snd m ++ match fst m with
              | Ok a => snd (k a)
              | _ => []
              end).
Proof.
  destruct m as [[a | e |] t]; simpl.
  - now destruct (k a).
  - now rewrite app_nil_r.
  - now rewrite app_nil_r.
Qed.

Lemma bind_ok {A B} (m : M A) (k : A -> M B) (a : A) (t : list Event) :
  m = (Ok a, t) -> bind m k = (fst (k a), t ++ snd (k a)).
Proof. intros ->. rewrite bind_eq. reflexivity. Qed.

Lemma pair_eta {A B} (p : A * B) : p = (fst p, snd p).
Proof. now destruct p. Qed.

Lemma for_each_ok {A} (body : A -> M unit) (xs : list A) :
  (forall x, fst (body x) = Ok tt) -> fst (for_each body xs) = Ok tt.
Proof.
  intros Hbody. induction xs as [|x xs IH]; [reflexivity |].
  cbn [for_each]. rewrite bind_eq. cbn [fst]. now rewrite Hbody.
Qed.

Lemma for_each_events {A} (P : Event -> Prop) (body : A -> M unit) (xs : list A) :
  (forall x, Forall P (snd (body x))) -> Forall P (snd (for_each body xs)).
Proof.
  intros Hbody. induction xs as [|x xs IH]; [constructor |].
  cbn [for_each]. rewrite bind_eq. cbn [snd].
  apply Forall_app. split; [apply Hbody |].
  destruct (fst (body x)); [exact IH | constructor | constructor].
Qed.

Lemma ctx_info_if_ok (ctx : bool) (line : string) :
  fst (ctx_info_if ctx line) = Ok tt.
Proof. now destruct ctx. Qed.

Lemma citation_ok (ctx : bool) (ann : UrlCitation) :
  fst (do _ <- logger_info (citation_line ann);
       ctx_info_if ctx (citation_line ann)) = Ok tt.
Proof. now destruct ctx. Qed.

(** ** Facts on a poll *)

(** A poll that finds no message, or the message reported last, only makes
    its call. *)
Lemma fetch_nothing_new (svc : AgentsService) (k : nat) (thread_id : string)
    (last_message_id : option string) (ctx : bool)
    (response : option ThreadMessage) :
  get_last_message_by_role svc k = inr response ->
  (response = None
   \/ exists r, response = Some r /\ Some (msg_id r) = last_message_id) ->
  fetch_and_print_new_agent_response svc k thread_id last_message_id ctx
  = (Ok last_message_id, [Sdk (GetLastMessageByRole thread_id)]).
Proof.
  intros Hreply Hsame. unfold fetch_and_print_new_agent_response.
  rewrite Hreply. destruct Hsame as [-> | (r & -> & Hid)]; simpl.
  - reflexivity.
  - now rewrite bool_decide_true.
Qed.

(** A poll that finds a new message announces it and returns its
    identifier. *)
Lemma fetch_new (svc : AgentsService) (k : nat) (thread_id : string)
    (last_message_id : option string) (ctx : bool) (r : ThreadMessage) :
  get_last_message_by_role svc k = inr (Some r) ->
  Some (msg_id r) <> last_message_id ->
  fetch_and_print_new_agent_response svc k thread_id last_message_id ctx
  = (Ok (Some (msg_id r)),
     Sdk (GetLastMessageByRole thread_id) :: announcement r ctx).
Proof.
  intros Hreply Hnew. unfold fetch_and_print_new_agent_response, announcement.
  rewrite Hreply. unfold call. rewrite bind_eq. cbn [fst snd].
  rewrite bool_decide_false by exact Hnew.
  rewrite !bind_eq. cbn [fst snd logger_info emit]. rewrite ctx_info_if_ok.
  rewrite (for_each_ok _ _ (citation_ok ctx)). cbn [fst snd ret].
  rewrite !app_nil_r. reflexivity.
Qed.

Lemma fetch_raises (svc : AgentsService) (k : nat) (thread_id : string)
    (last_message_id : option string) (ctx : bool) (e : Exn) :
  get_last_message_by_role svc k = inl e ->
  fetch_and_print_new_agent_response svc k thread_id last_message_id ctx
  = (Raise e, [Sdk (GetLastMessageByRole thread_id)]).
Proof.
  intros Hreply. unfold fetch_and_print_new_agent_response.
  now rewrite Hreply.
Qed.

Lemma announcement_events (r : ThreadMessage) (ctx : bool) :
  Forall (fun e => fetch_event e = true) (announcement r ctx).
Proof.
  unfold announcement. rewrite !bind_eq. cbn [fst snd logger_info emit].
  rewrite ctx_info_if_ok.
  repeat (apply Forall_app; split); try (repeat constructor).
  - destruct ctx; repeat constructor.
  - apply for_each_events. intros ann. destruct ctx; repeat constructor.
Qed.

(** The three ways a poll can go. *)
Lemma fetch_cases (svc : AgentsService) (k : nat) (thread_id : string)
    (last_message_id : option string) (ctx : bool) :
  (exists e, get_last_message_by_role svc k = inl e
     /\ fetch_and_print_new_agent_response svc k thread_id last_message_id ctx
        = (Raise e, [Sdk (GetLastMessageByRole thread_id)]))
  \/ fetch_and_print_new_agent_response svc k thread_id last_message_id ctx
     = (Ok last_message_id, [Sdk (GetLastMessageByRole thread_id)])
  \/ (exists r, get_last_message_by_role svc k = inr (Some r)
        /\ Some (msg_id r) <> last_message_id
        /\ fetch_and_print_new_agent_response svc k thread_id last_message_id ctx
           = (Ok (Some (msg_id r)),
              Sdk (GetLastMessageByRole thread_id) :: announcement r ctx)).
Proof.
  destruct (get_last_message_by_role svc k) as [e | [r |]] eqn:Hreply.
  - left. exists e. split; [reflexivity | now apply fetch_raises].
  - destruct (decide (Some (msg_id r) = last_message_id)) as [Hid | Hnew].
    + right. left. eapply fetch_nothing_new; [exact Hreply |].
      right. now exists r.
    + right. right. exists r. repeat split; [exact Hnew | now apply fetch_new].
  - right. left. eapply fetch_nothing_new; [exact Hreply | now left].
Qed.

Lemma fetch_events (svc : AgentsService) (k : nat) (thread_id : string)
    (last_message_id : option string) (ctx : bool) :
  Forall (fun e => fetch_event e = true)
         (snd (fetch_and_print_new_agent_response svc k thread_id
                 last_message_id ctx)).
Proof.
  destruct (fetch_cases svc k thread_id last_message_id ctx)
    as [(e & _ & ->) | [-> | (r & _ & _ & ->)]]; cbn [snd].
  - repeat constructor.
  - repeat constructor.
  - constructor; [reflexivity | apply announcement_events].
Qed.

(** ** Facts on the polling loop *)

Lemma fetch_event_loop_event (e : Event) :
  fetch_event e = true -> loop_event e = true.
Proof. destruct e as [| | | |[]|]; simpl; congruence. Qed.

Lemma fetch_events_no_sleep (t : list Event) :
  Forall (fun e => fetch_event e = true) t -> sleeps t = [].
Proof.
  induction 1 as [|e t He _ IH]; [reflexivity |].
  destruct e as [| | | |[]|]; simpl in *; congruence.
Qed.

Lemma poll_loop_done (svc : AgentsService) (fuel k : nat) (thread_id : string)
    (run : ThreadRun) (last_message_id : option string) :
  in_polling (status run) = false ->
  poll_loop svc fuel k thread_id run last_message_id
  = (Ok (run, last_message_id, k), []).
Proof. intros Hst. destruct fuel; simpl; now rewrite Hst. Qed.

Lemma poll_loop_pending (svc : AgentsService) (k : nat) (thread_id : string)
    (run : ThreadRun) (last_message_id : option string) :
  in_polling (status run) = true ->
  poll_loop svc 0 k thread_id run last_message_id = (Pending, []).
Proof. intros Hst. simpl. now rewrite Hst. Qed.

(** One turn of the loop whose calls are answered. *)
Lemma poll_loop_turn (svc : AgentsService) (fuel k : nat) (thread_id : string)
    (run run' : ThreadRun) (last_message_id last' : option string)
    (tf : list Event) :
  in_polling (status run) = true ->
  runs_get svc k = inr run' ->
  fetch_and_print_new_agent_response svc k thread_id last_message_id true
  = (Ok last', tf) ->
  poll_loop svc (S fuel) k thread_id run last_message_id
  = (fst (poll_loop svc fuel (S k) thread_id run' last'),
     Sleep 10 :: Sdk (RunsGet thread_id (run_id run))
       :: tf ++ LogInfo ("Run status: " +:+ status run')
       :: CtxInfo ("Run status: " +:+ status run')
       :: snd (poll_loop svc fuel (S k) thread_id run' last')).
Proof.
  intros Hst Hget Hfetch. cbn [poll_loop]. rewrite Hst, Hget, Hfetch.
  unfold asyncio_sleep, logger_info, ctx_info, emit, call.
  repeat (rewrite bind_eq; cbn [fst snd]). reflexivity.
Qed.

Lemma poll_loop_get_raises (svc : AgentsService) (fuel k : nat)
    (thread_id : string) (run : ThreadRun) (last_message_id : option string)
    (e : Exn) :
  in_polling (status run) = true ->
  runs_get svc k = inl e ->
  poll_loop svc (S fuel) k thread_id run last_message_id
  = (Raise e, [Sleep 10; Sdk (RunsGet thread_id (run_id run))]).
Proof.
  intros Hst Hget. cbn [poll_loop]. rewrite Hst, Hget. reflexivity.
Qed.

Lemma poll_loop_fetch_raises (svc : AgentsService) (fuel k : nat)
    (thread_id : string) (run run' : ThreadRun)
    (last_message_id : option string) (e : Exn) :
  in_polling (status run) = true ->
  runs_get svc k = inr run' ->
  get_last_message_by_role svc k = inl e ->
  poll_loop svc (S fuel) k thread_id run last_message_id
  = (Raise e, [Sleep 10; Sdk (RunsGet thread_id (run_id run));
               Sdk (GetLastMessageByRole thread_id)]).
Proof.
  intros Hst Hget Hreply. cbn [poll_loop].
  rewrite Hst, Hget, (fetch_raises _ _ _ _ _ _ Hreply). reflexivity.
Qed.

Lemma run_status_not_finished (s : string) :
  PyStr.startswith "Run finished" ("Run status: " +:+ s) = false.
Proof. reflexivity. Qed.

(** Every event of the loop is an event of a turn. *)
Lemma poll_loop_events (svc : AgentsService) (thread_id : string) (fuel : nat) :
  forall k run last_message_id,
    Forall (fun e => loop_event e = true)
           (snd (poll_loop svc fuel k thread_id run last_message_id)).
Proof.
  induction fuel as [|fuel IH]; intros k run last.
  - simpl. destruct (in_polling (status run)); constructor.
  - destruct (in_polling (status run)) eqn:Hst;
      [| rewrite poll_loop_done by exact Hst; constructor].
    destruct (runs_get svc k) as [e | run'] eqn:Hget.
    { rewrite (poll_loop_get_raises _ _ _ _ _ _ e Hst Hget). repeat constructor. }
    assert (Hev : Forall (fun e => loop_event e = true)
                    (snd (fetch_and_print_new_agent_response svc k thread_id
                            last true))).
    { eapply Forall_impl; [apply fetch_events | apply fetch_event_loop_event]. }
    destruct (fetch_and_print_new_agent_response svc k thread_id last true)
      as [[last' | e |] tf] eqn:Hfetch; cbn [snd] in Hev.
    + rewrite (poll_loop_turn _ _ _ _ _ _ _ _ _ Hst Hget Hfetch). cbn [snd].
      constructor; [reflexivity |]. constructor; [reflexivity |].
      apply Forall_app. split; [exact Hev |].
      constructor; [reflexivity |].
      constructor; [cbn [loop_event]; now rewrite run_status_not_finished |].
      apply IH.
    + cbn [poll_loop]. rewrite Hst, Hget, Hfetch. cbn [snd bind call asyncio_sleep emit app].
      constructor; [reflexivity |]. constructor; [reflexivity |]. exact Hev.
    + cbn [poll_loop]. rewrite Hst, Hget, Hfetch. cbn [snd bind call asyncio_sleep emit app].
      constructor; [reflexivity |]. constructor; [reflexivity |]. exact Hev.
Qed.

(** With every call answered, a poll returns. *)
Lemma fetch_served (svc : AgentsService) (k : nat) (thread_id : string)
    (last_message_id : option string) (ctx : bool) :
  (exists m, get_last_message_by_role svc k = inr m) ->
  exists last' tf,
    fetch_and_print_new_agent_response svc k thread_id last_message_id ctx
    = (Ok last', tf).
Proof.
  intros [m Hm].
  destruct (fetch_cases svc k thread_id last_message_id ctx)
    as [(e & He & _) | [-> | (r & _ & _ & ->)]]; [congruence | eauto | eauto].
Qed.

Lemma status_after_next (svc : AgentsService) (k : nat) (run run' : ThreadRun)
    (i : nat) :
  runs_get svc k = inr run' ->
  status_after svc (S k) run' i = status_after svc k run (S i).
Proof.
  intros Hget. destruct i as [|j]; simpl.
  - now rewrite Nat.add_0_r, Hget.
  - now rewrite Nat.add_succ_r.
Qed.

(** The loop exits only on a status outside the polling set. *)
Lemma poll_loop_exit_status (svc : AgentsService) (thread_id : string)
    (fuel : nat) :
  forall k run last_message_id run' last' k' t,
    poll_loop svc fuel k thread_id run last_message_id
    = (Ok (run', last', k'), t) ->
    in_polling (status run') = false
    /\ k <= k' /\ k' - k <= fuel
    /\ status_after svc k run (k' - k) = Some (status run')
    /\ forall i, i < k' - k ->
         exists s, status_after svc k run i = Some s /\ in_polling s = true.
Proof.
  induction fuel as [|fuel IH]; intros k run last run' last' k' t Hloop.
  - simpl in Hloop. destruct (in_polling (status run)) eqn:Hst; [discriminate |].
    inversion Hloop; subst. rewrite Nat.sub_diag.
    repeat split; [exact Hst | lia | lia | intros i Hi; lia].
  - destruct (in_polling (status run)) eqn:Hst.
    2:{ rewrite poll_loop_done in Hloop by exact Hst. inversion Hloop; subst.
        rewrite Nat.sub_diag.
        repeat split; [exact Hst | lia | lia | intros i Hi; lia]. }
    destruct (runs_get svc k) as [e | run1] eqn:Hget.
    { rewrite (poll_loop_get_raises _ _ _ _ _ _ e Hst Hget) in Hloop.
      discriminate. }
    destruct (fetch_and_print_new_agent_response svc k thread_id last true)
      as [[last1 | e |] tf] eqn:Hfetch.
    + rewrite (poll_loop_turn _ _ _ _ _ _ _ _ _ Hst Hget Hfetch) in Hloop.
      destruct (poll_loop svc fuel (S k) thread_id run1 last1)
        as [res t1] eqn:Hrest.
      cbn [fst snd] in Hloop. inversion Hloop; subst.
      destruct (IH _ _ _ _ _ _ _ Hrest) as (Hout & Hle & Hfuel & Hat & Hbefore).
      replace (k' - k) with (S (k' - S k)) by lia.
      repeat split; [exact Hout | lia | lia | |].
      * now rewrite <- (status_after_next svc k run run1 _ Hget).
      * intros [|i] Hi; [exists (status run); now split |].
        rewrite <- (status_after_next svc k run run1 _ Hget).
        apply Hbefore. lia.
    + cbn [poll_loop] in Hloop. rewrite Hst, Hget, Hfetch in Hloop. discriminate.
    + cbn [poll_loop] in Hloop. rewrite Hst, Hget, Hfetch in Hloop. discriminate.
Qed.

(** A status outside the polling set within the budget makes the loop
    exit, when every call is answered. *)
Lemma poll_loop_exits (svc : AgentsService) (thread_id : string) :
  polls_served svc ->
  forall n k run last_message_id s,
    status_after svc k run n = Some s ->
    in_polling s = false ->
    exists r t, poll_loop svc n k thread_id run last_message_id = (Ok r, t).
Proof.
  intros Hserved. induction n as [|n IH]; intros k run last s Hs Hout.
  - simpl in Hs. inversion Hs; subst.
    rewrite poll_loop_done by exact Hout. eauto.
  - destruct (in_polling (status run)) eqn:Hst;
      [| rewrite poll_loop_done by exact Hst; eauto].
    destruct (Hserved k) as [[run1 Hget] Hmsg].
    destruct (fetch_served svc k thread_id last true Hmsg) as (last1 & tf & Hfetch).
    rewrite (poll_loop_turn _ _ _ _ _ _ _ _ _ Hst Hget Hfetch).
    rewrite <- (status_after_next svc k run run1 _ Hget) in Hs.
    destruct (IH (S k) run1 last1 s Hs Hout) as (r & t & Hrest).
    rewrite Hrest. cbn [fst snd]. eauto.
Qed.

(** While every tested status is in the polling set the loop goes on:
    no budget is enough. *)
Lemma poll_loop_keeps_polling (svc : AgentsService) (thread_id : string) :
  polls_served svc ->
  forall fuel k run last_message_id,
    (forall i, i <= fuel ->
       exists s, status_after svc k run i = Some s /\ in_polling s = true) ->
    fst (poll_loop svc fuel k thread_id run last_message_id) = Pending.
Proof.
  intros Hserved. induction fuel as [|fuel IH]; intros k run last Hall.
  - destruct (Hall 0 ltac:(lia)) as (s & Hs & Hin).
    inversion Hs; subst. now rewrite poll_loop_pending.
  - destruct (Hall 0 ltac:(lia)) as (s & Hs & Hst).
    inversion Hs; subst.
    destruct (Hserved k) as [[run1 Hget] Hmsg].
    destruct (fetch_served svc k thread_id last true Hmsg) as (last1 & tf & Hfetch).
    rewrite (poll_loop_turn _ _ _ _ _ _ _ _ _ Hst Hget Hfetch). cbn [fst].
    apply IH. intros i Hi.
    rewrite (status_after_next svc k run run1 _ Hget). apply Hall. lia.
Qed.

(** More budget does not change how an exited loop ended. *)
Lemma poll_loop_more_fuel (svc : AgentsService) (thread_id : string)
    (fuel : nat) :
  forall extra k run last_message_id r t,
    poll_loop svc fuel k thread_id run last_message_id = (Ok r, t) ->
    poll_loop svc (fuel + extra) k thread_id run last_message_id = (Ok r, t).
Proof.
  induction fuel as [|fuel IH]; intros extra k run last r t Hloop.
  - simpl in Hloop. destruct (in_polling (status run)) eqn:Hst; [discriminate |].
    rewrite poll_loop_done by exact Hst. exact Hloop.
  - destruct (in_polling (status run)) eqn:Hst.
    2:{ rewrite poll_loop_done in Hloop |- * by exact Hst. exact Hloop. }
    destruct (runs_get svc k) as [e | run1] eqn:Hget.
    { rewrite (poll_loop_get_raises _ _ _ _ _ _ e Hst Hget) in Hloop.
      discriminate. }
    destruct (fetch_and_print_new_agent_response svc k thread_id last true)
      as [[last1 | e |] tf] eqn:Hfetch.
    + rewrite (poll_loop_turn _ _ _ _ _ _ _ _ _ Hst Hget Hfetch) in Hloop.
      cbn [Nat.add].
      rewrite (poll_loop_turn _ _ _ _ _ _ _ _ _ Hst Hget Hfetch).
      destruct (poll_loop svc fuel (S k) thread_id run1 last1)
        as [res t1] eqn:Hrest.
      cbn [fst snd] in Hloop. inversion Hloop; subst.
      now rewrite (IH extra _ _ _ _ _ Hrest).
    + cbn [poll_loop] in Hloop. rewrite Hst, Hget, Hfetch in Hloop. discriminate.
    + cbn [poll_loop] in Hloop. rewrite Hst, Hget, Hfetch in Hloop. discriminate.
Qed.

Lemma status_at_after (svc : AgentsService) (run0 : ThreadRun) (n : nat) :
  status_at svc run0 n = status_after svc 0 run0 n.
Proof. now destruct n. Qed.

Lemma loop_events_quiet (t : list Event) :
  Forall (fun e => loop_event e = true) t ->
  run_finished_notifications t = [] /\ posted t = []
  /\ Forall (fun n => n = 10) (sleeps t).
Proof.
  induction 1 as [|e t He _ (IHf & IHp & IHs)]; [now repeat split |].
  unfold run_finished_notifications in *.
  destruct e as [line | line | line | n | [] | path content]; simpl in *; try discriminate;
    repeat split; try assumption.
  - apply negb_true_iff in He. now rewrite He.
  - constructor; [now apply Nat.eqb_eq | assumption].
Qed.

Lemma poll_loop_sleeps (svc : AgentsService) (thread_id : string) (fuel : nat) :
  forall k run last_message_id run' last' k' t,
    poll_loop svc fuel k thread_id run last_message_id
    = (Ok (run', last', k'), t) ->
    sleeps t = replicate (k' - k) 10.
Proof.
  induction fuel as [|fuel IH]; intros k run last run' last' k' t Hloop.
  - simpl in Hloop. destruct (in_polling (status run)); [discriminate |].
    inversion Hloop; subst. now rewrite Nat.sub_diag.
  - destruct (in_polling (status run)) eqn:Hst.
    2:{ rewrite poll_loop_done in Hloop by exact Hst. inversion Hloop; subst.
        now rewrite Nat.sub_diag. }
    destruct (runs_get svc k) as [e | run1] eqn:Hget.
    { rewrite (poll_loop_get_raises _ _ _ _ _ _ e Hst Hget) in Hloop.
      discriminate. }
    pose proof (fetch_events svc k thread_id last true) as Hev.
    destruct (fetch_and_print_new_agent_response svc k thread_id last true)
      as [[last1 | e |] tf] eqn:Hfetch; cbn [snd] in Hev.
    + rewrite (poll_loop_turn _ _ _ _ _ _ _ _ _ Hst Hget Hfetch) in Hloop.
      destruct (poll_loop svc fuel (S k) thread_id run1 last1)
        as [res t1] eqn:Hrest.
      cbn [fst snd] in Hloop. inversion Hloop; subst.
      destruct (poll_loop_exit_status _ _ _ _ _ _ _ _ _ _ Hrest)
        as (_ & Hle & _).
      pose proof (IH _ _ _ _ _ _ _ Hrest) as Hsl.
      unfold sleeps in *. cbn [omap list_omap]. rewrite omap_app.
      fold (sleeps tf). rewrite (fetch_events_no_sleep tf Hev).
      cbn [app omap list_omap]. rewrite Hsl.
      replace (k' - k) with (S (k' - S k)) by lia. reflexivity.
    + cbn [poll_loop] in Hloop. rewrite Hst, Hget, Hfetch in Hloop. discriminate.
    + cbn [poll_loop] in Hloop. rewrite Hst, Hget, Hfetch in Hloop. discriminate.
Qed.

(** ** Facts on the handler *)

Lemma report_instructions_eq (report_type : ReportType)
    (research_topic language : string) (other_instructions : option string) :
  report_instructions report_type research_topic language other_instructions
  = inr (formatted_template report_type research_topic language
         +:+ other_instructions_block other_instructions).
Proof.
  destruct other_instructions as [[|c s]|].
  - cbn. now rewrite append_nil_r.
  - reflexivity.
  - cbn. now rewrite append_nil_r.
Qed.

(** The handler after the loop, when the last message is there and the
    agent is deleted. *)
Lemma cleanup_with_message (svc : AgentsService) (agent_id thread_id : string)
    (run : ThreadRun) (k : nat) (m : ThreadMessage) :
  get_last_message_by_role svc k = inr (Some m) ->
  delete_agent svc = inr tt ->
  report_and_cleanup svc agent_id thread_id run k
  = (Ok (PyStr.or_else (Some (report_of m)) "No report content generated."),
     [LogInfo ("Run finished with status: " +:+ status run
               +:+ ", ID: " +:+ run_id run);
      CtxInfo ("Run finished with status: " +:+ status run)]
     ++ failure_events run
     ++ [Sdk (GetLastMessageByRole thread_id);
         LogInfo ("Research report content:" +:+ PyStr.NL +:+ report_of m);
         Sdk (DeleteAgent agent_id);
         LogInfo "Deleted agent"]).
Proof.
  intros Hmsg Hdel. unfold report_and_cleanup, failure_events.
  rewrite Hmsg, Hdel. destruct (String.eqb (status run) "failed"); reflexivity.
Qed.

(** The handler after the loop, when there is no agent message. *)
Lemma cleanup_without_message (svc : AgentsService)
    (agent_id thread_id : string) (run : ThreadRun) (k : nat) :
  get_last_message_by_role svc k = inr None ->
  delete_agent svc = inr tt ->
  report_and_cleanup svc agent_id thread_id run k
  = (Raise (UnboundLocalError "report_content"),
     [LogInfo ("Run finished with status: " +:+ status run
               +:+ ", ID: " +:+ run_id run);
      CtxInfo ("Run finished with status: " +:+ status run)]
     ++ failure_events run
     ++ [Sdk (GetLastMessageByRole thread_id);
         Sdk (DeleteAgent agent_id);
         LogInfo "Deleted agent"]).
Proof.
  intros Hmsg Hdel. unfold report_and_cleanup, failure_events.
  rewrite Hmsg, Hdel. destruct (String.eqb (status run) "failed"); reflexivity.
Qed.

(** The handler after the loop, when the deletion of the agent raises. *)
Lemma cleanup_delete_raises (svc : AgentsService) (agent_id thread_id : string)
    (run : ThreadRun) (k : nat) (final_message : option ThreadMessage) (e : Exn) :
  get_last_message_by_role svc k = inr final_message ->
  delete_agent svc = inl e ->
  report_and_cleanup svc agent_id thread_id run k
  = (Raise e,
     [LogInfo ("Run finished with status: " +:+ status run
               +:+ ", ID: " +:+ run_id run);
      CtxInfo ("Run finished with status: " +:+ status run)]
     ++ failure_events run
     ++ Sdk (GetLastMessageByRole thread_id)
        :: snd (match final_message with
                | Some m => create_research_summary (Some m) "research_summary.md"
                | None => ret None
                end)
     ++ [Sdk (DeleteAgent agent_id)]).
Proof.
  intros Hmsg Hdel. unfold report_and_cleanup, failure_events.
  rewrite Hmsg, Hdel.
  destruct (String.eqb (status run) "failed"), final_message; reflexivity.
Qed.

(** After an answered set-up the handler is the set-up events followed by
    the run. *)
Lemma handler_after_setup (svc : AgentsService) (fuel : nat)
    (agent_id thread_id research_topic : string) (report_type : ReportType)
    (language : string) (other_instructions : option string) :
  setup_served svc agent_id thread_id ->
  retrieve_deep_research_report svc fuel research_topic report_type language
    other_instructions
  = (fst (run_and_report svc fuel agent_id thread_id),
     setup_events svc agent_id thread_id
       (formatted_template report_type research_topic language
        +:+ other_instructions_block other_instructions)
     ++ snd (run_and_report svc fuel agent_id thread_id)).
Proof.
  intros ([pe Hpe] & (bing & Hbing & c & Hconn) & [dm Hdm] & [mo Hmo]
          & Hagent & Hthread & Hmsg).
  destruct (Hmsg (formatted_template report_type research_topic language
                  +:+ other_instructions_block other_instructions))
    as [i Hi].
  unfold retrieve_deep_research_report, setup_events, os_environ.
  rewrite Hpe, Hbing, Hdm, Hmo, Hagent, Hthread, report_instructions_eq.
  cbn [lift default bind ret call app]. rewrite Hconn.
  cbn [bind ret call app logger_info ctx_info emit]. rewrite Hi.
  cbn [bind ret call app logger_info ctx_info emit].
  destruct (run_and_report svc fuel agent_id thread_id) as [res t].
  unfold default. cbn [from_option id fst snd]. rewrite Hconn.
  reflexivity.
Qed.

(** The run part of the handler, once the loop has exited. *)
Lemma run_and_report_after_loop (svc : AgentsService) (fuel : nat)
    (agent_id thread_id : string) (run0 run : ThreadRun)
    (last : option string) (k : nat) (t : list Event) :
  runs_create svc = inr run0 ->
  poll_loop svc fuel 0 thread_id run0 None = (Ok (run, last, k), t) ->
  run_and_report svc fuel agent_id thread_id
  = (fst (report_and_cleanup svc agent_id thread_id run k),
     Sdk (RunsCreate thread_id agent_id) :: t
     ++ snd (report_and_cleanup svc agent_id thread_id run k)).
Proof.
  intros Hcreate Hloop. unfold run_and_report. rewrite Hcreate.
  cbn [call bind]. rewrite Hloop. cbn [bind].
  destruct (report_and_cleanup svc agent_id thread_id run k) as [res t'].
  reflexivity.
Qed.

Lemma run_finished_app (t1 t2 : list Event) :
  run_finished_notifications (t1 ++ t2)
  = run_finished_notifications t1 ++ run_finished_notifications t2.
Proof.
  unfold run_finished_notifications, ctx_infos.
  now rewrite omap_app, List.filter_app.
Qed.

Lemma posted_app (t1 t2 : list Event) : posted (t1 ++ t2) = posted t1 ++ posted t2.
Proof. unfold posted. apply omap_app. Qed.

(** After the loop the handler sends the terminal notification, once. *)
Lemma cleanup_run_finished (svc : AgentsService) (agent_id thread_id : string)
    (run : ThreadRun) (k : nat) :
  run_finished_notifications (snd (report_and_cleanup svc agent_id thread_id run k))
  = ["Run finished with status: " +:+ status run].
Proof.
  unfold report_and_cleanup.
  destruct (String.eqb (status run) "failed"),
    (get_last_message_by_role svc k) as [e | [m |]],
    (delete_agent svc) as [e' | []]; reflexivity.
Qed.

Lemma cleanup_posts_nothing (svc : AgentsService) (agent_id thread_id : string)
    (run : ThreadRun) (k : nat) :
  posted (snd (report_and_cleanup svc agent_id thread_id run k)) = [].
Proof.
  unfold report_and_cleanup.
  destruct (String.eqb (status run) "failed"),
    (get_last_message_by_role svc k) as [e | [m |]],
    (delete_agent svc) as [e' | []]; reflexivity.
Qed.

Lemma run_and_report_posts_nothing (svc : AgentsService) (fuel : nat)
    (agent_id thread_id : string) :
  posted (snd (run_and_report svc fuel agent_id thread_id)) = [].
Proof.
  unfold run_and_report. destruct (runs_create svc) as [e | run0]; [reflexivity |].
  cbn [call]. rewrite bind_eq. cbn [fst snd]. rewrite bind_eq. cbn [snd].
  pose proof (poll_loop_events svc thread_id fuel 0 run0 None) as Hev.
  apply loop_events_quiet in Hev as (_ & Hposted & _).
  rewrite !posted_app, Hposted.
  destruct (poll_loop svc fuel 0 thread_id run0 None) as [[[[run last] k] | e |] t];
    cbn [fst snd]; [| reflexivity | reflexivity].
  now rewrite cleanup_posts_nothing.
Qed.

(** Whatever the service answers, the handler posts at most one message,
    and its content is the instruction message. *)
Lemma handler_posts (svc : AgentsService) (fuel : nat)
    (research_topic : string) (report_type : ReportType) (language : string)
    (other_instructions : option string) :
  let sent := posted (snd (retrieve_deep_research_report svc fuel research_topic
                             report_type language other_instructions)) in
  sent = []
  \/ sent = [formatted_template report_type research_topic language
             +:+ other_instructions_block other_instructions].
Proof.
  cbn zeta. unfold retrieve_deep_research_report, os_environ.
  rewrite report_instructions_eq.
  destruct (environ svc "PROJECT_ENDPOINT"); [| now left].
  destruct (environ svc "BING_RESOURCE_NAME") as [bing |]; [| now left].
  cbn [bind ret app]. destruct (connections_get svc bing); [now left |].
  cbn [bind ret call app].
  destruct (environ svc "DEEP_RESEARCH_MODEL_DEPLOYMENT_NAME"); [| now left].
  destruct (environ svc "MODEL_DEPLOYMENT_NAME"); [| now left].
  cbn [bind ret call app].
  destruct (create_agent svc) as [e | agent_id]; [now left |].
  cbn [bind ret call app logger_info ctx_info emit].
  destruct (threads_create svc) as [e | thread_id]; [now left |].
  cbn [bind ret call app logger_info ctx_info emit lift].
  destruct (messages_create svc _); [now right |].
  cbn [bind ret call app logger_info ctx_info emit].
  pose proof (run_and_report_posts_nothing svc fuel agent_id thread_id) as Hrun.
  destruct (run_and_report svc fuel agent_id thread_id) as [res t].
  cbn [snd] in *. right. unfold posted in *. cbn [omap list_omap].
  now rewrite Hrun.
Qed.

Lemma setup_events_quiet (svc : AgentsService) (agent_id thread_id : string)
    (instructions : string) :
  run_finished_notifications (setup_events svc agent_id thread_id instructions)
  = [].
Proof. reflexivity. Qed.

(** An invocation whose loop exits is its set-up, its turns, and the
    handler after the loop; nothing before that announces the end. *)
Lemma handler_when_run_ends (svc : AgentsService) (fuel : nat)
    (agent_id thread_id research_topic : string) (report_type : ReportType)
    (language : string) (other_instructions : option string)
    (run : ThreadRun) (k : nat) :
  run_ends svc fuel agent_id thread_id run k ->
  exists before,
    retrieve_deep_research_report svc fuel research_topic report_type language
      other_instructions
    = (fst (report_and_cleanup svc agent_id thread_id run k),
       before ++ snd (report_and_cleanup svc agent_id thread_id run k))
    /\ run_finished_notifications before = [].
Proof.
  intros (Hsetup & run0 & last & t & Hcreate & Hloop).
  exists (setup_events svc agent_id thread_id
            (formatted_template report_type research_topic language
             +:+ other_instructions_block other_instructions)
          ++ Sdk (RunsCreate thread_id agent_id) :: t).
  split.
  - rewrite (handler_after_setup _ _ _ _ _ _ _ _ Hsetup).
    rewrite (run_and_report_after_loop _ _ _ _ _ _ _ _ _ Hcreate Hloop).
    cbn [fst snd]. now rewrite <- app_assoc.
  - rewrite run_finished_app, setup_events_quiet.
    pose proof (poll_loop_events svc thread_id fuel 0 run0 None) as Hev.
    rewrite Hloop in Hev. cbn [snd] in Hev.
    apply loop_events_quiet in Hev as (Hquiet & _ & _).
    change (Sdk (RunsCreate thread_id agent_id) :: t)
      with ([Sdk (RunsCreate thread_id agent_id)] ++ t).
    now rewrite run_finished_app, Hquiet.
Qed.

Lemma in_polling_spec (s : string) :
  in_polling s = true <-> s = "queued" \/ s = "in_progress".
Proof.
  unfold in_polling. cbn [existsb]. rewrite !orb_true_iff, !String.eqb_eq.
  intuition discriminate.
Qed.

Lemma filter_keeps_all {A} (f : A -> bool) (l : list A) :
  Forall (fun x => f x = true) l -> List.filter f l = l.
Proof.
  induction 1 as [|x l Hx _ IH]; [reflexivity |].
  cbn [List.filter]. now rewrite Hx, IH.
Qed.


(** ** The instruction message: property *)

Lemma sdk_calls_app (t1 t2 : list Event) :
  sdk_calls (t1 ++ t2) = sdk_calls t1 ++ sdk_calls t2.
Proof. unfold sdk_calls. apply omap_app. Qed.

Lemma setup_events_calls (svc : AgentsService) (agent_id thread_id : string)
    (instructions : string) :
  exists model conn tool name,
    sdk_calls (setup_events svc agent_id thread_id instructions)
    = [ConnectionsGet name; CreateAgent model conn tool; ThreadsCreate;
       MessagesCreate thread_id instructions].
Proof. unfold setup_events. cbn. eauto. Qed.

Lemma scripted_setup_served (first : string) (later : list string)
    (settled : string) (messages : nat -> option ThreadMessage)
    (deletion : Exn + unit) :
  setup_served (scripted_service first later settled messages deletion)
    "agent_1" "thread_1".
Proof.
  unfold setup_served.
  split; [eexists; reflexivity |].
  split; [exists "value of BING_RESOURCE_NAME"; split;
          [reflexivity | eexists; reflexivity] |].
  split; [eexists; reflexivity |].
  split; [eexists; reflexivity |].
  split; [reflexivity |]. split; [reflexivity |].
  intros content. eexists; reflexivity.
Defined.

Lemma setup_events_posted (svc : AgentsService) (agent_id thread_id : string)
    (instructions : string) :
  posted (setup_events svc agent_id thread_id instructions) = [instructions].
Proof. reflexivity. Qed.

Lemma other_instructions_cases (template : string)
    (other_instructions : option string) :
  template +:+ other_instructions_block other_instructions
  = match other_instructions with
    | Some (String c s) =>
        template +:+ "# Other Instructions" +:+ PyStr.NL +:+ PyStr.NL
        +:+ String c s +:+ PyStr.NL +:+ PyStr.NL
    | Some EmptyString | None => template
    end.
Proof.
  destruct other_instructions as [[|c s]|]; cbn [other_instructions_block];
    [apply append_nil_r | reflexivity | apply append_nil_r].
Qed.

(** C9: for every report type, topic, language and other instructions, the
    instruction message is the template with the three values in place;
    other instructions that are there (a non-empty string: the handler tests
    their truth value) add the block headed "# Other Instructions" that
    holds them, absent or empty ones add nothing.  An invocation whose
    set-up is answered posts this message to its thread, and no other; an
    invocation stopped before posts nothing. *)
Theorem instruction_message_embeds_inputs
    (svc : AgentsService) (fuel : nat)
    (research_topic : string) (report_type : ReportType) (language : string)
    (other_instructions : option string) :
  let template :=
    PyStr.NL
    +:+ indent +:+ "Provide a " +:+ report_type_str report_type
    +:+ " report on the topic: '" +:+ research_topic +:+ "'." +:+ PyStr.NL
    +:+ indent +:+ "Use the language " +:+ language +:+ " for the report." +:+ PyStr.NL
    +:+ indent +:+ "Do not ask the user for any additional information, just provide the report." +:+ PyStr.NL
    +:+ indent in
  let message :=
    match other_instructions with
    | Some (String c s) =>
        template +:+ "# Other Instructions" +:+ PyStr.NL +:+ PyStr.NL
        +:+ String c s +:+ PyStr.NL +:+ PyStr.NL
    | Some EmptyString | None => template
    end in
  let trace := snd (retrieve_deep_research_report svc fuel research_topic
                      report_type language other_instructions) in
  let sent := posted trace in
  format report_instructions_template
    [("report_type", report_type_str report_type);
     ("research_topic", research_topic);
     ("language", language)] = inr template
  /\ report_instructions report_type research_topic language other_instructions
     = inr message
  /\ (sent = [] \/ sent = [message])
  /\ (forall agent_id thread_id,
        setup_served svc agent_id thread_id ->
        sent = [message]
        /\ In (MessagesCreate thread_id message) (sdk_calls trace)).
Proof.
  cbn zeta.
  pose proof (other_instructions_cases
                (formatted_template report_type research_topic language)
                other_instructions) as Hmsg.
  fold (formatted_template report_type research_topic language).
  split; [reflexivity |]. rewrite <- Hmsg.
  split; [apply report_instructions_eq |].
  split; [apply handler_posts |].
  intros agent_id thread_id Hsetup.
  rewrite (handler_after_setup _ _ _ _ _ _ _ _ Hsetup). cbn [snd].
  rewrite posted_app, setup_events_posted, run_and_report_posts_nothing.
  split; [reflexivity |].
  rewrite sdk_calls_app. apply in_or_app. left.
  destruct (setup_events_calls svc agent_id thread_id
              (formatted_template report_type research_topic language
               +:+ other_instructions_block other_instructions))
    as (model & conn & tool & name & ->).
  cbn. tauto.
Qed.

Lemma instruction_message_embeds_inputs_witness :
  setup_served queued_to_completed "agent_1" "thread_1"
  /\ posted (snd (retrieve_deep_research_report queued_to_completed 2
                    "impact of remote work on urban planning" brief "en"
                    (Some "Focus on Europe.")))
     = [PyStr.NL
        +:+ indent +:+ "Provide a brief report on the topic: 'impact of remote work on urban planning'." +:+ PyStr.NL
        +:+ indent +:+ "Use the language en for the report." +:+ PyStr.NL
        +:+ indent +:+ "Do not ask the user for any additional information, just provide the report." +:+ PyStr.NL
        +:+ indent +:+ "# Other Instructions" +:+ PyStr.NL +:+ PyStr.NL
        +:+ "Focus on Europe." +:+ PyStr.NL +:+ PyStr.NL].
Proof.
  assert (Hsetup : setup_served queued_to_completed "agent_1" "thread_1")
    by apply scripted_setup_served.
  split; [exact Hsetup |].
  pose proof (instruction_message_embeds_inputs queued_to_completed 2
                "impact of remote work on urban planning" brief "en"
                (Some "Focus on Europe.")) as (_ & _ & _ & Hposted).
  exact (proj1 (Hposted "agent_1" "thread_1" Hsetup)).
Defined.

(** ** The polling loop: properties *)

(** C5: the loop polls exactly while the status is "queued" or
    "in_progress": with every call answered, it exits within some number of
    turns if and only if some tested status is outside that set; a turn
    starts with a sleep of 10 followed by the fetch of the run, and the
    sleeps of an exited loop are one of 10 per turn; an invocation whose
    loop exits sends one terminal notification; on the script queued,
    in_progress, completed the loop exits after two turns and the handler
    sends exactly one "Run finished" notification. *)
Theorem polling_stops_when_status_leaves
    (svc : AgentsService) (agent_id thread_id : string) (run0 : ThreadRun) :
  polls_served svc ->
  (forall s, in_polling s = true <-> s = "queued" \/ s = "in_progress")
  /\ ((exists fuel r t, poll_loop svc fuel 0 thread_id run0 None = (Ok r, t))
      <-> (exists n s, status_at svc run0 n = Some s /\ in_polling s = false))
  /\ (forall fuel k run last,
        in_polling (status run) = true ->
        exists rest,
          snd (poll_loop svc (S fuel) k thread_id run last)
          = Sleep 10 :: Sdk (RunsGet thread_id (run_id run)) :: rest)
  /\ (forall fuel run last k t,
        poll_loop svc fuel 0 thread_id run0 None = (Ok (run, last, k), t) ->
        in_polling (status run) = false
        /\ status_at svc run0 k = Some (status run)
        /\ sleeps t = replicate k 10)
  /\ (forall fuel topic report_type language other run k,
        run_ends svc fuel agent_id thread_id run k ->
        run_finished_notifications
          (snd (retrieve_deep_research_report svc fuel topic report_type
                  language other))
        = ["Run finished with status: " +:+ status run])
  /\ (let outcome :=
        retrieve_deep_research_report queued_to_completed 2
          "impact of remote work on urban planning" brief "en" None in
      (exists report, fst outcome = Ok report)
      /\ run_finished_notifications (snd outcome)
         = ["Run finished with status: completed"]
      /\ sleeps (snd outcome) = [10; 10]
      /\ fst (retrieve_deep_research_report queued_to_completed 1
                "impact of remote work on urban planning" brief "en" None)
         = Pending).
Proof.
  intros Hserved. split; [apply in_polling_spec |]. split; [split |].
  - intros (fuel & [[run last] k] & t & Hloop).
    destruct (poll_loop_exit_status _ _ _ _ _ _ _ _ _ _ Hloop)
      as (Hout & _ & _ & Hat & _).
    rewrite Nat.sub_0_r in Hat.
    exists k, (status run). now rewrite status_at_after.
  - intros (n & s & Hat & Hout). exists n. rewrite status_at_after in Hat.
    exact (poll_loop_exits svc thread_id Hserved n 0 run0 None s Hat Hout).
  - split; [| split; [| split]].
    + intros fuel k run last Hst. cbn [poll_loop]. rewrite Hst.
      unfold asyncio_sleep, emit. rewrite bind_eq. cbn [fst snd].
      rewrite bind_eq. cbn [app].
      destruct (runs_get svc k) as [e | run']; cbn [call snd app]; eauto.
    + intros fuel run last k t Hloop.
      destruct (poll_loop_exit_status _ _ _ _ _ _ _ _ _ _ Hloop)
        as (Hout & _ & _ & Hat & _).
      rewrite Nat.sub_0_r in Hat.
      split; [exact Hout |]. split; [now rewrite status_at_after |].
      rewrite (poll_loop_sleeps _ _ _ _ _ _ _ _ _ _ Hloop).
      now rewrite Nat.sub_0_r.
    + intros fuel topic report_type language other run k Hends.
      destruct (handler_when_run_ends svc fuel agent_id thread_id topic
                  report_type language other run k Hends)
        as (before & -> & Hquiet).
      cbn [snd]. now rewrite run_finished_app, Hquiet, cleanup_run_finished.
    + cbn zeta. split; [eexists; vm_compute; reflexivity |].
      repeat split; vm_compute; reflexivity.
Qed.

Lemma polling_stops_when_status_leaves_witness :
  polls_served queued_to_completed
  /\ exists fuel r t,
       poll_loop queued_to_completed fuel 0 "thread_1" (sample_run "queued") None
       = (Ok r, t).
Proof.
  assert (Hserved : polls_served queued_to_completed).
  { intros i. split; eexists; reflexivity. }
  split; [exact Hserved |].
  pose proof (polling_stops_when_status_leaves queued_to_completed "agent_1"
                "thread_1" (sample_run "queued") Hserved) as (_ & Hiff & _).
  apply Hiff. exists 2, "completed". split; reflexivity.
Defined.

(** ** The handler: properties *)

Lemma failure_events_failed (run : ThreadRun) :
  status run = "failed" ->
  failure_events run
  = [LogInfo ("Run failed: " +:+ last_error run);
     CtxError ("Run failed: " +:+ last_error run)].
Proof. intros Hst. unfold failure_events. now rewrite Hst. Qed.

Lemma or_else_nonempty (s fallback : string) :
  s <> "" -> PyStr.or_else (Some s) fallback = s.
Proof. destruct s; [congruence | reflexivity]. Qed.

Lemma failed_with_message_ends :
  run_ends failed_with_message 1 "agent_1" "thread_1" (sample_run "failed") 1.
Proof.
  split; [apply scripted_setup_served |].
  exists (sample_run "in_progress"), (Some "msg_1"). eexists.
  split; reflexivity.
Defined.

Lemma failed_deletion_refused_ends :
  run_ends failed_deletion_refused 1 "agent_1" "thread_1" (sample_run "failed") 1.
Proof.
  split; [apply scripted_setup_served |].
  exists (sample_run "in_progress"), (Some "msg_1"). eexists.
  split; reflexivity.
Defined.

(** C2 fails as stated: on a run that ends with status "failed", with a
    last agent message whose report is not empty, the handler does raise
    when the service refuses the deletion of the agent: it sends the run's
    last error with [ctx.error], assembles the report, and ends with the
    error of the deletion instead of returning the report. *)
Lemma failed_run_raises_when_deletion_refused :
  let outcome := retrieve_deep_research_report failed_deletion_refused 1
                   "impact of remote work on urban planning" brief "en" None in
  run_ends failed_deletion_refused 1 "agent_1" "thread_1" (sample_run "failed") 1
  /\ status (sample_run "failed") = "failed"
  /\ get_last_message_by_role failed_deletion_refused 1
     = inr (Some sample_message)
  /\ report_of sample_message <> ""
  /\ In (CtxError "Run failed: rate limit exceeded") (snd outcome)
  /\ fst outcome = Raise (ServiceError "agent deletion refused")
  /\ ~ (exists report, fst outcome = Ok report).
Proof.
  cbn zeta. split; [apply failed_deletion_refused_ends |].
  split; [reflexivity |]. split; [reflexivity |].
  split; [vm_compute; discriminate |].
  split; [vm_compute; tauto |].
  split; [vm_compute; reflexivity |].
  intros [report Hreport]. vm_compute in Hreport. discriminate.
Qed.

(** C2, amended: when the run ends with status "failed" and a last agent
    message is there, the handler sends the run's last error with
    [ctx.error] right after the terminal notification and goes on to
    assemble the report; it then returns, without raising, exactly when the
    deletion of the agent goes through: the report of that message when it
    is not empty (the fallback string when it is); an error of the deletion
    is raised to the caller. *)
Theorem failed_run_reports_error_then_report
    (svc : AgentsService) (fuel : nat) (agent_id thread_id : string)
    (research_topic : string) (report_type : ReportType) (language : string)
    (other_instructions : option string)
    (run : ThreadRun) (k : nat) (m : ThreadMessage) :
  run_ends svc fuel agent_id thread_id run k ->
  status run = "failed" ->
  get_last_message_by_role svc k = inr (Some m) ->
  let outcome := retrieve_deep_research_report svc fuel research_topic
                   report_type language other_instructions in
  (exists before after,
     snd outcome
     = before
       ++ [CtxInfo "Run finished with status: failed";
           LogInfo ("Run failed: " +:+ last_error run);
           CtxError ("Run failed: " +:+ last_error run);
           Sdk (GetLastMessageByRole thread_id);
           LogInfo ("Research report content:" +:+ PyStr.NL +:+ report_of m);
           Sdk (DeleteAgent agent_id)]
       ++ after)
  /\ (delete_agent svc = inr tt ->
      (report_of m <> "" -> fst outcome = Ok (report_of m))
      /\ (report_of m = "" -> fst outcome = Ok "No report content generated."))
  /\ (forall e, delete_agent svc = inl e -> fst outcome = Raise e)
  /\ fst (create_research_summary (Some m) "research_summary.md")
     = Ok (Some (report_of m)).
Proof.
  intros Hends Hfailed Hmsg outcome. subst outcome.
  destruct (handler_when_run_ends svc fuel agent_id thread_id research_topic
              report_type language other_instructions run k Hends)
    as (before & -> & _).
  cbn [fst snd].
  split; [| split; [| split; [| reflexivity]]].
  - exists (before ++ [LogInfo ("Run finished with status: failed, ID: "
                               +:+ run_id run)]).
    destruct (delete_agent svc) as [e | []] eqn:Hdel.
    + rewrite (cleanup_delete_raises svc agent_id thread_id run k (Some m) e
                 Hmsg Hdel).
      rewrite (failure_events_failed run Hfailed), Hfailed. cbn [snd].
      exists []. rewrite <- !app_assoc. reflexivity.
    + rewrite (cleanup_with_message svc agent_id thread_id run k m Hmsg Hdel).
      rewrite (failure_events_failed run Hfailed), Hfailed. cbn [snd].
      exists [LogInfo "Deleted agent"]. rewrite <- !app_assoc. reflexivity.
  - intros Hdel.
    rewrite (cleanup_with_message svc agent_id thread_id run k m Hmsg Hdel).
    cbn [fst].
    split; [intros Hne; now rewrite or_else_nonempty | intros ->; reflexivity].
  - intros e Hdel.
    now rewrite (cleanup_delete_raises svc agent_id thread_id run k (Some m) e
                   Hmsg Hdel).
Qed.

Lemma failed_run_reports_error_then_report_witness :
  run_ends failed_with_message 1 "agent_1" "thread_1" (sample_run "failed") 1
  /\ status (sample_run "failed") = "failed"
  /\ get_last_message_by_role failed_with_message 1 = inr (Some sample_message)
  /\ delete_agent failed_with_message = inr tt
  /\ report_of sample_message <> ""
  /\ fst (retrieve_deep_research_report failed_with_message 1
            "impact of remote work on urban planning" brief "en" None)
     = Ok (report_of sample_message).
Proof.
  assert (Hne : report_of sample_message <> "") by (vm_compute; discriminate).
  split; [apply failed_with_message_ends |].
  split; [reflexivity |]. split; [reflexivity |]. split; [reflexivity |].
  split; [exact Hne |].
  pose proof (failed_run_reports_error_then_report failed_with_message 1
                "agent_1" "thread_1"
                "impact of remote work on urban planning" brief "en" None
                (sample_run "failed") 1 sample_message
                failed_with_message_ends eq_refl eq_refl)
    as (_ & Hok & _).
  exact (proj1 (Hok eq_refl) Hne).
Defined.

(** What the handler does when the run has ended and no agent message is
    there: the agent is deleted, then the read of [report_content], which
    no branch has bound, raises. *)
Lemma handler_without_message
    (svc : AgentsService) (fuel : nat) (agent_id thread_id : string)
    (research_topic : string) (report_type : ReportType) (language : string)
    (other_instructions : option string) (run : ThreadRun) (k : nat) :
  run_ends svc fuel agent_id thread_id run k ->
  get_last_message_by_role svc k = inr None ->
  delete_agent svc = inr tt ->
  fst (retrieve_deep_research_report svc fuel research_topic report_type
         language other_instructions)
  = Raise (UnboundLocalError "report_content").
Proof.
  intros Hends Hmsg Hdel.
  destruct (handler_when_run_ends svc fuel agent_id thread_id research_topic
              report_type language other_instructions run k Hends)
    as (before & -> & _).
  now rewrite (cleanup_without_message svc agent_id thread_id run k Hmsg Hdel).
Qed.

Lemma completed_without_message_ends :
  run_ends completed_without_message 1 "agent_1" "thread_1"
    (sample_run "completed") 1.
Proof.
  split; [apply scripted_setup_served |].
  exists (sample_run "queued"), None. eexists. split; reflexivity.
Defined.

(** C1, as the code has it: on a run that completes while the thread holds
    no agent message, every call being answered, the handler does not
    return the fallback string; it raises [UnboundLocalError] for
    [report_content]. *)
Theorem missing_message_raises_unbound_local :
  let outcome := retrieve_deep_research_report completed_without_message 1
                   "impact of remote work on urban planning" brief "en" None in
  run_ends completed_without_message 1 "agent_1" "thread_1"
    (sample_run "completed") 1
  /\ get_last_message_by_role completed_without_message 1 = inr None
  /\ fst outcome = Raise (UnboundLocalError "report_content")
  /\ fst outcome <> Ok "No report content generated."
  /\ last (snd outcome) = Some (LogInfo "Deleted agent").
Proof.
  cbn zeta. split; [apply completed_without_message_ends |].
  split; [reflexivity |].
  split; [vm_compute; reflexivity |].
  split; [vm_compute; discriminate | vm_compute; reflexivity].
Qed.

Lemma deletion_refused_ends :
  run_ends deletion_refused 1 "agent_1" "thread_1" (sample_run "completed") 1.
Proof.
  split; [apply scripted_setup_served |].
  exists (sample_run "queued"), (Some "msg_1"). eexists. split; reflexivity.
Defined.

(** C7 fails as stated: on a completed run with an agent message, whose
    agent the service refuses to delete, the invocation reaches the
    clean-up and the handler raises the error of the deletion; it returns no
    report, and its last event is the deletion call: nothing is logged
    after it. *)
Lemma deletion_failure_is_raised :
  let outcome := retrieve_deep_research_report deletion_refused 1
                   "impact of remote work on urban planning" brief "en" None in
  run_ends deletion_refused 1 "agent_1" "thread_1" (sample_run "completed") 1
  /\ delete_agent deletion_refused = inl (ServiceError "agent deletion refused")
  /\ fst outcome = Raise (ServiceError "agent deletion refused")
  /\ ~ (exists report, fst outcome = Ok report)
  /\ last (snd outcome) = Some (Sdk (DeleteAgent "agent_1")).
Proof.
  cbn zeta. split; [apply deletion_refused_ends |].
  split; [reflexivity |].
  split; [vm_compute; reflexivity |].
  split; [| vm_compute; reflexivity].
  intros [report Hreport]. vm_compute in Hreport. discriminate.
Qed.

(** C7, amended: for an invocation that reaches the clean-up, an error of
    the agent-deletion call is raised to the caller: the handler returns no
    report and emits nothing after the call; when the deletion goes through
    and an agent message is there, the handler logs "Deleted agent" and
    returns the report, or the fallback string for an empty report. *)
Theorem deletion_failure_propagates
    (svc : AgentsService) (fuel : nat) (agent_id thread_id : string)
    (research_topic : string) (report_type : ReportType) (language : string)
    (other_instructions : option string)
    (run : ThreadRun) (k : nat) (final_message : option ThreadMessage) :
  run_ends svc fuel agent_id thread_id run k ->
  get_last_message_by_role svc k = inr final_message ->
  let outcome := retrieve_deep_research_report svc fuel research_topic
                   report_type language other_instructions in
  (forall e, delete_agent svc = inl e ->
     fst outcome = Raise e
     /\ exists before, snd outcome = before ++ [Sdk (DeleteAgent agent_id)])
  /\ (forall m, final_message = Some m -> delete_agent svc = inr tt ->
        fst outcome
        = Ok (PyStr.or_else (Some (report_of m)) "No report content generated.")
        /\ exists before,
             snd outcome
             = before ++ [Sdk (DeleteAgent agent_id); LogInfo "Deleted agent"]).
Proof.
  intros Hends Hmsg outcome. subst outcome.
  destruct (handler_when_run_ends svc fuel agent_id thread_id research_topic
              report_type language other_instructions run k Hends)
    as (before & -> & _).
  split.
  - intros e Hdel.
    rewrite (cleanup_delete_raises svc agent_id thread_id run k final_message e
               Hmsg Hdel).
    cbn [fst snd]. split; [reflexivity |]. eexists.
    rewrite !app_assoc. rewrite app_comm_cons, !app_assoc. reflexivity.
  - intros m -> Hdel.
    rewrite (cleanup_with_message svc agent_id thread_id run k m Hmsg Hdel).
    cbn [fst snd]. split; [reflexivity |].
    eexists.
    change [Sdk (GetLastMessageByRole thread_id);
            LogInfo ("Research report content:" +:+ PyStr.NL +:+ report_of m);
            Sdk (DeleteAgent agent_id); LogInfo "Deleted agent"]
      with ([Sdk (GetLastMessageByRole thread_id);
             LogInfo ("Research report content:" +:+ PyStr.NL +:+ report_of m)]
            ++ [Sdk (DeleteAgent agent_id); LogInfo "Deleted agent"]).
    rewrite !app_assoc. reflexivity.
Qed.

Lemma deletion_failure_propagates_witness :
  run_ends deletion_refused 1 "agent_1" "thread_1" (sample_run "completed") 1
  /\ get_last_message_by_role deletion_refused 1 = inr (Some sample_message)
  /\ fst (retrieve_deep_research_report deletion_refused 1
            "impact of remote work on urban planning" brief "en" None)
     = Raise (ServiceError "agent deletion refused").
Proof.
  split; [apply deletion_refused_ends |]. split; [reflexivity |].
  exact (proj1 (proj1 (deletion_failure_propagates deletion_refused 1
                         "agent_1" "thread_1"
                         "impact of remote work on urban planning" brief "en"
                         None (sample_run "completed") 1 (Some sample_message)
                         deletion_refused_ends eq_refl)
                  (ServiceError "agent deletion refused") eq_refl)).
Defined.

(** ** More on the report assembler *)

Lemma append_empty (a b : string) : a +:+ b = "" -> a = "" /\ b = "".
Proof. destruct a; simpl; [now intros -> | discriminate]. Qed.

Lemma strip_empty_iff (s : string) :
  PyStr.strip s = "" <-> PyStr.all_space s = true.
Proof.
  split.
  - intros Hs. destruct (strip_is_trim s) as (l & r & Heq & Hl & Hr & _).
    rewrite Hs in Heq. rewrite Heq, all_space_app, Hl. exact Hr.
  - intros Hs. unfold PyStr.strip. now rewrite (lstrip_all_space s Hs).
Qed.

Lemma join_empty_iff (segments : list string) :
  PyStr.join blank_line segments = ""
  <-> segments = [] \/ segments = [""].
Proof.
  destruct segments as [|x [|y rest]]; cbn [PyStr.join].
  - split; [now left | reflexivity].
  - split; [intros ->; now right | intros [H | H]; [discriminate | now inversion H]].
  - split; [| intros [H | H]; discriminate].
    intros [_ H]%append_empty. unfold blank_line in H. discriminate.
Qed.

Lemma references_section_empty_iff (anns : list UrlCitation) :
  references_section anns = "" <-> anns = [].
Proof.
  destruct anns as [|a rest]; [now split |].
  split; [| discriminate]. unfold references_section, references_header.
  discriminate.
Qed.

(** X1: the assembled report is the empty string exactly when the message
    has no citation annotation and either no text segment or a single one
    made of whitespace only; two or more segments, even blank ones, give a
    report that is not empty. *)
Theorem empty_report_iff (m : ThreadMessage) (filepath : string) :
  fst (create_research_summary (Some m) filepath) = Ok (Some "")
  <-> url_citation_annotations m = []
      /\ (text_messages m = []
          \/ exists s, text_messages m = [s] /\ PyStr.all_space s = true).
Proof.
  rewrite create_research_summary_some. cbn [fst].
  rewrite report_of_split. split.
  - intros H. inversion H as [Heq]. clear H.
    apply append_empty in Heq as [Hbody Hrefs].
    apply references_section_empty_iff in Hrefs. split; [exact Hrefs |].
    unfold report_body in Hbody. apply join_empty_iff in Hbody.
    destruct (text_messages m) as [|s [|s' rest]]; [now left | | ].
    + right. exists s. split; [reflexivity |].
      destruct Hbody as [Hb | Hb]; [discriminate |].
      inversion Hb as [Hs]. now apply strip_empty_iff.
    + destruct Hbody as [Hb | Hb]; discriminate.
  - intros [Hanns [Hsegs | (s & Hsegs & Hs)]]; unfold report_body;
      rewrite Hanns, Hsegs; cbn [map PyStr.join references_section].
    + reflexivity.
    + apply strip_empty_iff in Hs. now rewrite Hs.
Qed.

Lemma filter_all_in {A} (P : A -> Prop) `{!forall x, Decision (P x)} (l : list A) :
  (forall x, x ∈ l -> P x) -> filter P l = l.
Proof.
  induction l as [|b l IH]; intros HP; [reflexivity |].
  rewrite filter_cons_True by (apply HP; left).
  rewrite IH; [reflexivity |]. intros x Hx. apply HP. now right.
Qed.

Lemma first_seen_distinct (anns : list UrlCitation) :
  NoDup (map url anns) -> first_seen anns = anns.
Proof.
  induction anns as [|a rest IH]; [reflexivity |].
  cbn [map first_seen]. intros [Hfresh Hrest]%NoDup_cons.
  rewrite (IH Hrest). f_equal. apply filter_all_in.
  intros b Hb Heq. apply Hfresh. rewrite <- Heq.
  change (map url) with (fmap (M:=list) url). now apply list_elem_of_fmap_2.
Qed.

(** X2: when the URLs of the annotations are pairwise distinct, the
    references section lists every annotation, in the order of the message:
    nothing is dropped. *)
Theorem distinct_urls_all_listed (m : ThreadMessage) (filepath : string) :
  url_citation_annotations m <> [] ->
  NoDup (map url (url_citation_annotations m)) ->
  fst (create_research_summary (Some m) filepath)
  = Ok (Some (report_body m +:+ references_header
              +:+ reference_lines (url_citation_annotations m))).
Proof.
  intros Hanns Hdistinct.
  rewrite create_research_summary_some, report_of_split. cbn [fst].
  unfold references_section. rewrite (first_seen_distinct _ Hdistinct).
  destruct (url_citation_annotations m); [congruence | reflexivity].
Qed.

Lemma distinct_urls_all_listed_witness :
  url_citation_annotations (with_annotations sample_message distinct_citations)
  <> []
  /\ NoDup (map url distinct_citations)
  /\ fst (create_research_summary
            (Some (with_annotations sample_message distinct_citations))
            "research_summary.md")
     = Ok (Some (report_body sample_message +:+ references_header
                 +:+ reference_lines distinct_citations)).
Proof.
  assert (Hne : url_citation_annotations
                  (with_annotations sample_message distinct_citations) <> [])
    by discriminate.
  assert (Hnd : NoDup (map url distinct_citations)).
  { cbn. repeat (apply NoDup_cons; split;
                 [rewrite ?elem_of_cons, elem_of_nil; intuition discriminate |]).
    constructor. }
  split; [exact Hne |]. split; [exact Hnd |].
  exact (distinct_urls_all_listed
           (with_annotations sample_message distinct_citations)
           "research_summary.md" Hne Hnd).
Defined.

Lemma filter_commute {A} (P Q : A -> Prop) `{!forall x, Decision (P x)}
    `{!forall x, Decision (Q x)} (l : list A) :
  filter P (filter Q l) = filter Q (filter P l).
Proof.
  rewrite !list_filter_filter. apply list_filter_iff. intros x. tauto.
Qed.

(** Behind a filter on a URL, an annotation with that URL does not show. *)
Lemma first_seen_hidden (u : string) (a : UrlCitation)
    (before after : list UrlCitation) :
  url a = u ->
  filter (fun b => url b <> u) (first_seen (before ++ a :: after))
  = filter (fun b => url b <> u) (first_seen (before ++ after)).
Proof.
  intros Hu. induction before as [|b before IH]; cbn [app first_seen].
  - rewrite filter_cons_False by (intros Hn; now apply Hn).
    rewrite Hu. rewrite list_filter_filter. apply list_filter_iff.
    intros x. tauto.
  - destruct (decide (url b <> u)) as [Hb | Hb].
    + rewrite !filter_cons_True by exact Hb. f_equal.
      rewrite (filter_commute (fun x => url x <> u)), IH.
      now rewrite (filter_commute (fun x => url x <> url b)).
    + rewrite !filter_cons_False by exact Hb.
      rewrite (filter_commute (fun x => url x <> u)), IH.
      now rewrite (filter_commute (fun x => url x <> url b)).
Qed.

Lemma first_seen_repeat (a : UrlCitation) (before after : list UrlCitation) :
  url a ∈ map url before ->
  first_seen (before ++ a :: after) = first_seen (before ++ after).
Proof.
  induction before as [|b before IH]; cbn [map app first_seen].
  - now intros ?%elem_of_nil.
  - intros [Heq | Hin]%elem_of_cons; f_equal.
    + now apply first_seen_hidden.
    + now rewrite (IH Hin).
Qed.

(** X3: an annotation whose URL already occurs earlier in the message adds
    nothing to the report, whatever its title: the report is the one of the
    message without it. *)
Theorem repeated_url_changes_nothing
    (m : ThreadMessage) (a : UrlCitation) (before after : list UrlCitation)
    (filepath : string) :
  url a ∈ map url before ->
  fst (create_research_summary
         (Some (with_annotations m (before ++ a :: after))) filepath)
  = fst (create_research_summary
           (Some (with_annotations m (before ++ after))) filepath).
Proof.
  intros Hin. rewrite !create_research_summary_some, !report_of_split.
  cbn [fst url_citation_annotations with_annotations]. do 2 f_equal.
  change (report_body (with_annotations m (before ++ a :: after)))
    with (report_body (with_annotations m (before ++ after))).
  f_equal. unfold references_section.
  rewrite (first_seen_repeat a before after Hin).
  destruct before as [|b before]; [now apply elem_of_nil in Hin |].
  reflexivity.
Qed.

Lemma repeated_url_changes_nothing_witness :
  url (mkUrlCitation (Some "Another title") "https://b.example/2")
    ∈ map url distinct_citations
  /\ fst (create_research_summary
            (Some (with_annotations sample_message
                     (distinct_citations
                      ++ [mkUrlCitation (Some "Another title")
                            "https://b.example/2"])))
            "research_summary.md")
     = fst (create_research_summary
              (Some (with_annotations sample_message distinct_citations))
              "research_summary.md").
Proof.
  assert (Hin : url (mkUrlCitation (Some "Another title") "https://b.example/2")
                  ∈ map url distinct_citations).
  { cbn. right. left. }
  split; [exact Hin |].
  pose proof (repeated_url_changes_nothing sample_message
                (mkUrlCitation (Some "Another title") "https://b.example/2")
                distinct_citations [] "research_summary.md" Hin) as H.
  rewrite app_nil_r in H. exact H.
Defined.

Lemma strip_padding (s padded : string) :
  is_padding s padded -> PyStr.strip padded = PyStr.strip s.
Proof.
  intros (l & r & -> & Hl & Hr). symmetry. apply is_trim_unique.
  destruct (strip_is_trim s) as (l' & r' & Hs & Hl' & Hr' & Hh & Hlast).
  exists (l +:+ l'), (r' +:+ r). rewrite !all_space_app, Hl, Hl', Hr, Hr'.
  repeat split; try assumption.
  rewrite Hs at 1. now rewrite !append_assoc.
Qed.

(** X4: whitespace around a text segment never reaches the report: a
    message whose segments are those of another one with whitespace added
    around them, with the same annotations, has the same report. *)
Theorem padding_changes_nothing
    (m : ThreadMessage) (padded : list string) (filepath : string) :
  Forall2 is_padding (text_messages m) padded ->
  fst (create_research_summary (Some (with_segments m padded)) filepath)
  = fst (create_research_summary (Some m) filepath).
Proof.
  intros Hpad. rewrite !create_research_summary_some, !report_of_split.
  cbn [fst url_citation_annotations with_segments]. do 2 f_equal.
  f_equal. unfold report_body. cbn [text_messages with_segments]. f_equal.
  induction Hpad as [|s p segments padded Hsp _ IH]; [reflexivity |].
  cbn [map]. now rewrite (strip_padding s p Hsp), IH.
Qed.

Lemma padding_changes_nothing_witness :
  Forall2 is_padding (text_messages plain_message)
    ["  " +:+ "  Remote work reshapes cities. " +:+ PyStr.NL +:+ PyStr.NL;
     PyStr.NL +:+ "Density falls." +:+ " "]
  /\ fst (create_research_summary
            (Some (with_segments plain_message
                     ["  " +:+ "  Remote work reshapes cities. " +:+ PyStr.NL
                      +:+ PyStr.NL;
                      PyStr.NL +:+ "Density falls." +:+ " "]))
            "research_summary.md")
     = fst (create_research_summary (Some plain_message) "research_summary.md").
Proof.
  assert (Hpad : Forall2 is_padding (text_messages plain_message)
                   ["  " +:+ "  Remote work reshapes cities. " +:+ PyStr.NL
                    +:+ PyStr.NL;
                    PyStr.NL +:+ "Density falls." +:+ " "]).
  { constructor; [exists "  ", PyStr.NL; repeat split |].
    constructor; [exists "", " "; repeat split | constructor]. }
  split; [exact Hpad |].
  exact (padding_changes_nothing plain_message _ "research_summary.md" Hpad).
Defined.

(** ** More on the handler *)

Lemma sleeps_app (t1 t2 : list Event) : sleeps (t1 ++ t2) = sleeps t1 ++ sleeps t2.
Proof. unfold sleeps. apply omap_app. Qed.

Lemma loop_events_calls (t : list Event) :
  Forall (fun e => loop_event e = true) t ->
  Forall (fun c => is_poll_call c = true) (sdk_calls t).
Proof.
  induction 1 as [|e t He _ IH]; [constructor |].
  destruct e as [| | | |[]|]; cbn in *; try discriminate; try assumption;
    now constructor.
Qed.

Lemma poll_call_not_delete (calls : list SdkCall) :
  Forall (fun c => is_poll_call c = true) calls ->
  Forall (fun c => is_delete_agent c = false) calls.
Proof.
  intros Hcalls. eapply Forall_impl; [exact Hcalls |].
  intros []; cbn; congruence.
Qed.

(** X5: when an environment variable the handler reads is not set, and
    the connection look-up is answered, the handler raises [KeyError] for
    the first such variable in reading order; it does so before any agent,
    thread or run is created: the only call it can have made is the
    connection look-up. *)
Theorem missing_variable_raises_key_error
    (svc : AgentsService) (fuel : nat) (research_topic : string)
    (report_type : ReportType) (language : string)
    (other_instructions : option string) (missing : string) :
  first_missing svc = Some missing ->
  (forall bing, environ svc "BING_RESOURCE_NAME" = Some bing ->
     exists c, connections_get svc bing = inr c) ->
  let outcome := retrieve_deep_research_report svc fuel research_topic
                   report_type language other_instructions in
  fst outcome = Raise (KeyError missing)
  /\ environ svc missing = None
  /\ Forall (fun c => is_connections_get c = true) (sdk_calls (snd outcome))
  /\ progress_output (snd outcome) = [].
Proof.
  intros Hmissing Hconn. cbn zeta.
  unfold first_missing, required_variables, unset in Hmissing.
  cbn [List.find] in Hmissing.
  unfold retrieve_deep_research_report, os_environ.
  destruct (environ svc "PROJECT_ENDPOINT") as [pe |] eqn:Hpe.
  2:{ inversion Hmissing; subst. repeat split; [exact Hpe | constructor]. }
  destruct (environ svc "BING_RESOURCE_NAME") as [bing |] eqn:Hbing.
  2:{ inversion Hmissing; subst. repeat split; [exact Hbing | constructor]. }
  destruct (Hconn bing eq_refl) as [c Hc].
  cbn [bind ret app]. rewrite Hc. cbn [bind ret call app].
  destruct (environ svc "DEEP_RESEARCH_MODEL_DEPLOYMENT_NAME") as [dm |] eqn:Hdm.
  2:{ inversion Hmissing; subst. repeat split; [exact Hdm |].
      repeat constructor. }
  destruct (environ svc "MODEL_DEPLOYMENT_NAME") as [mo |] eqn:Hmo;
    [discriminate |].
  inversion Hmissing; subst. repeat split; [exact Hmo |]. repeat constructor.
Qed.

Lemma missing_variable_raises_key_error_witness :
  first_missing model_variable_unset = Some "MODEL_DEPLOYMENT_NAME"
  /\ fst (retrieve_deep_research_report model_variable_unset 3
            "impact of remote work on urban planning" brief "en" None)
     = Raise (KeyError "MODEL_DEPLOYMENT_NAME").
Proof.
  split; [reflexivity |].
  refine (proj1 (missing_variable_raises_key_error model_variable_unset 3
                   "impact of remote work on urban planning" brief "en" None
                   "MODEL_DEPLOYMENT_NAME" eq_refl _)).
  intros bing _. eexists. reflexivity.
Defined.

(** X6: when a call of the polling loop raises, the error ends the
    handler as it is, and the agent the handler created is left behind: the
    trace holds the creation of the agent and no call to delete it. *)
Theorem loop_error_leaves_agent
    (svc : AgentsService) (fuel : nat) (agent_id thread_id : string)
    (research_topic : string) (report_type : ReportType) (language : string)
    (other_instructions : option string)
    (run0 : ThreadRun) (e : Exn) (t : list Event) :
  setup_served svc agent_id thread_id ->
  runs_create svc = inr run0 ->
  poll_loop svc fuel 0 thread_id run0 None = (Raise e, t) ->
  let outcome := retrieve_deep_research_report svc fuel research_topic
                   report_type language other_instructions in
  fst outcome = Raise e
  /\ Exists (fun c => is_create_agent c = true) (sdk_calls (snd outcome))
  /\ Forall (fun c => is_delete_agent c = false) (sdk_calls (snd outcome)).
Proof.
  intros Hsetup Hcreate Hloop. cbn zeta.
  rewrite (handler_after_setup _ _ _ _ _ _ _ _ Hsetup).
  unfold run_and_report. rewrite Hcreate. cbn [call bind]. rewrite Hloop.
  cbn [bind fst snd]. split; [reflexivity |].
  destruct (setup_events_calls svc agent_id thread_id
              (formatted_template report_type research_topic language
               +:+ other_instructions_block other_instructions))
    as (model & conn & tool & name & Hcalls).
  rewrite sdk_calls_app, Hcalls.
  pose proof (poll_loop_events svc thread_id fuel 0 run0 None) as Hev.
  rewrite Hloop in Hev. cbn [snd] in Hev.
  apply loop_events_calls, poll_call_not_delete in Hev.
  split.
  - apply Exists_cons_tl, Exists_cons_hd. reflexivity.
  - apply Forall_app. split; [repeat constructor |].
    apply Forall_cons. split; [reflexivity | exact Hev].
Qed.

Lemma loop_error_leaves_agent_witness :
  setup_served run_fetch_refused "agent_1" "thread_1"
  /\ poll_loop run_fetch_refused 5 0 "thread_1" (sample_run "queued") None
     = (Raise (ServiceError "run fetch refused"),
        [Sleep 10; Sdk (RunsGet "thread_1" "run_1");
         Sdk (GetLastMessageByRole "thread_1");
         LogInfo "Run status: in_progress"; CtxInfo "Run status: in_progress";
         Sleep 10; Sdk (RunsGet "thread_1" "run_1")])
  /\ fst (retrieve_deep_research_report run_fetch_refused 5
            "impact of remote work on urban planning" brief "en" None)
     = Raise (ServiceError "run fetch refused").
Proof.
  assert (Hsetup : setup_served run_fetch_refused "agent_1" "thread_1").
  { unfold setup_served.
    split; [eexists; reflexivity |].
    split; [exists "value of BING_RESOURCE_NAME"; split;
            [reflexivity | eexists; reflexivity] |].
    split; [eexists; reflexivity |].
    split; [eexists; reflexivity |].
    split; [reflexivity |]. split; [reflexivity |].
    intros content. eexists; reflexivity. }
  split; [exact Hsetup |]. split; [reflexivity |].
  exact (proj1 (loop_error_leaves_agent run_fetch_refused 5 "agent_1" "thread_1"
                  "impact of remote work on urban planning" brief "en" None
                  (sample_run "queued") _ _ Hsetup eq_refl eq_refl)).
Defined.

(** While every tested status is in the polling set, each turn of the
    budget is made: the loop sleeps once per turn and never announces an
    end. *)
Lemma poll_loop_pending_sleeps (svc : AgentsService) (thread_id : string) :
  polls_served svc ->
  forall fuel k run last_message_id,
    (forall i, i <= fuel ->
       exists s, status_after svc k run i = Some s /\ in_polling s = true) ->
    sleeps (snd (poll_loop svc fuel k thread_id run last_message_id))
    = replicate fuel 10.
Proof.
  intros Hserved. induction fuel as [|fuel IH]; intros k run last Hall.
  - destruct (Hall 0 ltac:(lia)) as (s & Hs & Hin).
    inversion Hs; subst. now rewrite poll_loop_pending.
  - destruct (Hall 0 ltac:(lia)) as (s & Hs & Hst).
    inversion Hs; subst.
    destruct (Hserved k) as [[run1 Hget] Hmsg].
    pose proof (fetch_events svc k thread_id last true) as Hev.
    destruct (fetch_served svc k thread_id last true Hmsg) as (last1 & tf & Hfetch).
    rewrite Hfetch in Hev. cbn [snd] in Hev.
    rewrite (poll_loop_turn _ _ _ _ _ _ _ _ _ Hst Hget Hfetch). cbn [snd].
    change (Sleep 10 :: Sdk (RunsGet thread_id (run_id run))
              :: tf ++ LogInfo ("Run status: " +:+ status run1)
              :: CtxInfo ("Run status: " +:+ status run1)
              :: snd (poll_loop svc fuel (S k) thread_id run1 last1))
      with ([Sleep 10; Sdk (RunsGet thread_id (run_id run))]
            ++ tf ++ [LogInfo ("Run status: " +:+ status run1);
                      CtxInfo ("Run status: " +:+ status run1)]
            ++ snd (poll_loop svc fuel (S k) thread_id run1 last1)).
    rewrite !sleeps_app, (fetch_events_no_sleep tf Hev), IH; [reflexivity |].
    intros i Hi. rewrite (status_after_next svc k run run1 _ Hget).
    apply Hall. lia.
Qed.

(** X7: the handler has no time limit: with the set-up and every poll
    answered, as long as the status stays "queued" or "in_progress" the
    handler neither returns nor raises, whatever the number of turns; it
    sleeps 10 at every turn, sends no terminal notification and does not
    delete the agent. *)
Theorem no_exit_while_polling
    (svc : AgentsService) (agent_id thread_id : string)
    (research_topic : string) (report_type : ReportType) (language : string)
    (other_instructions : option string) (run0 : ThreadRun) :
  setup_served svc agent_id thread_id ->
  polls_served svc ->
  runs_create svc = inr run0 ->
  (forall n s, status_at svc run0 n = Some s -> in_polling s = true) ->
  forall fuel,
    let outcome := retrieve_deep_research_report svc fuel research_topic
                     report_type language other_instructions in
    fst outcome = Pending
    /\ sleeps (snd outcome) = replicate fuel 10
    /\ run_finished_notifications (snd outcome) = []
    /\ Forall (fun c => is_delete_agent c = false) (sdk_calls (snd outcome)).
Proof.
  intros Hsetup Hserved Hcreate Hstay fuel. cbn zeta.
  assert (Hall : forall i, i <= fuel ->
            exists s, status_after svc 0 run0 i = Some s /\ in_polling s = true).
  { intros i _. rewrite <- status_at_after.
    destruct i as [|j]; cbn [status_at].
    - exists (status run0). split; [reflexivity |]. now apply (Hstay 0).
    - destruct (Hserved j) as [[r Hr] _]. exists (status r).
      rewrite Hr. split; [reflexivity |]. apply (Hstay (S j)).
      cbn [status_at]. now rewrite Hr. }
  pose proof (poll_loop_keeps_polling svc thread_id Hserved fuel 0 run0 None Hall)
    as Hpending.
  pose proof (poll_loop_pending_sleeps svc thread_id Hserved fuel 0 run0 None Hall)
    as Hsleeps.
  pose proof (poll_loop_events svc thread_id fuel 0 run0 None) as Hev.
  rewrite (handler_after_setup _ _ _ _ _ _ _ _ Hsetup).
  unfold run_and_report. rewrite Hcreate. cbn [call bind].
  destruct (poll_loop svc fuel 0 thread_id run0 None) as [res t].
  cbn [fst snd] in *. subst res. cbn [bind fst snd].
  destruct (loop_events_quiet t Hev) as (Hquiet & _ & _).
  apply loop_events_calls, poll_call_not_delete in Hev.
  split; [reflexivity |].
  change ([Sdk (RunsCreate thread_id agent_id)] ++ t)
    with (Sdk (RunsCreate thread_id agent_id) :: t).
  split; [| split].
  - rewrite sleeps_app. cbn. exact Hsleeps.
  - rewrite run_finished_app, setup_events_quiet. exact Hquiet.
  - rewrite sdk_calls_app. apply Forall_app. split; [repeat constructor |].
    apply Forall_cons. split; [reflexivity | exact Hev].
Qed.

Lemma always_queued_served : polls_served always_queued.
Proof. intros i. split; eexists; reflexivity. Defined.

Lemma always_queued_stays (n : nat) (s : string) :
  status_at always_queued (sample_run "queued") n = Some s ->
  in_polling s = true.
Proof.
  destruct n as [|[|j]]; cbn; intros H; inversion H; reflexivity.
Defined.

Lemma no_exit_while_polling_witness :
  setup_served always_queued "agent_1" "thread_1"
  /\ polls_served always_queued
  /\ fst (retrieve_deep_research_report always_queued 360
            "impact of remote work on urban planning" brief "en" None)
     = Pending.
Proof.
  split; [apply scripted_setup_served |].
  split; [apply always_queued_served |].
  exact (proj1 (no_exit_while_polling always_queued "agent_1" "thread_1"
                  "impact of remote work on urban planning" brief "en" None
                  (sample_run "queued")
                  (scripted_setup_served _ _ _ _ _) always_queued_served
                  eq_refl always_queued_stays 360)).
Defined.

(** ** More on progress forwarding *)

Lemma ctx_infos_app (t1 t2 : list Event) :
  ctx_infos (t1 ++ t2) = ctx_infos t1 ++ ctx_infos t2.
Proof. unfold ctx_infos. apply omap_app. Qed.

Lemma log_infos_app (t1 t2 : list Event) :
  log_infos (t1 ++ t2) = log_infos t1 ++ log_infos t2.
Proof. unfold log_infos. apply omap_app. Qed.

Lemma citations_forwarded (ctx : bool) (anns : list UrlCitation) :
  let t := snd (for_each (fun ann =>
                            do _ <- logger_info (citation_line ann);
                            ctx_info_if ctx (citation_line ann)) anns) in
  log_infos t = map citation_line anns
  /\ ctx_infos t = (if ctx then map citation_line anns else [])
  /\ sdk_calls t = [].
Proof.
  cbn zeta. induction anns as [|a rest (IHl & IHc & IHs)].
  - destruct ctx; now repeat split.
  - cbn [for_each]. rewrite bind_eq. rewrite citation_ok. cbn [snd].
    rewrite log_infos_app, ctx_infos_app, sdk_calls_app, IHl, IHc, IHs.
    destruct ctx; now repeat split.
Qed.

Lemma announcement_lines (r : ThreadMessage) (ctx : bool) :
  log_infos (announcement r ctx)
  = (PyStr.NL +:+ "Agent response:")
    :: PyStr.join PyStr.NL (text_messages r)
    :: map citation_line (url_citation_annotations r)
  /\ ctx_infos (announcement r ctx)
     = (if ctx then
          (PyStr.NL +:+ "Agent response:"
           +:+ PyStr.join PyStr.NL (text_messages r))
          :: map citation_line (url_citation_annotations r)
        else [])
  /\ sdk_calls (announcement r ctx) = [].
Proof.
  unfold announcement. rewrite !bind_eq. cbn [fst snd logger_info emit].
  rewrite ctx_info_if_ok. cbn [snd].
  destruct (citations_forwarded ctx (url_citation_annotations r))
    as (Hl & Hc & Hs).
  rewrite !log_infos_app, !ctx_infos_app, !sdk_calls_app, Hl, Hc, Hs.
  destruct ctx; now repeat split.
Qed.

(** X8: a poll that finds a new agent message forwards it whole: the
    logger gets the heading, the text segments joined by line feeds (not
    trimmed) and one line per citation annotation, repeated URLs included;
    with a context the caller gets the heading and the text in one
    notification and the same citation lines; without one the caller gets
    nothing, and the poll returns the same identifier; a missing title is
    printed as "None". *)
Theorem new_message_is_forwarded
    (svc : AgentsService) (k : nat) (thread_id : string)
    (last_message_id : option string) (r : ThreadMessage) :
  get_last_message_by_role svc k = inr (Some r) ->
  Some (msg_id r) <> last_message_id ->
  let poll ctx := fetch_and_print_new_agent_response svc k thread_id
                    last_message_id ctx in
  (forall ctx,
     fst (poll ctx) = Ok (Some (msg_id r))
     /\ log_infos (snd (poll ctx))
        = (PyStr.NL +:+ "Agent response:")
          :: PyStr.join PyStr.NL (text_messages r)
          :: map citation_line (url_citation_annotations r)
     /\ sdk_calls (snd (poll ctx)) = [GetLastMessageByRole thread_id])
  /\ ctx_infos (snd (poll true))
     = (PyStr.NL +:+ "Agent response:" +:+ PyStr.join PyStr.NL (text_messages r))
       :: map citation_line (url_citation_annotations r)
  /\ ctx_infos (snd (poll false)) = []
  /\ (forall u, citation_line (mkUrlCitation None u)
                = "URL Citation: [None](" +:+ u +:+ ")").
Proof.
  intros Hreply Hnew. cbn zeta.
  split; [intros ctx | split; [| split; [| reflexivity]]];
    rewrite (fetch_new svc k thread_id last_message_id _ r Hreply Hnew);
    cbn [fst snd];
    [destruct (announcement_lines r ctx) as (Hl & _ & Hs)
    | destruct (announcement_lines r true) as (_ & Hc & _)
    | destruct (announcement_lines r false) as (_ & Hc & _)].
  - split; [reflexivity |]. split.
    + change (Sdk (GetLastMessageByRole thread_id) :: announcement r ctx)
        with ([Sdk (GetLastMessageByRole thread_id)] ++ announcement r ctx).
      now rewrite log_infos_app, Hl.
    + change (Sdk (GetLastMessageByRole thread_id) :: announcement r ctx)
        with ([Sdk (GetLastMessageByRole thread_id)] ++ announcement r ctx).
      now rewrite sdk_calls_app, Hs.
  - change (Sdk (GetLastMessageByRole thread_id) :: announcement r true)
      with ([Sdk (GetLastMessageByRole thread_id)] ++ announcement r true).
    now rewrite ctx_infos_app, Hc.
  - change (Sdk (GetLastMessageByRole thread_id) :: announcement r false)
      with ([Sdk (GetLastMessageByRole thread_id)] ++ announcement r false).
    now rewrite ctx_infos_app, Hc.
Qed.

Lemma new_message_is_forwarded_witness :
  get_last_message_by_role queued_to_completed 1 = inr (Some sample_message)
  /\ Some (msg_id sample_message) <> (None : option string)
  /\ length (ctx_infos
               (snd (fetch_and_print_new_agent_response queued_to_completed 1
                       "thread_1" None true))) = 6.
Proof.
  split; [reflexivity |].
  assert (Hnew : Some (msg_id sample_message) <> (None : option string))
    by discriminate.
  split; [exact Hnew |].
  pose proof (new_message_is_forwarded queued_to_completed 1 "thread_1" None
                sample_message eq_refl Hnew) as (_ & Hctx & _).
  cbn zeta in Hctx. rewrite Hctx. reflexivity.
Defined.

Lemma citation_lines_not_status (anns : list UrlCitation) :
  List.filter (PyStr.startswith "Run status: ") (map citation_line anns) = [].
Proof. induction anns as [|a rest IH]; [reflexivity | exact IH]. Qed.

(** A poll sends no "Run status" notification. *)
Lemma fetch_no_status_line (svc : AgentsService) (k : nat) (thread_id : string)
    (last_message_id : option string) (ctx : bool) :
  status_lines (snd (fetch_and_print_new_agent_response svc k thread_id
                       last_message_id ctx)) = [].
Proof.
  unfold status_lines.
  destruct (fetch_cases svc k thread_id last_message_id ctx)
    as [(e & _ & ->) | [-> | (r & _ & _ & ->)]]; [reflexivity | reflexivity |].
  cbn [snd].
  change (Sdk (GetLastMessageByRole thread_id) :: announcement r ctx)
    with ([Sdk (GetLastMessageByRole thread_id)] ++ announcement r ctx).
  rewrite ctx_infos_app. destruct (announcement_lines r ctx) as (_ & -> & _).
  destruct ctx; [| reflexivity].
  cbn [app ctx_infos omap list_omap List.filter].
  exact (citation_lines_not_status (url_citation_annotations r)).
Qed.

Lemma status_lines_app (t1 t2 : list Event) :
  status_lines (t1 ++ t2) = status_lines t1 ++ status_lines t2.
Proof.
  unfold status_lines. now rewrite ctx_infos_app, List.filter_app.
Qed.

Lemma run_status_line (s : string) :
  PyStr.startswith "Run status: " ("Run status: " +:+ s) = true.
Proof. reflexivity. Qed.

(** The "Run status" notifications of an exited loop, from turn [k] on. *)
Lemma status_lines_turn (thread_id rid : string) (tf : list Event)
    (s : string) (t1 : list Event) :
  status_lines tf = [] ->
  status_lines (Sleep 10 :: Sdk (RunsGet thread_id rid)
                  :: tf ++ LogInfo ("Run status: " +:+ s)
                  :: CtxInfo ("Run status: " +:+ s) :: t1)
  = ("Run status: " +:+ s) :: status_lines t1.
Proof.
  intros Hquiet.
  change (Sleep 10 :: Sdk (RunsGet thread_id rid)
            :: tf ++ LogInfo ("Run status: " +:+ s)
            :: CtxInfo ("Run status: " +:+ s) :: t1)
    with ([Sleep 10; Sdk (RunsGet thread_id rid)]
          ++ tf ++ [LogInfo ("Run status: " +:+ s);
                    CtxInfo ("Run status: " +:+ s)] ++ t1).
  rewrite !status_lines_app, Hquiet. reflexivity.
Qed.

Lemma poll_loop_status_lines (svc : AgentsService) (thread_id : string)
    (fuel : nat) :
  forall k run last_message_id run' last' k' t,
    poll_loop svc fuel k thread_id run last_message_id
    = (Ok (run', last', k'), t) ->
    status_lines t
    = map (fun s => "Run status: " +:+ s)
          (omap (fun i => match runs_get svc i with
                          | inr r => Some (status r)
                          | inl _ => None
                          end) (seq k (k' - k)))
    /\ length (status_lines t) = k' - k.
Proof.
  induction fuel as [|fuel IH]; intros k run last run' last' k' t Hloop.
  - simpl in Hloop. destruct (in_polling (status run)); [discriminate |].
    inversion Hloop; subst. now rewrite Nat.sub_diag.
  - destruct (in_polling (status run)) eqn:Hst.
    2:{ rewrite poll_loop_done in Hloop by exact Hst. inversion Hloop; subst.
        now rewrite Nat.sub_diag. }
    destruct (runs_get svc k) as [e | run1] eqn:Hget.
    { rewrite (poll_loop_get_raises _ _ _ _ _ _ e Hst Hget) in Hloop.
      discriminate. }
    pose proof (fetch_no_status_line svc k thread_id last true) as Hquiet.
    destruct (fetch_and_print_new_agent_response svc k thread_id last true)
      as [[last1 | e |] tf] eqn:Hfetch; cbn [snd] in Hquiet.
    + rewrite (poll_loop_turn _ _ _ _ _ _ _ _ _ Hst Hget Hfetch) in Hloop.
      destruct (poll_loop svc fuel (S k) thread_id run1 last1)
        as [res t1] eqn:Hrest.
      pose proof (f_equal fst Hloop) as Hres.
      pose proof (f_equal snd Hloop) as Ht.
      cbn [fst snd] in Hres, Ht. subst res t. clear Hloop.
      destruct (poll_loop_exit_status _ _ _ _ _ _ _ _ _ _ Hrest)
        as (_ & Hle & _).
      destruct (IH _ _ _ _ _ _ _ Hrest) as (Hlines & Hlen).
      rewrite (status_lines_turn thread_id (run_id run) tf (status run1) t1
                 Hquiet).
      replace (k' - k) with (S (k' - S k)) by lia.
      cbn [seq omap list_omap map length]. rewrite Hget.
      cbn [map]. split; [now rewrite Hlines | now rewrite Hlen].
    + cbn [poll_loop] in Hloop. rewrite Hst, Hget, Hfetch in Hloop. discriminate.
    + cbn [poll_loop] in Hloop. rewrite Hst, Hget, Hfetch in Hloop. discriminate.
Qed.

(** X9: an exited loop has sent one "Run status" notification per turn,
    in the order of the turns, each with the status of the run that turn
    fetched; after at least one turn the last of them carries the status
    the loop exited on. *)
Theorem status_notifications_follow_polls
    (svc : AgentsService) (fuel : nat) (thread_id : string)
    (run0 run : ThreadRun) (last : option string) (k : nat) (t : list Event) :
  poll_loop svc fuel 0 thread_id run0 None = (Ok (run, last, k), t) ->
  status_lines t
  = map (fun s => "Run status: " +:+ s) (fetched_statuses svc k)
  /\ length (status_lines t) = k
  /\ (0 < k ->
      List.last (status_lines t) "" = "Run status: " +:+ status run).
Proof.
  intros Hloop.
  destruct (poll_loop_status_lines _ _ _ _ _ _ _ _ _ _ Hloop) as (Hlines & Hlen).
  rewrite Nat.sub_0_r in Hlines, Hlen.
  split; [exact Hlines |]. split; [exact Hlen |].
  intros Hpos.
  destruct (poll_loop_exit_status _ _ _ _ _ _ _ _ _ _ Hloop)
    as (_ & _ & _ & Hat & _).
  rewrite Nat.sub_0_r in Hat.
  destruct k as [|j]; [lia |]. cbn [status_after Nat.add] in Hat.
  destruct (runs_get svc j) as [e | rj] eqn:Hrj; [discriminate |].
  inversion Hat as [Hstatus].
  rewrite Hlines in Hlen |- *. unfold fetched_statuses in *.
  rewrite seq_S, omap_app in *. cbn [Nat.add seq omap list_omap] in *.
  rewrite Hrj in *. rewrite map_app. cbn [map].
  now rewrite List.last_last, Hstatus.
Qed.

Lemma status_notifications_follow_polls_witness :
  poll_loop queued_to_completed 2 0 "thread_1" (sample_run "queued") None
  = (Ok (sample_run "completed", Some "msg_1", 2),
     snd (poll_loop queued_to_completed 2 0 "thread_1" (sample_run "queued") None))
  /\ status_lines
       (snd (poll_loop queued_to_completed 2 0 "thread_1" (sample_run "queued")
               None))
     = ["Run status: in_progress"; "Run status: completed"].
Proof.
  assert (Hloop : poll_loop queued_to_completed 2 0 "thread_1"
                    (sample_run "queued") None
                  = (Ok (sample_run "completed", Some "msg_1", 2),
                     snd (poll_loop queued_to_completed 2 0 "thread_1"
                            (sample_run "queued") None))) by reflexivity.
  split; [exact Hloop |].
  exact (proj1 (status_notifications_follow_polls queued_to_completed 2
                  "thread_1" (sample_run "queued") (sample_run "completed")
                  (Some "msg_1") 2 _ Hloop)).
Defined.

(** ** When the handler returns *)

Lemma cleanup_returns (svc : AgentsService) (agent_id thread_id : string)
    (run : ThreadRun) (k : nat) (s : string) :
  fst (report_and_cleanup svc agent_id thread_id run k) = Ok s ->
  exists m,
    get_last_message_by_role svc k = inr (Some m)
    /\ delete_agent svc = inr tt
    /\ s = PyStr.or_else (Some (report_of m)) "No report content generated.".
Proof.
  unfold report_and_cleanup.
  destruct (String.eqb (status run) "failed"),
    (get_last_message_by_role svc k) as [e | [m |]],
    (delete_agent svc) as [e' | []]; cbn; intros H; try discriminate;
    inversion H; eauto.
Qed.

Lemma fallback_never_empty (v : option string) :
  PyStr.or_else v "No report content generated." <> "".
Proof. destruct v as [[|c s]|]; discriminate. Qed.

Lemma run_and_report_returns (svc : AgentsService) (fuel : nat)
    (agent_id thread_id : string) (s : string) :
  fst (run_and_report svc fuel agent_id thread_id) = Ok s ->
  exists run0 run last k t,
    runs_create svc = inr run0
    /\ poll_loop svc fuel 0 thread_id run0 None = (Ok (run, last, k), t)
    /\ fst (report_and_cleanup svc agent_id thread_id run k) = Ok s
    /\ snd (run_and_report svc fuel agent_id thread_id)
       = Sdk (RunsCreate thread_id agent_id) :: t
         ++ snd (report_and_cleanup svc agent_id thread_id run k).
Proof.
  intros Hret.
  destruct (runs_create svc) as [e | run0] eqn:Hcreate.
  { unfold run_and_report in Hret. rewrite Hcreate in Hret. discriminate. }
  destruct (poll_loop svc fuel 0 thread_id run0 None)
    as [[[[run last] k] | e |] t] eqn:Hloop.
  - rewrite (run_and_report_after_loop _ _ _ _ _ _ _ _ _ Hcreate Hloop) in Hret |- *.
    cbn [fst snd] in *. exists run0, run, last, k, t. now repeat split.
  - unfold run_and_report in Hret. rewrite Hcreate in Hret.
    cbn [call bind] in Hret. rewrite Hloop in Hret. discriminate.
  - unfold run_and_report in Hret. rewrite Hcreate in Hret.
    cbn [call bind] in Hret. rewrite Hloop in Hret. discriminate.
Qed.

(** X10: the handler returns a string only at the end of a full pass: the
    agent and the thread were created, the loop exited on a status other
    than "queued" and "in_progress", an agent message was there after it and
    the agent was deleted; the string is the report of that message, or the
    fallback when the report is empty, so it is never empty; and the trace
    ends with the deletion of the agent and its log line. *)
Theorem handler_returns_after_full_pass
    (svc : AgentsService) (fuel : nat) (research_topic : string)
    (report_type : ReportType) (language : string)
    (other_instructions : option string) (s : string) :
  let outcome := retrieve_deep_research_report svc fuel research_topic
                   report_type language other_instructions in
  fst outcome = Ok s ->
  s <> ""
  /\ exists agent_id thread_id run0 run last k t m,
       create_agent svc = inr agent_id
       /\ threads_create svc = inr thread_id
       /\ runs_create svc = inr run0
       /\ poll_loop svc fuel 0 thread_id run0 None = (Ok (run, last, k), t)
       /\ in_polling (status run) = false
       /\ get_last_message_by_role svc k = inr (Some m)
       /\ delete_agent svc = inr tt
       /\ s = PyStr.or_else (Some (report_of m)) "No report content generated."
       /\ exists before,
            snd outcome
            = before ++ [Sdk (DeleteAgent agent_id); LogInfo "Deleted agent"].
Proof.
  cbn zeta. unfold retrieve_deep_research_report, os_environ.
  rewrite report_instructions_eq.
  destruct (environ svc "PROJECT_ENDPOINT"); [| discriminate].
  destruct (environ svc "BING_RESOURCE_NAME") as [bing |]; [| discriminate].
  cbn [bind ret app]. destruct (connections_get svc bing); [discriminate |].
  cbn [bind ret call app].
  destruct (environ svc "DEEP_RESEARCH_MODEL_DEPLOYMENT_NAME"); [| discriminate].
  destruct (environ svc "MODEL_DEPLOYMENT_NAME"); [| discriminate].
  cbn [bind ret call app].
  destruct (create_agent svc) as [e | agent_id]; [discriminate |].
  cbn [bind ret call app logger_info ctx_info emit].
  destruct (threads_create svc) as [e | thread_id]; [discriminate |].
  cbn [bind ret call app logger_info ctx_info emit lift].
  destruct (messages_create svc _); [discriminate |].
  cbn [bind ret call app logger_info ctx_info emit].
  destruct (run_and_report svc fuel agent_id thread_id) as [res tr] eqn:Hrun.
  cbn [fst snd]. intros ->.
  destruct (run_and_report_returns svc fuel agent_id thread_id s)
    as (run0 & run & last & k & t & Hcreate & Hloop & Hret & Htrace);
    [now rewrite Hrun |].
  rewrite Hrun in Htrace. cbn [snd] in Htrace.
  destruct (cleanup_returns _ _ _ _ _ _ Hret) as (m & Hmsg & Hdel & Hs).
  destruct (poll_loop_exit_status _ _ _ _ _ _ _ _ _ _ Hloop) as (Hout & _).
  split; [rewrite Hs; apply fallback_never_empty |].
  exists agent_id, thread_id, run0, run, last, k, t, m.
  repeat (split; [assumption || reflexivity |]).
  rewrite Htrace.
  rewrite (cleanup_with_message svc agent_id thread_id run k m Hmsg Hdel).
  cbn [snd].
  change [Sdk (GetLastMessageByRole thread_id);
          LogInfo ("Research report content:" +:+ PyStr.NL +:+ report_of m);
          Sdk (DeleteAgent agent_id); LogInfo "Deleted agent"]
    with ([Sdk (GetLastMessageByRole thread_id);
           LogInfo ("Research report content:" +:+ PyStr.NL +:+ report_of m)]
          ++ [Sdk (DeleteAgent agent_id); LogInfo "Deleted agent"]).
  rewrite !app_assoc, !app_comm_cons. eexists. reflexivity.
Qed.

Lemma handler_returns_after_full_pass_witness :
  fst (retrieve_deep_research_report queued_to_completed 2
         "impact of remote work on urban planning" brief "en" None)
  = Ok (report_of sample_message)
  /\ report_of sample_message <> "".
Proof.
  assert (Hret : fst (retrieve_deep_research_report queued_to_completed 2
                        "impact of remote work on urban planning" brief "en"
                        None)
                 = Ok (report_of sample_message)) by (vm_compute; reflexivity).
  split; [exact Hret |].
  exact (proj1 (handler_returns_after_full_pass queued_to_completed 2
                  "impact of remote work on urban planning" brief "en" None
                  (report_of sample_message) Hret)).
Defined.

(** ** What an invocation costs, and when the agent is deleted *)

Lemma fetch_calls (svc : AgentsService) (k : nat) (thread_id : string)
    (last_message_id : option string) (ctx : bool) :
  sdk_calls (snd (fetch_and_print_new_agent_response svc k thread_id
                    last_message_id ctx))
  = [GetLastMessageByRole thread_id].
Proof.
  destruct (fetch_cases svc k thread_id last_message_id ctx)
    as [(e & _ & ->) | [-> | (r & _ & _ & ->)]]; [reflexivity | reflexivity |].
  cbn [snd].
  change (Sdk (GetLastMessageByRole thread_id) :: announcement r ctx)
    with ([Sdk (GetLastMessageByRole thread_id)] ++ announcement r ctx).
  rewrite sdk_calls_app. destruct (announcement_lines r ctx) as (_ & _ & ->).
  reflexivity.
Qed.

Lemma sdk_calls_turn (thread_id rid : string) (tf : list Event)
    (s : string) (t1 : list Event) :
  sdk_calls tf = [GetLastMessageByRole thread_id] ->
  sdk_calls (Sleep 10 :: Sdk (RunsGet thread_id rid)
               :: tf ++ LogInfo ("Run status: " +:+ s)
               :: CtxInfo ("Run status: " +:+ s) :: t1)
  = RunsGet thread_id rid :: GetLastMessageByRole thread_id :: sdk_calls t1.
Proof.
  intros Hcalls.
  change (Sleep 10 :: Sdk (RunsGet thread_id rid)
            :: tf ++ LogInfo ("Run status: " +:+ s)
            :: CtxInfo ("Run status: " +:+ s) :: t1)
    with ([Sleep 10; Sdk (RunsGet thread_id rid)]
          ++ tf ++ [LogInfo ("Run status: " +:+ s);
                    CtxInfo ("Run status: " +:+ s)] ++ t1).
  rewrite !sdk_calls_app, Hcalls. reflexivity.
Qed.

(** An exited loop has made two calls per turn. *)
Lemma poll_loop_calls (svc : AgentsService) (thread_id : string) (fuel : nat) :
  forall k run last_message_id run' last' k' t,
    poll_loop svc fuel k thread_id run last_message_id
    = (Ok (run', last', k'), t) ->
    length (sdk_calls t) = 2 * (k' - k).
Proof.
  induction fuel as [|fuel IH]; intros k run last run' last' k' t Hloop.
  - simpl in Hloop. destruct (in_polling (status run)); [discriminate |].
    inversion Hloop; subst. now rewrite Nat.sub_diag.
  - destruct (in_polling (status run)) eqn:Hst.
    2:{ rewrite poll_loop_done in Hloop by exact Hst. inversion Hloop; subst.
        now rewrite Nat.sub_diag. }
    destruct (runs_get svc k) as [e | run1] eqn:Hget.
    { rewrite (poll_loop_get_raises _ _ _ _ _ _ e Hst Hget) in Hloop.
      discriminate. }
    pose proof (fetch_calls svc k thread_id last true) as Hcalls.
    destruct (fetch_and_print_new_agent_response svc k thread_id last true)
      as [[last1 | e |] tf] eqn:Hfetch; cbn [snd] in Hcalls.
    + rewrite (poll_loop_turn _ _ _ _ _ _ _ _ _ Hst Hget Hfetch) in Hloop.
      destruct (poll_loop svc fuel (S k) thread_id run1 last1)
        as [res t1] eqn:Hrest.
      pose proof (f_equal fst Hloop) as Hres.
      pose proof (f_equal snd Hloop) as Ht.
      cbn [fst snd] in Hres, Ht. subst res t. clear Hloop.
      destruct (poll_loop_exit_status _ _ _ _ _ _ _ _ _ _ Hrest)
        as (_ & Hle & _).
      rewrite (sdk_calls_turn thread_id (run_id run) tf (status run1) t1 Hcalls).
      cbn [length]. rewrite (IH _ _ _ _ _ _ _ Hrest). lia.
    + cbn [poll_loop] in Hloop. rewrite Hst, Hget, Hfetch in Hloop. discriminate.
    + cbn [poll_loop] in Hloop. rewrite Hst, Hget, Hfetch in Hloop. discriminate.
Qed.

Lemma cleanup_calls (svc : AgentsService) (agent_id thread_id : string)
    (run : ThreadRun) (k : nat) (final_message : option ThreadMessage) :
  get_last_message_by_role svc k = inr final_message ->
  sdk_calls (snd (report_and_cleanup svc agent_id thread_id run k))
  = [GetLastMessageByRole thread_id; DeleteAgent agent_id]
  /\ sleeps (snd (report_and_cleanup svc agent_id thread_id run k)) = [].
Proof.
  intros Hmsg. unfold report_and_cleanup. rewrite Hmsg.
  destruct (String.eqb (status run) "failed"), final_message,
    (delete_agent svc) as [e | []]; now split.
Qed.

(** X11: an invocation whose loop exits after [k] turns, and whose last
    fetch of the agent message is answered, has slept [k] times 10, that is
    10 [k] in all, and has made 2 [k] + 7 calls to the service: four for the
    set-up, one to create the run, two per turn, the last fetch and the
    deletion. *)
Theorem cost_of_an_invocation
    (svc : AgentsService) (fuel : nat) (agent_id thread_id : string)
    (research_topic : string) (report_type : ReportType) (language : string)
    (other_instructions : option string)
    (run : ThreadRun) (k : nat) (final_message : option ThreadMessage) :
  run_ends svc fuel agent_id thread_id run k ->
  get_last_message_by_role svc k = inr final_message ->
  let outcome := retrieve_deep_research_report svc fuel research_topic
                   report_type language other_instructions in
  sleeps (snd outcome) = replicate k 10
  /\ sum_list (sleeps (snd outcome)) = 10 * k
  /\ length (sdk_calls (snd outcome)) = 2 * k + 7
  /\ List.last (sdk_calls (snd outcome)) ThreadsCreate = DeleteAgent agent_id.
Proof.
  intros (Hsetup & run0 & last & t & Hcreate & Hloop) Hmsg. cbn zeta.
  rewrite (handler_after_setup _ _ _ _ _ _ _ _ Hsetup).
  rewrite (run_and_report_after_loop _ _ _ _ _ _ _ _ _ Hcreate Hloop).
  cbn [snd].
  destruct (cleanup_calls svc agent_id thread_id run k final_message Hmsg)
    as (Hcalls & Hquiet).
  pose proof (poll_loop_sleeps _ _ _ _ _ _ _ _ _ _ Hloop) as Hsleeps.
  pose proof (poll_loop_calls _ _ _ _ _ _ _ _ _ _ Hloop) as Hcount.
  rewrite Nat.sub_0_r in Hsleeps, Hcount.
  destruct (setup_events_calls svc agent_id thread_id
              (formatted_template report_type research_topic language
               +:+ other_instructions_block other_instructions))
    as (model & conn & tool & name & Hsetup_calls).
  change (Sdk (RunsCreate thread_id agent_id)
            :: t ++ snd (report_and_cleanup svc agent_id thread_id run k))
    with ([Sdk (RunsCreate thread_id agent_id)]
          ++ t ++ snd (report_and_cleanup svc agent_id thread_id run k)).
  rewrite !sleeps_app, !sdk_calls_app, Hquiet, Hcalls, Hsetup_calls, Hsleeps.
  assert (Hnone : sleeps (setup_events svc agent_id thread_id
                            (formatted_template report_type research_topic
                               language
                             +:+ other_instructions_block other_instructions))
                  = []) by reflexivity.
  rewrite Hnone.
  change (sleeps [Sdk (RunsCreate thread_id agent_id)]) with (@nil nat).
  change (sdk_calls [Sdk (RunsCreate thread_id agent_id)])
    with [RunsCreate thread_id agent_id].
  cbn [app]. rewrite app_nil_r.
  split; [reflexivity | split; [| split]].
  - rewrite sum_list_replicate. lia.
  - cbn [length]. rewrite length_app. cbn [length]. lia.
  - change [GetLastMessageByRole thread_id; DeleteAgent agent_id]
      with ([GetLastMessageByRole thread_id] ++ [DeleteAgent agent_id]).
    rewrite !app_comm_cons, !app_assoc. apply List.last_last.
Qed.

Lemma cost_of_an_invocation_witness :
  run_ends failed_with_message 1 "agent_1" "thread_1" (sample_run "failed") 1
  /\ get_last_message_by_role failed_with_message 1 = inr (Some sample_message)
  /\ length (sdk_calls
               (snd (retrieve_deep_research_report failed_with_message 1
                       "impact of remote work on urban planning" brief "en"
                       None))) = 9.
Proof.
  split; [apply failed_with_message_ends |]. split; [reflexivity |].
  pose proof (cost_of_an_invocation failed_with_message 1 "agent_1" "thread_1"
                "impact of remote work on urban planning" brief "en" None
                (sample_run "failed") 1 (Some sample_message)
                failed_with_message_ends eq_refl) as (_ & _ & Hcalls & _).
  exact Hcalls.
Defined.

Lemma no_delete_among (calls : list SdkCall) :
  Forall (fun c => is_delete_agent c = false) calls ->
  ~ Exists (fun c => is_delete_agent c = true) calls.
Proof.
  intros Hall Hex. apply Exists_exists in Hex as (c & Hin & Hc).
  rewrite Forall_forall in Hall. specialize (Hall c Hin). congruence.
Qed.

Lemma loop_never_deletes (svc : AgentsService) (fuel k : nat)
    (thread_id : string) (run : ThreadRun) (last_message_id : option string) :
  Forall (fun c => is_delete_agent c = false)
         (sdk_calls (snd (poll_loop svc fuel k thread_id run last_message_id))).
Proof.
  apply poll_call_not_delete, loop_events_calls, poll_loop_events.
Qed.

Lemma cleanup_fetch_raises (svc : AgentsService) (agent_id thread_id : string)
    (run : ThreadRun) (k : nat) (e : Exn) :
  get_last_message_by_role svc k = inl e ->
  fst (report_and_cleanup svc agent_id thread_id run k) = Raise e
  /\ sdk_calls (snd (report_and_cleanup svc agent_id thread_id run k))
     = [GetLastMessageByRole thread_id].
Proof.
  intros Hmsg. unfold report_and_cleanup. rewrite Hmsg.
  destruct (String.eqb (status run) "failed"); now split.
Qed.

(** The run part of the handler deletes the agent only past the loop and
    the last fetch. *)
Lemma run_and_report_deletes (svc : AgentsService) (fuel : nat)
    (agent_id thread_id : string) :
  Exists (fun c => is_delete_agent c = true)
         (sdk_calls (snd (run_and_report svc fuel agent_id thread_id))) ->
  exists run0 run last k t final_message,
    runs_create svc = inr run0
    /\ poll_loop svc fuel 0 thread_id run0 None = (Ok (run, last, k), t)
    /\ get_last_message_by_role svc k = inr final_message.
Proof.
  intros Hex.
  destruct (runs_create svc) as [e | run0] eqn:Hcreate.
  { exfalso. revert Hex. apply no_delete_among.
    unfold run_and_report. rewrite Hcreate. repeat constructor. }
  pose proof (loop_never_deletes svc fuel 0 thread_id run0 None) as Hloopcalls.
  destruct (poll_loop svc fuel 0 thread_id run0 None)
    as [[[[run last] k] | e |] t] eqn:Hloop; cbn [snd] in Hloopcalls.
  - destruct (get_last_message_by_role svc k) as [e | fm] eqn:Hmsg;
      [| now exists run0, run, last, k, t, fm].
    exfalso. revert Hex. apply no_delete_among.
    rewrite (run_and_report_after_loop _ _ _ _ _ _ _ _ _ Hcreate Hloop).
    cbn [snd].
    destruct (cleanup_fetch_raises svc agent_id thread_id run k e Hmsg)
      as (_ & Hcalls).
    change (Sdk (RunsCreate thread_id agent_id)
              :: t ++ snd (report_and_cleanup svc agent_id thread_id run k))
      with ([Sdk (RunsCreate thread_id agent_id)]
            ++ t ++ snd (report_and_cleanup svc agent_id thread_id run k)).
    rewrite !sdk_calls_app, Hcalls.
    apply Forall_app. split; [repeat constructor |].
    apply Forall_app. split; [exact Hloopcalls | repeat constructor].
  - exfalso. revert Hex. apply no_delete_among.
    unfold run_and_report. rewrite Hcreate. cbn [call bind]. rewrite Hloop.
    cbn [bind snd].
    apply Forall_cons. split; [reflexivity | exact Hloopcalls].
  - exfalso. revert Hex. apply no_delete_among.
    unfold run_and_report. rewrite Hcreate. cbn [call bind]. rewrite Hloop.
    cbn [bind snd].
    apply Forall_cons. split; [reflexivity | exact Hloopcalls].
Qed.

(** X12: the handler calls the deletion of the agent only at the end of
    the pass: if the trace of an invocation holds a call to delete the
    agent, then the agent, the thread and the run were created, the loop
    exited on a status outside the polling set and the last fetch of the
    agent message was answered.  An invocation that stops anywhere before
    (an unset variable, a refused call, a budget used up) deletes nothing. *)
Theorem agent_deleted_only_after_loop
    (svc : AgentsService) (fuel : nat) (research_topic : string)
    (report_type : ReportType) (language : string)
    (other_instructions : option string) :
  let outcome := retrieve_deep_research_report svc fuel research_topic
                   report_type language other_instructions in
  Exists (fun c => is_delete_agent c = true) (sdk_calls (snd outcome)) ->
  exists agent_id thread_id run0 run last k t final_message,
    create_agent svc = inr agent_id
    /\ threads_create svc = inr thread_id
    /\ runs_create svc = inr run0
    /\ poll_loop svc fuel 0 thread_id run0 None = (Ok (run, last, k), t)
    /\ in_polling (status run) = false
    /\ get_last_message_by_role svc k = inr final_message.
Proof.
  cbn zeta. unfold retrieve_deep_research_report, os_environ.
  rewrite report_instructions_eq.
  destruct (environ svc "PROJECT_ENDPOINT");
    [| intros Hex; exfalso; revert Hex; apply no_delete_among; constructor].
  destruct (environ svc "BING_RESOURCE_NAME") as [bing |];
    [| intros Hex; exfalso; revert Hex; apply no_delete_among; constructor].
  cbn [bind ret app].
  destruct (connections_get svc bing);
    [intros Hex; exfalso; revert Hex; apply no_delete_among;
     repeat constructor |].
  cbn [bind ret call app].
  destruct (environ svc "DEEP_RESEARCH_MODEL_DEPLOYMENT_NAME");
    [| intros Hex; exfalso; revert Hex; apply no_delete_among;
       repeat constructor].
  destruct (environ svc "MODEL_DEPLOYMENT_NAME");
    [| intros Hex; exfalso; revert Hex; apply no_delete_among;
       repeat constructor].
  cbn [bind ret call app].
  destruct (create_agent svc) as [e | agent_id];
    [intros Hex; exfalso; revert Hex; apply no_delete_among;
     repeat constructor |].
  cbn [bind ret call app logger_info ctx_info emit].
  destruct (threads_create svc) as [e | thread_id];
    [intros Hex; exfalso; revert Hex; apply no_delete_among;
     repeat constructor |].
  cbn [bind ret call app logger_info ctx_info emit lift].
  destruct (messages_create svc _);
    [intros Hex; exfalso; revert Hex; apply no_delete_among;
     repeat constructor |].
  cbn [bind ret call app logger_info ctx_info emit].
  pose proof (run_and_report_deletes svc fuel agent_id thread_id) as Hrun.
  destruct (run_and_report svc fuel agent_id thread_id) as [res tr].
  cbn [fst snd] in *. intros Hex.
  destruct Hrun as (run0 & run & last & k & t & fm & Hcreate & Hloop & Hmsg).
  { cbn in Hex. repeat (apply Exists_cons in Hex as [Hex | Hex];
                        [discriminate |]).
    exact Hex. }
  destruct (poll_loop_exit_status _ _ _ _ _ _ _ _ _ _ Hloop) as (Hout & _).
  exists agent_id, thread_id, run0, run, last, k, t, fm. now repeat split.
Qed.

Lemma agent_deleted_only_after_loop_witness :
  Exists (fun c => is_delete_agent c = true)
         (sdk_calls
            (snd (retrieve_deep_research_report deletion_refused 1
                    "impact of remote work on urban planning" brief "en" None)))
  /\ exists run k,
       in_polling (status run) = false
       /\ exists final_message,
            get_last_message_by_role deletion_refused k = inr final_message.
Proof.
  assert (Hex : Exists (fun c => is_delete_agent c = true)
                  (sdk_calls
                     (snd (retrieve_deep_research_report deletion_refused 1
                             "impact of remote work on urban planning" brief
                             "en" None)))).
  { vm_compute. do 8 apply Exists_cons_tl. apply Exists_cons_hd.
    reflexivity. }
  split; [exact Hex |].
  destruct (agent_deleted_only_after_loop deletion_refused 1
              "impact of remote work on urban planning" brief "en" None Hex)
    as (_ & _ & _ & run & _ & k & _ & fm & _ & _ & _ & _ & Hout & Hmsg).
  exists run, k. split; [exact Hout |]. now exists fm.
Defined.

(** ** Each new agent message is announced once *)

Lemma response_lines_app (t1 t2 : list Event) :
  response_lines (t1 ++ t2) = response_lines t1 ++ response_lines t2.
Proof.
  unfold response_lines. now rewrite ctx_infos_app, List.filter_app.
Qed.

Lemma citation_lines_not_response (anns : list UrlCitation) :
  List.filter (PyStr.startswith (PyStr.NL +:+ "Agent response:"))
              (map citation_line anns) = [].
Proof. induction anns as [|a rest IH]; [reflexivity | exact IH]. Qed.

Lemma response_line_is_response (r : ThreadMessage) :
  PyStr.startswith (PyStr.NL +:+ "Agent response:") (response_line r) = true.
Proof. reflexivity. Qed.

(** The announcement of a message holds one notification that announces
    it. *)
Lemma announcement_response_lines (r : ThreadMessage) :
  response_lines (announcement r true) = [response_line r].
Proof.
  unfold response_lines.
  destruct (announcement_lines r true) as (_ & -> & _).
  cbn [List.filter]. fold (response_line r).
  rewrite response_line_is_response, citation_lines_not_response. reflexivity.
Qed.

Lemma response_lines_turn (thread_id rid : string) (tf : list Event)
    (s : string) (t1 : list Event) :
  response_lines (Sleep 10 :: Sdk (RunsGet thread_id rid)
                    :: tf ++ LogInfo ("Run status: " +:+ s)
                    :: CtxInfo ("Run status: " +:+ s) :: t1)
  = response_lines tf ++ response_lines t1.
Proof.
  change (Sleep 10 :: Sdk (RunsGet thread_id rid)
            :: tf ++ LogInfo ("Run status: " +:+ s)
            :: CtxInfo ("Run status: " +:+ s) :: t1)
    with ([Sleep 10; Sdk (RunsGet thread_id rid)]
          ++ tf ++ [LogInfo ("Run status: " +:+ s);
                    CtxInfo ("Run status: " +:+ s)] ++ t1).
  rewrite !response_lines_app. reflexivity.
Qed.

Lemma announced_next (svc : AgentsService) (k n : nat) :
  announced svc k (S n)
  = match news_at svc k with
    | Some r => r :: announced svc (S k) n
    | None => announced svc (S k) n
    end.
Proof. unfold announced. cbn [seq omap list_omap]. reflexivity. Qed.

(** What a poll of the loop does, by what it finds: it hands on the
    identifier of the latest message found so far, and announces the
    message it finds when that message is news. *)
Lemma fetch_by_news (svc : AgentsService) (k : nat) (thread_id : string)
    (last' : option string) (tf : list Event) :
  fetch_and_print_new_agent_response svc k thread_id (latest_id svc k) true
  = (Ok last', tf) ->
  last' = latest_id svc (S k)
  /\ response_lines tf
     = match news_at svc k with
       | Some r => [response_line r]
       | None => []
       end.
Proof.
  unfold news_at. cbn [latest_id].
  destruct (get_last_message_by_role svc k) as [e | [r |]] eqn:Hreply.
  - rewrite (fetch_raises _ _ _ _ _ _ Hreply). discriminate.
  - case_bool_decide as Hid.
    + rewrite (fetch_nothing_new svc k thread_id _ true (Some r) Hreply)
        by (right; exists r; now split).
      intros H. inversion H; subst. now split.
    + rewrite (fetch_new svc k thread_id _ true r Hreply Hid).
      intros H. inversion H; subst. split; [reflexivity |].
      change (Sdk (GetLastMessageByRole thread_id) :: announcement r true)
        with ([Sdk (GetLastMessageByRole thread_id)] ++ announcement r true).
      rewrite response_lines_app. apply announcement_response_lines.
  - rewrite (fetch_nothing_new svc k thread_id _ true None Hreply)
      by now left.
    intros H. inversion H; subst. now split.
Qed.

(** The loop announces the news of its turns, in order, and ends with the
    identifier of the latest message found. *)
Lemma poll_loop_announces (svc : AgentsService) (thread_id : string)
    (fuel : nat) :
  forall k run run' last' k' t,
    poll_loop svc fuel k thread_id run (latest_id svc k)
    = (Ok (run', last', k'), t) ->
    last' = latest_id svc k'
    /\ response_lines t = map response_line (announced svc k (k' - k)).
Proof.
  induction fuel as [|fuel IH]; intros k run run' last' k' t Hloop.
  - simpl in Hloop. destruct (in_polling (status run)); [discriminate |].
    inversion Hloop; subst. now rewrite Nat.sub_diag.
  - destruct (in_polling (status run)) eqn:Hst.
    2:{ rewrite poll_loop_done in Hloop by exact Hst. inversion Hloop; subst.
        now rewrite Nat.sub_diag. }
    destruct (runs_get svc k) as [e | run1] eqn:Hget.
    { rewrite (poll_loop_get_raises _ _ _ _ _ _ e Hst Hget) in Hloop.
      discriminate. }
    destruct (fetch_and_print_new_agent_response svc k thread_id
                (latest_id svc k) true) as [[last1 | e |] tf] eqn:Hfetch.
    + destruct (fetch_by_news svc k thread_id last1 tf Hfetch) as (-> & Hnews).
      rewrite (poll_loop_turn _ _ _ _ _ _ _ _ _ Hst Hget Hfetch) in Hloop.
      destruct (poll_loop svc fuel (S k) thread_id run1 (latest_id svc (S k)))
        as [res t1] eqn:Hrest.
      pose proof (f_equal fst Hloop) as Hres.
      pose proof (f_equal snd Hloop) as Ht.
      cbn [fst snd] in Hres, Ht. subst res t. clear Hloop.
      destruct (poll_loop_exit_status _ _ _ _ _ _ _ _ _ _ Hrest)
        as (_ & Hle & _).
      destruct (IH _ _ _ _ _ _ Hrest) as (Hlast & Hlines).
      split; [exact Hlast |].
      rewrite response_lines_turn, Hnews, Hlines.
      replace (k' - k) with (S (k' - S k)) by lia.
      rewrite announced_next. now destruct (news_at svc k).
    + cbn [poll_loop] in Hloop. rewrite Hst, Hget, Hfetch in Hloop. discriminate.
    + cbn [poll_loop] in Hloop. rewrite Hst, Hget, Hfetch in Hloop. discriminate.
Qed.

Lemma announced_S (svc : AgentsService) (n : nat) :
  announced svc 0 (S n)
  = announced svc 0 n ++ match news_at svc n with
                         | Some r => [r]
                         | None => []
                         end.
Proof.
  unfold announced. rewrite seq_S, omap_app. cbn [Nat.add omap list_omap].
  now destruct (news_at svc n).
Qed.

Lemma news_at_found (svc : AgentsService) (i : nat) (r : ThreadMessage) :
  news_at svc i = Some r <->
  get_last_message_by_role svc i = inr (Some r)
  /\ Some (msg_id r) <> latest_id svc i.
Proof.
  unfold news_at.
  destruct (get_last_message_by_role svc i) as [e | [r' |]].
  - split; [discriminate | now intros [H _]].
  - case_bool_decide as Hid.
    + split; [discriminate |]. intros [H Hne]. inversion H; subst. contradiction.
    + split.
      * intros H. inversion H; subst. now split.
      * intros [H _]. now inversion H.
  - split; [discriminate | now intros [H _]].
Qed.

Lemma announced_elem (svc : AgentsService) (n : nat) (r : ThreadMessage) :
  r ∈ announced svc 0 n <-> exists i, i < n /\ news_at svc i = Some r.
Proof.
  unfold announced. rewrite list_elem_of_omap. split.
  - intros (i & Hi & Hnews). apply elem_of_seq in Hi. exists i. split; [lia | exact Hnews].
  - intros (i & Hi & Hnews). exists i. split; [apply elem_of_seq; lia | exact Hnews].
Qed.

(** The latest identifier is the one of the last poll that found a
    message. *)
Lemma latest_id_last (svc : AgentsService) (n : nat) (x : string) :
  latest_id svc n = Some x ->
  exists l rl,
    l < n /\ get_last_message_by_role svc l = inr (Some rl) /\ msg_id rl = x
    /\ forall m rm, l < m -> m < n ->
         get_last_message_by_role svc m <> inr (Some rm).
Proof.
  induction n as [|n IH]; [discriminate |]. cbn [latest_id].
  destruct (get_last_message_by_role svc n) as [e | [r |]] eqn:Hreply.
  - intros Hx. destruct (IH Hx) as (l & rl & Hl & Hrl & Hid & Hafter).
    exists l, rl. repeat split; [lia | exact Hrl | exact Hid |].
    intros m rm Hlm Hm. destruct (decide (m = n)) as [-> | Hne];
      [rewrite Hreply; discriminate | apply Hafter; lia].
  - intros Hx. inversion Hx; subst. exists n, r.
    repeat split; [lia | exact Hreply |]. intros m rm Hlm Hm. lia.
  - intros Hx. destruct (IH Hx) as (l & rl & Hl & Hrl & Hid & Hafter).
    exists l, rl. repeat split; [lia | exact Hrl | exact Hid |].
    intros m rm Hlm Hm. destruct (decide (m = n)) as [-> | Hne];
      [rewrite Hreply; discriminate | apply Hafter; lia].
Qed.

Lemma latest_id_some (svc : AgentsService) (n j : nat) (rj : ThreadMessage) :
  j < n -> get_last_message_by_role svc j = inr (Some rj) ->
  exists x, latest_id svc n = Some x.
Proof.
  induction n as [|n IH]; [lia |]. intros Hj Hrj. cbn [latest_id].
  destruct (decide (j = n)) as [-> | Hne].
  - rewrite Hrj. eauto.
  - destruct (get_last_message_by_role svc n) as [e | [r |]];
      [apply IH; [lia | exact Hrj] | eauto | apply IH; [lia | exact Hrj]].
Qed.

(** Every identifier a poll has found is the identifier of an announced
    message, and conversely. *)
Lemma announced_ids (svc : AgentsService) (n : nat) (x : string) :
  x ∈ map msg_id (announced svc 0 n)
  <-> exists i r, i < n /\ get_last_message_by_role svc i = inr (Some r)
                  /\ msg_id r = x.
Proof.
  change (map msg_id) with (fmap (M:=list) msg_id).
  rewrite list_elem_of_fmap. split.
  - intros (r & -> & (i & Hi & Hnews)%announced_elem).
    apply news_at_found in Hnews as [Hreply _]. now exists i, r.
  - intros (i & r & Hi & Hreply & Hid). revert i r Hi Hreply Hid.
    induction n as [|n IH]; intros i r Hi Hreply Hid; [lia |].
    assert (Hgrow : forall r', r' ∈ announced svc 0 n ->
                               r' ∈ announced svc 0 (S n)).
    { intros r' Hin. rewrite announced_S. apply elem_of_app. now left. }
    destruct (decide (i = n)) as [-> | Hne].
    + destruct (decide (Some (msg_id r) = latest_id svc n)) as [Hsame | Hnew].
      * symmetry in Hsame.
        destruct (latest_id_last svc n (msg_id r) Hsame)
          as (l & rl & Hl & Hrl & Hidl & _).
        destruct (IH l rl Hl Hrl (eq_trans Hidl Hid)) as (r' & Hr' & Hin).
        exists r'. split; [exact Hr' | now apply Hgrow].
      * exists r. split; [now symmetry |]. apply announced_elem.
        exists n. split; [lia |]. now apply news_at_found.
    + destruct (IH i r ltac:(lia) Hreply Hid) as (r' & Hr' & Hin).
      exists r'. split; [exact Hr' | now apply Hgrow].
Qed.

Lemma stable_ids_fewer (svc : AgentsService) (n : nat) :
  stable_ids svc (S n) -> stable_ids svc n.
Proof.
  intros Hstable i j l ri rj rl Hij Hjl Hl. apply Hstable; [exact Hij | exact Hjl | lia].
Qed.

(** When identifiers do not come back, no identifier is announced
    twice. *)
Lemma announced_once (svc : AgentsService) (n : nat) :
  stable_ids svc n -> NoDup (map msg_id (announced svc 0 n)).
Proof.
  induction n as [|n IH]; intros Hstable; [constructor |].
  specialize (IH (stable_ids_fewer svc n Hstable)).
  rewrite announced_S, map_app.
  destruct (news_at svc n) as [r |] eqn:Hnews;
    [| cbn [map]; now rewrite app_nil_r].
  apply news_at_found in Hnews as [Hreply Hnew].
  apply NoDup_app. split; [exact IH |]. split; [| repeat constructor; apply not_elem_of_nil].
  intros x Hx Hxr. cbn [map] in Hxr. apply list_elem_of_singleton in Hxr. subst x.
  apply announced_ids in Hx as (j & rj & Hj & Hrj & Hidj).
  destruct (latest_id_some svc n j rj Hj Hrj) as [y Hy].
  destruct (latest_id_last svc n y Hy) as (l & rl & Hl & Hrl & Hidl & Hafter).
  assert (Hjl : j < l).
  { destruct (decide (j < l)) as [Hlt | Hge]; [exact Hlt |].
    destruct (decide (j = l)) as [-> | Hne].
    - rewrite Hrj in Hrl. inversion Hrl; subst rl.
      exfalso. apply Hnew. rewrite Hy. f_equal. congruence.
    - exfalso. apply (Hafter j rj); [lia | exact Hj | exact Hrj]. }
  assert (Hback : msg_id rl = msg_id rj).
  { apply (Hstable j l n rj rl r); [exact Hjl | exact Hl | lia
                                    | exact Hrj | exact Hrl | exact Hreply
                                    | exact Hidj]. }
  apply Hnew. rewrite Hy. f_equal. congruence.
Qed.

(** C6: a poll that finds no agent message, or the message whose
    identifier was reported last, emits no progress output and returns the
    identifier it was given.  Hence, in the polling loop: the identifier
    handed from turn to turn is the one of the latest message found; the
    notifications that announce a message are, in order, those of the polls
    that found a message other than the latest one, so a poll that finds
    the same identifier again announces nothing; every identifier found is
    announced, and, when identifiers do not come back once replaced, none
    is announced twice. *)
Theorem polls_announce_each_message_once
    (svc : AgentsService) (thread_id : string) :
  (forall k last_message_id ctx response,
     get_last_message_by_role svc k = inr response ->
     (response = None
      \/ exists r, response = Some r /\ Some (msg_id r) = last_message_id) ->
     fst (fetch_and_print_new_agent_response svc k thread_id last_message_id ctx)
     = Ok last_message_id
     /\ progress_output
          (snd (fetch_and_print_new_agent_response svc k thread_id
                  last_message_id ctx)) = [])
  /\ (forall fuel run0 run last n t,
        poll_loop svc fuel 0 thread_id run0 None = (Ok (run, last, n), t) ->
        last = latest_id svc n
        /\ response_lines t
           = map (fun r => PyStr.NL +:+ "Agent response:"
                           +:+ PyStr.join PyStr.NL (text_messages r))
                 (announced svc 0 n)
        /\ (forall i r r',
              get_last_message_by_role svc i = inr (Some r) ->
              get_last_message_by_role svc (S i) = inr (Some r') ->
              msg_id r' = msg_id r ->
              news_at svc (S i) = None)
        /\ (forall x,
              x ∈ map msg_id (announced svc 0 n)
              <-> exists i r, i < n
                              /\ get_last_message_by_role svc i = inr (Some r)
                              /\ msg_id r = x)
        /\ (stable_ids svc n -> NoDup (map msg_id (announced svc 0 n)))
        /\ (forall x,
              (forall i r, i < n ->
                 get_last_message_by_role svc i = inr (Some r) -> msg_id r = x) ->
              length (response_lines t) <= 1)).
Proof.
  split.
  - intros k last ctx response Hreply Hsame.
    rewrite (fetch_nothing_new svc k thread_id last ctx response Hreply Hsame).
    now split.
  - intros fuel run0 run last n t Hloop.
    destruct (poll_loop_announces svc thread_id fuel 0 run0 run last n t Hloop)
      as (Hlast & Hlines).
    rewrite Nat.sub_0_r in Hlines.
    split; [exact Hlast |]. split; [exact Hlines |].
    split; [| split; [apply announced_ids | split; [apply announced_once |]]].
    + intros i r r' Hr Hr' Hid. unfold news_at. rewrite Hr'.
      cbn [latest_id]. rewrite Hr, Hid. now rewrite bool_decide_true.
    + intros x Hall.
      assert (Hstable : stable_ids svc n).
      { intros i j l ri rj rl Hij Hjl Hl Hri Hrj Hrl _.
        rewrite (Hall i ri ltac:(lia) Hri), (Hall j rj ltac:(lia) Hrj).
        reflexivity. }
      pose proof (announced_once svc n Hstable) as Hnodup.
      assert (Hx : forall y, y ∈ map msg_id (announced svc 0 n) -> y = x).
      { intros y (i & r & Hi & Hr & <-)%announced_ids. now apply (Hall i). }
      rewrite Hlines, length_map, <- (length_map msg_id).
      destruct (map msg_id (announced svc 0 n)) as [|a [|b rest]];
        [cbn; lia | cbn; lia |].
      exfalso. apply NoDup_cons in Hnodup as [Hfresh _]. apply Hfresh.
      rewrite (Hx a ltac:(left)), (Hx b ltac:(right; left)). left.
Qed.

Lemma polls_announce_each_message_once_witness :
  get_last_message_by_role queued_to_completed 0 = inr None
  /\ progress_output
       (snd (fetch_and_print_new_agent_response queued_to_completed 0
               "thread_1" None true)) = []
  /\ poll_loop same_message_three_turns 3 0 "thread_1" (sample_run "queued") None
     = (Ok (sample_run "completed", Some "msg_1", 3),
        snd (poll_loop same_message_three_turns 3 0 "thread_1"
               (sample_run "queued") None))
  /\ response_lines
       (snd (poll_loop same_message_three_turns 3 0 "thread_1"
               (sample_run "queued") None))
     = [PyStr.NL +:+ "Agent response:" +:+ "  Remote work reshapes cities. "
        +:+ PyStr.NL +:+ PyStr.NL +:+ PyStr.NL +:+ "Density falls."].
Proof.
  split; [reflexivity |].
  split.
  - exact (proj2 (proj1 (polls_announce_each_message_once queued_to_completed
                           "thread_1")
                    0 None true None eq_refl (or_introl eq_refl))).
  - assert (Hloop : poll_loop same_message_three_turns 3 0 "thread_1"
                      (sample_run "queued") None
                    = (Ok (sample_run "completed", Some "msg_1", 3),
                       snd (poll_loop same_message_three_turns 3 0 "thread_1"
                              (sample_run "queued") None))) by reflexivity.
    split; [exact Hloop |].
    destruct (proj2 (polls_announce_each_message_once same_message_three_turns
                       "thread_1") 3 _ _ _ _ _ Hloop) as (_ & Hlines & _).
    rewrite Hlines. reflexivity.
Defined.

(** ** The report depends on the message only *)

Lemma references_step_in_eq (impl : PySet) (acc : string)
    (seen : carrier impl) (a : UrlCitation) :
  references_step_in impl (acc, seen) a
  = if set_contains impl (url a) seen then (acc, seen)
    else (acc +:+ reference_line a, set_add impl (url a) seen).
Proof.
  unfold references_step_in, reference_line.
  now rewrite or_else_shown_title.
Qed.

(** Whatever the layout of the set, the loop over the annotations appends
    the lines of the first occurrences whose URL is not in it. *)
Lemma fold_references_step_in (impl : PySet) (anns : list UrlCitation) :
  lawful impl ->
  forall (acc : string) (seen : carrier impl),
    fst (fold_left (references_step_in impl) anns (acc, seen))
    = acc +:+ reference_lines
                (filter (fun b => set_contains impl (url b) seen = false)
                        (first_seen anns)).
Proof.
  intros [_ Hadd]. induction anns as [|a rest IH]; intros acc seen.
  - simpl. now rewrite append_nil_r.
  - cbn [fold_left first_seen]. rewrite references_step_in_eq.
    destruct (set_contains impl (url a) seen) eqn:Hin.
    + rewrite IH. f_equal. f_equal.
      rewrite filter_cons_False by (rewrite Hin; discriminate).
      rewrite list_filter_filter. apply list_filter_iff.
      intros b. split; [| now intros [Hb _]]. intros Hb.
      split; [exact Hb |]. intros Heq. rewrite Heq, Hin in Hb. discriminate.
    + assert (Hf : filter (fun b => set_contains impl (url b)
                                      (set_add impl (url a) seen) = false)
                          (first_seen rest)
                   = filter (fun b => set_contains impl (url b) seen = false)
                       (filter (fun b => url b <> url a) (first_seen rest))).
      { rewrite list_filter_filter. apply list_filter_iff. intros b.
        rewrite Hadd, orb_false_iff, String.eqb_neq. tauto. }
      rewrite IH, Hf. rewrite filter_cons_True by exact Hin.
      rewrite reference_lines_cons, append_assoc. reflexivity.
Qed.

Lemma report_in_split (impl : PySet) (m : ThreadMessage) :
  lawful impl ->
  report_in impl m
  = report_body m +:+ references_section (url_citation_annotations m).
Proof.
  intros Hlaw. unfold report_in, references_section.
  destruct (url_citation_annotations m) as [|a rest] eqn:Hanns.
  - now rewrite append_nil_r.
  - rewrite (fold_references_step_in impl (a :: rest) Hlaw).
    fold blank_line. fold (report_body m).
    rewrite filter_all by (intros b; apply (proj1 Hlaw)).
    unfold references_header. rewrite !append_assoc. reflexivity.
Qed.

Lemma gset_impl_lawful : lawful gset_impl.
Proof.
  split; cbn.
  - intros x. apply bool_decide_eq_false, not_elem_of_empty.
  - intros x y s. destruct (String.eqb_spec x y) as [-> | Hne]; cbn.
    + apply bool_decide_eq_true, elem_of_union. right.
      now apply elem_of_singleton.
    + apply bool_decide_ext. rewrite elem_of_union, elem_of_singleton.
      split; [intros [Hx | Hx]; [exact Hx | contradiction] | now left].
Defined.

Lemma list_impl_lawful : lawful list_impl.
Proof. split; reflexivity. Defined.

(** Sequencing keeps a property of the events. *)
Lemma bind_events {A B} (P : Event -> Prop) (m : M A) (k : A -> M B) :
  Forall P (snd m) -> (forall a, Forall P (snd (k a))) ->
  Forall P (snd (bind m k)).
Proof.
  intros Hm Hk. rewrite bind_eq. cbn [snd]. apply Forall_app. split; [exact Hm |].
  destruct (fst m); [apply Hk | constructor | constructor].
Qed.

Lemma call_no_write {A} (c : SdkCall) (reply : Exn + A) :
  Forall (fun e => is_file_write e = false) (snd (call c reply)).
Proof. destruct reply; repeat constructor. Qed.

Lemma os_environ_no_write (svc : AgentsService) (key : string) :
  Forall (fun e => is_file_write e = false) (snd (os_environ svc key)).
Proof. unfold os_environ. destruct (environ svc key); constructor. Qed.

Lemma emit_no_write (e : Event) :
  is_file_write e = false ->
  Forall (fun e => is_file_write e = false) (snd (emit e)).
Proof. intros He. repeat constructor. exact He. Qed.

Lemma summary_in_no_write (impl : PySet) (message : option ThreadMessage)
    (filepath : string) :
  Forall (fun e => is_file_write e = false)
         (snd (create_research_summary_in impl message filepath)).
Proof. destruct message; repeat constructor. Qed.

Lemma summary_no_write (message : option ThreadMessage) (filepath : string) :
  Forall (fun e => is_file_write e = false)
         (snd (create_research_summary message filepath)).
Proof. destruct message; repeat constructor. Qed.

Lemma loop_event_no_write (t : list Event) :
  Forall (fun e => loop_event e = true) t ->
  Forall (fun e => is_file_write e = false) t.
Proof.
  intros Ht. eapply Forall_impl; [exact Ht |].
  intros [| | | |[]|]; cbn; congruence.
Qed.

Lemma cleanup_no_write (svc : AgentsService) (agent_id thread_id : string)
    (run : ThreadRun) (k : nat) :
  Forall (fun e => is_file_write e = false)
         (snd (report_and_cleanup svc agent_id thread_id run k)).
Proof.
  unfold report_and_cleanup.
  destruct (String.eqb (status run) "failed"),
    (get_last_message_by_role svc k) as [e | [m |]],
    (delete_agent svc) as [e' | []]; repeat constructor.
Qed.

Lemma run_and_report_no_write (svc : AgentsService) (fuel : nat)
    (agent_id thread_id : string) :
  Forall (fun e => is_file_write e = false)
         (snd (run_and_report svc fuel agent_id thread_id)).
Proof.
  unfold run_and_report.
  apply bind_events; [apply call_no_write | intros run0].
  apply bind_events;
    [apply loop_event_no_write, poll_loop_events | intros [[run last] k]].
  apply cleanup_no_write.
Qed.

(** No invocation writes a file. *)
Lemma handler_no_write (svc : AgentsService) (fuel : nat)
    (research_topic : string) (report_type : ReportType) (language : string)
    (other_instructions : option string) :
  Forall (fun e => is_file_write e = false)
         (snd (retrieve_deep_research_report svc fuel research_topic
                 report_type language other_instructions)).
Proof.
  unfold retrieve_deep_research_report.
  repeat first
    [ apply run_and_report_no_write
    | apply bind_events; [| intros ?]
    | apply os_environ_no_write
    | apply call_no_write
    | apply emit_no_write; reflexivity
    | (unfold lift; destruct (report_instructions _ _ _ _); constructor) ].
Qed.

(** C10: the report assembler returns the same string, and logs the same
    lines, for every file path and in every run on the same message: the
    layout of the set of seen URLs, which changes from run to run, has no
    effect, since the set is only asked whether it holds a URL; the result
    is the body and the references section of the message.  The assembler
    only logs: it writes no file at [filepath] or elsewhere, and neither
    does any invocation of the handler that calls it. *)
Theorem summary_depends_on_message_only
    (run1 run2 : PySet) (message : option ThreadMessage)
    (filepath1 filepath2 : string) :
  lawful run1 -> lawful run2 ->
  create_research_summary_in run1 message filepath1
  = create_research_summary_in run2 message filepath2
  /\ create_research_summary_in run1 message filepath1
     = create_research_summary message filepath2
  /\ (forall m, message = Some m ->
        fst (create_research_summary_in run1 message filepath1)
        = Ok (Some (report_body m
                    +:+ references_section (url_citation_annotations m))))
  /\ (message = None ->
        fst (create_research_summary_in run1 message filepath1) = Ok None)
  /\ Forall (fun e => exists line, e = LogInfo line)
            (snd (create_research_summary_in run1 message filepath1))
  /\ Forall (fun e => is_file_write e = false)
            (snd (create_research_summary_in run1 message filepath1))
  /\ (forall svc fuel research_topic report_type language other_instructions,
        Forall (fun e => is_file_write e = false)
               (snd (retrieve_deep_research_report svc fuel research_topic
                       report_type language other_instructions))).
Proof.
  intros Hlaw1 Hlaw2.
  assert (Hsame : forall impl fp, lawful impl ->
            create_research_summary_in impl message fp
            = create_research_summary message filepath2).
  { intros impl fp Hlaw. destruct message as [m |]; [| reflexivity].
    unfold create_research_summary_in, create_research_summary.
    now rewrite (report_in_split impl m Hlaw), report_of_split. }
  split; [now rewrite (Hsame run1 filepath1 Hlaw1), (Hsame run2 filepath2 Hlaw2) |].
  split; [now apply Hsame |].
  split; [| split; [| split; [| split]]].
  - intros m ->. cbn [create_research_summary_in]. rewrite bind_eq. cbn [fst].
    now rewrite (report_in_split run1 m Hlaw1).
  - intros ->. reflexivity.
  - destruct message; repeat constructor; eexists; reflexivity.
  - apply summary_in_no_write.
  - intros. apply handler_no_write.
Qed.

Lemma summary_depends_on_message_only_witness :
  lawful gset_impl /\ lawful list_impl
  /\ create_research_summary_in gset_impl (Some sample_message) "a.md"
     = create_research_summary_in list_impl (Some sample_message) "b/c.md"
  /\ fst (create_research_summary_in list_impl (Some sample_message) "b/c.md")
     = Ok (Some ("Remote work reshapes cities." +:+ PyStr.NL +:+ PyStr.NL
                 +:+ "Density falls." +:+ PyStr.NL +:+ PyStr.NL
                 +:+ "## References" +:+ PyStr.NL
                 +:+ "- [Urban study](https://a.example/1)" +:+ PyStr.NL
                 +:+ "- [https://b.example/2](https://b.example/2)" +:+ PyStr.NL
                 +:+ "- [https://c.example/3](https://c.example/3)" +:+ PyStr.NL)).
Proof.
  split; [apply gset_impl_lawful |]. split; [apply list_impl_lawful |].
  pose proof (summary_depends_on_message_only gset_impl list_impl
                (Some sample_message) "a.md" "b/c.md"
                gset_impl_lawful list_impl_lawful) as (Heq & _).
  split; [exact Heq |]. reflexivity.
Defined.
